(** * TSA travel numbers ETL: the pipeline, its warehouse connector and the
      dashboard helpers, embedded in Rocq.

    The Python sources are [tsa_checkpoint/main.py],
    [tsa_checkpoint/webapp.py], [tsa_checkpoint/utils/__init__.py],
    [tsa_checkpoint/utils/base_classes.py] and
    [tsa_checkpoint/utils/snowflake_connector.py].  Pure functions become
    functions over strings, lists and [Z]; code that talks to the network or
    to the warehouse is written in a small state-and-exception monad whose
    state holds the heap of shared dictionaries and the trace of external
    calls. *)

From Stdlib Require Import ZArith List Ascii String DecimalString Lia Bool.
From stdpp Require Import base option list strings gmap.

Open Scope string_scope.
Open Scope Z_scope.

(** ** Text *)

(** The double-quote character, used around SQL identifiers. *)
Definition dq : string := String (ascii_of_nat 34) EmptyString.

(** The line feed. *)
Definition LF : ascii := ascii_of_nat 10.
Definition nl : string := String LF EmptyString.

(** [sep.join(parts)] *)
Fixpoint join (sep : string) (parts : list string) : string :=
  match parts with
  | [] => EmptyString
  | [p] => p
  | p :: rest => p +:+ sep +:+ join sep rest
  end.

(** [str(n)] for an [int] *)
Definition str_of_int (n : Z) : string :=
  NilZero.string_of_int (Z.to_int n).

(** ** Tables

    A [pandas.DataFrame] is kept as the ordered list of its columns; a column
    is a label, the name of its dtype as [str(dtype)] prints it, and its
    cells.  Labels may repeat, as they may in pandas. *)

Record date := mkDate { d_year : Z; d_month : Z; d_day : Z }.

Inductive cell :=
| CStr (s : string)
| CInt (n : Z)
| CDate (d : date)
| CNull.

Record column := mkColumn {
  col_name : string;
  col_dtype : string;
  col_cells : list cell
}.

Definition DataFrame := list column.

Definition df_columns (df : DataFrame) : list string := map col_name df.

(** [df.dtypes.items()] *)
Definition df_dtypes (df : DataFrame) : list (string * string) :=
  map (fun c => (col_name c, col_dtype c)) df.

(** ** snowflake_connector.py *)

Record SnowflakeConfig := mkSnowflakeConfig {
  database : string;
  schema : string;
  table : string;
  unique_keys : list string
}.

(** The [dtype_mapping] dictionary of [snowflake_create_table]. *)
Definition dtype_mapping : gmap string string :=
  <["datetime64[ns]" := "TIMESTAMP_NTZ"]>
  (<["bool" := "BOOLEAN"]>
  (<["float64" := "FLOAT"]>
  (<["int64" := "NUMBER"]>
  (<["object" := "TEXT"]> ∅)))).

(** [dict.get(key, default)] *)
Definition dict_get {V} (m : gmap string V) (k : string) (default : V) : V :=
  match m !! k with
  | Some v => v
  | None => default
  end.

Definition snowflake_create_table (table_name : string) (df : DataFrame) : string :=
  let columns :=
    map (fun '(col, dtype) => dq +:+ col +:+ dq +:+ " " +:+ dict_get dtype_mapping dtype "TEXT")
        (df_dtypes df) in
  let columns_sql := join ", " columns in
  "CREATE TABLE IF NOT EXISTS " +:+ table_name +:+ " (" +:+ columns_sql +:+ ");".

(** *** [textwrap.dedent]

    The statement of the upsert is an indented f-string passed through
    [textwrap.dedent]; the model follows the library function step by step:
    lines made of blanks only are emptied, the margin is the longest run of
    blanks common to the lines that hold something else, and the margin is
    cut from the head of every line that starts with it. *)

Definition is_blank (a : ascii) : bool :=
  Ascii.eqb a " "%char || Ascii.eqb a (ascii_of_nat 9).

(** [text.split("\n")] *)
Fixpoint split_lines (s : string) : list string :=
  match s with
  | EmptyString => [EmptyString]
  | String a rest =>
      if Ascii.eqb a LF then EmptyString :: split_lines rest
      else match split_lines rest with
           | l :: ls => String a l :: ls
           | [] => [String a EmptyString]
           end
  end.

Fixpoint all_blank (s : string) : bool :=
  match s with
  | EmptyString => true
  | String a rest => is_blank a && all_blank rest
  end.

(** The substitution of the whitespace-only pattern by the empty string, on
    one line. *)
Definition clear_blank_line (l : string) : string :=
  if all_blank l then EmptyString else l.

Fixpoint leading_blanks (s : string) : string :=
  match s with
  | EmptyString => EmptyString
  | String a rest => if is_blank a then String a (leading_blanks rest) else EmptyString
  end.

(** What the leading-whitespace pattern finds on one line: its leading
    blanks, when a character other than a blank follows them. *)
Definition line_indent (l : string) : option string :=
  if all_blank l then None else Some (leading_blanks l).

Fixpoint common_prefix (a b : string) : string :=
  match a, b with
  | String x a', String y b' =>
      if Ascii.eqb x y then String x (common_prefix a' b') else EmptyString
  | _, _ => EmptyString
  end.

(** [s.startswith(p)] *)
Definition startswith (s p : string) : bool := String.prefix p s.

Definition margin_step (margin : option string) (indent : string) : option string :=
  match margin with
  | None => Some indent
  | Some m =>
      if startswith indent m then Some m
      else if startswith m indent then Some indent
      else Some (common_prefix m indent)
  end.

Fixpoint cut_prefix (p s : string) : option string :=
  match p, s with
  | EmptyString, _ => Some s
  | String x p', String y s' => if Ascii.eqb x y then cut_prefix p' s' else None
  | String _ _, EmptyString => None
  end.

(** The substitution of the margin at the head of a line by the empty
    string. *)
Definition cut_margin (margin : string) (l : string) : string :=
  match cut_prefix margin l with
  | Some rest => rest
  | None => l
  end.

Definition dedent (text : string) : string :=
  let lines := map clear_blank_line (split_lines text) in
  let indents := omap line_indent lines in
  let margin := fold_left margin_step indents None in
  match margin with
  | Some (String a m) => join nl (map (cut_margin (String a m)) lines)
  | _ => join nl lines
  end.

(** *** The upsert statement of [load_dataframe_to_snowflake] *)

Definition staging_table_of (config : SnowflakeConfig) : string :=
  table config +:+ "_staging".

Definition merge_condition (config : SnowflakeConfig) : string :=
  join " AND "
    (map (fun col => "target." +:+ dq +:+ col +:+ dq +:+ " = source." +:+ dq +:+ col +:+ dq)
         (unique_keys config)).

Definition columns_list (df : DataFrame) : string :=
  join ", " (map (fun col => dq +:+ col +:+ dq) (df_columns df)).

Definition source_columns_list (df : DataFrame) : string :=
  join ", " (map (fun col => "source." +:+ dq +:+ col +:+ dq) (df_columns df)).

(** Twenty blanks: the depth of the statement's lines in the source. *)
Definition ind20 : string := "                    ".
(** Sixteen blanks: what precedes the closing quotes. *)
Definition ind16 : string := "                ".

(** The f-string, before [dedent]. *)
Definition merge_template (config : SnowflakeConfig) (df : DataFrame) : string :=
  nl +:+ ind20 +:+ "MERGE INTO " +:+ table config +:+ " AS target" +:+ nl
  +:+ ind20 +:+ "USING " +:+ staging_table_of config +:+ " AS source" +:+ nl
  +:+ ind20 +:+ "ON " +:+ merge_condition config +:+ nl
  +:+ ind20 +:+ "WHEN NOT MATCHED THEN" +:+ nl
  +:+ ind20 +:+ "INSERT (" +:+ columns_list df +:+ ")" +:+ nl
  +:+ ind20 +:+ "VALUES (" +:+ source_columns_list df +:+ ");" +:+ nl
  +:+ ind16.

Definition merge_stmt (config : SnowflakeConfig) (df : DataFrame) : string :=
  dedent (merge_template config df).

(** ** Exceptions, the outside world and the monad of effects *)

(** A raised exception: its class, what [str(err)] prints, and its
    [__cause__] (set by [raise ... from err]). *)
Inductive exn :=
| Exn (cls : string) (msg : string)
| ExnFrom (cls : string) (msg : string) (cause : exn).

Definition exn_cls (e : exn) : string :=
  match e with Exn c _ | ExnFrom c _ _ => c end.
Definition exn_str (e : exn) : string :=
  match e with Exn _ m | ExnFrom _ m _ => m end.
Definition exn_cause (e : exn) : option exn :=
  match e with Exn _ _ => None | ExnFrom _ _ c => Some c end.

(** The classes of the standard library that derive from [BaseException]
    without deriving from [Exception]; [except Exception] lets them
    through. *)
Definition not_Exception_classes : list string :=
  ["BaseException"; "BaseExceptionGroup"; "KeyboardInterrupt"; "SystemExit";
   "GeneratorExit"; "CancelledError"].

Definition is_Exception (e : exn) : bool :=
  negb (existsb (String.eqb (exn_cls e)) not_Exception_classes).

Inductive outcome (A : Type) :=
| Ok (a : A)
| Raise (e : exn).
Arguments Ok {A} a.
Arguments Raise {A} e.

(** An HTTP response: its status line, the URL it answers for, and what
    [pd.read_html] makes of its body once [BeautifulSoup] has printed it:
    the tables of the page, in document order, or the error of the parser
    (a [ValueError] for a page without a table, the [XMLSyntaxError] of
    lxml for an empty document). *)
Record http_response := mkResponse {
  status_code : Z;
  reason : string;
  response_url : string;
  read_html : outcome (list DataFrame)
}.

(** Calls that leave the process, and what came back. *)
Inductive call :=
| CallHttpGet (url : string) (timeout : Z)
| CallConnect (kwargs : gmap string string)
| CallCursor
| CallExecute (sql : string)
| CallWritePandas (df : DataFrame) (table_name : string) (quote_identifiers : bool)
| CallCommit
| CallFetchPandasAll
| CallCursorExit
| CallClose
| CallLog (logger : string) (msg : string)
| CallPrint (line : string).

Inductive answer :=
| AnsDone
| AnsResponse (r : http_response)
| AnsWrite (success : bool) (nrows : Z)
| AnsFrame (df : DataFrame)
| AnsRaise (e : exn).

Record entry := mkEntry { e_call : call; e_answer : answer }.

(** The outside world answers each call from what happened so far. *)
Record Env := mkEnv {
  env_today : date;
  env_http_get : list entry -> string -> Z -> outcome http_response;
  env_connect : list entry -> gmap string string -> outcome unit;
  env_cursor : list entry -> outcome unit;
  env_execute : list entry -> string -> outcome unit;
  env_write_pandas : list entry -> DataFrame -> string -> bool -> outcome (bool * Z);
  env_commit : list entry -> outcome unit;
  env_fetch_pandas_all : list entry -> outcome DataFrame;
  env_cursor_exit : list entry -> outcome unit;
  env_close : list entry -> outcome unit
}.

(** The state: the dictionaries that are shared by reference, and the log of
    calls. *)
Record world := mkWorld {
  heap : gmap positive (gmap string string);
  history : list entry
}.

Definition M (A : Type) : Type := world -> outcome A * world.

Definition ret {A} (a : A) : M A := fun w => (Ok a, w).

Definition raise {A} (e : exn) : M A := fun w => (Raise e, w).

Definition bind {A B} (m : M A) (k : A -> M B) : M B :=
  fun w =>
    match m w with
    | (Ok a, w') => k a w'
    | (Raise e, w') => (Raise e, w')
    end.

#[global] Instance M_ret : MRet M := @ret.
#[global] Instance M_bind : MBind M := fun A B k m => bind m k.

Definition lift {A} (r : outcome A) : M A := fun w => (r, w).

Definition record (c : call) (a : answer) (w : world) : world :=
  mkWorld (heap w) (history w ++ [mkEntry c a]).

(** One call to the outside. *)
Definition ask {A} (c : call) (oracle : list entry -> outcome A) (enc : A -> answer) : M A :=
  fun w =>
    let r := oracle (history w) in
    (r, record c (match r with Ok a => enc a | Raise e => AnsRaise e end) w).

(** A call that only leaves a line behind. *)
Definition tell (c : call) : M unit :=
  fun w => (Ok tt, record c AnsDone w).

(** [try: body finally: final] *)
Definition try_finally {A} (body : M A) (final : M unit) : M A :=
  fun w =>
    let '(r, w1) := body w in
    match final w1 with
    | (Ok _, w2) => (r, w2)
    | (Raise e, w2) => (Raise e, w2)
    end.

(** [try: body except Exception as err: handler(err)] *)
Definition try_except {A} (body : M A) (handler : exn -> M A) : M A :=
  fun w =>
    match body w with
    | (Ok a, w1) => (Ok a, w1)
    | (Raise e, w1) => if is_Exception e then handler e w1 else (Raise e, w1)
    end.

(** The dictionary behind a reference. *)
Definition deref (l : positive) (w : world) : gmap string string :=
  default ∅ (heap w !! l).

Definition read_dict (l : positive) : M (gmap string string) :=
  fun w => (Ok (deref l w), w).

(** [d.update(items)], in place. *)
Definition dict_update_items (items : list (string * string)) (d : gmap string string)
  : gmap string string :=
  fold_left (fun acc kv => <[kv.1 := kv.2]> acc) items d.

Definition dict_update (l : positive) (items : list (string * string)) : M unit :=
  fun w => (Ok tt, mkWorld (<[l := dict_update_items items (deref l w)]> (heap w)) (history w)).

(** A new dictionary object. *)
Definition alloc_dict (d : gmap string string) : M positive :=
  fun w => let l := fresh (dom (heap w)) in
           (Ok l, mkWorld (<[l := d]> (heap w)) (history w)).

(** ** snowflake_connector.py, the two operations *)

Record SnowflakeConnector := mkConnector {
  connection_params : positive;
  config : SnowflakeConfig
}.

Definition sf_connect (env : Env) (kwargs : gmap string string) : M unit :=
  ask (CallConnect kwargs) (fun h => env_connect env h kwargs) (fun _ => AnsDone).
Definition sf_cursor (env : Env) : M unit :=
  ask CallCursor (env_cursor env) (fun _ => AnsDone).
Definition sf_cursor_exit (env : Env) : M unit :=
  ask CallCursorExit (env_cursor_exit env) (fun _ => AnsDone).
Definition sf_execute (env : Env) (sql : string) : M unit :=
  ask (CallExecute sql) (fun h => env_execute env h sql) (fun _ => AnsDone).
Definition sf_write_pandas (env : Env) (df : DataFrame) (table_name : string) (quote : bool)
  : M (bool * Z) :=
  ask (CallWritePandas df table_name quote)
      (fun h => env_write_pandas env h df table_name quote)
      (fun r => AnsWrite r.1 r.2).
Definition sf_commit (env : Env) : M unit :=
  ask CallCommit (env_commit env) (fun _ => AnsDone).
Definition sf_fetch_pandas_all (env : Env) : M DataFrame :=
  ask CallFetchPandasAll (env_fetch_pandas_all env) AnsFrame.
Definition sf_close (env : Env) : M unit :=
  ask CallClose (env_close env) (fun _ => AnsDone).

(** [with ctx.cursor() as cs: body] *)
Definition with_cursor {A} (env : Env) (body : M A) : M A :=
  sf_cursor env ;; try_finally body (sf_cursor_exit env).

Definition staging_write_error : exn :=
  Exn "RuntimeError" "Failed to write DataFrame to the staging table.".

(** What the load does with [df = None]: the first use of the table is
    [df.dtypes], in [snowflake_create_table]. *)
Definition none_has_no_dtypes : exn :=
  Exn "AttributeError" "'NoneType' object has no attribute 'dtypes'".

Definition inserted_line (config : SnowflakeConfig) (nrows : Z) : string :=
  "Inserted " +:+ str_of_int nrows +:+ " rows into "
  +:+ database config +:+ "." +:+ schema config +:+ "." +:+ table config.

(** The statements inside [with ctx.cursor() as cs:]. *)
Definition load_body (env : Env) (config : SnowflakeConfig) (odf : option DataFrame) : M unit :=
  sf_execute env ("CREATE DATABASE IF NOT EXISTS " +:+ database config) ;;
  sf_execute env ("USE DATABASE " +:+ database config) ;;
  sf_execute env ("CREATE SCHEMA IF NOT EXISTS " +:+ schema config) ;;
  sf_execute env ("USE SCHEMA " +:+ schema config) ;;
  df ← match odf with
        | Some df => ret df
        | None => raise none_has_no_dtypes
        end;
  sf_execute env (snowflake_create_table (table config) df) ;;
  let staging_table := table config +:+ "_staging" in
  sf_execute env ("CREATE OR REPLACE TEMPORARY TABLE " +:+ staging_table
                  +:+ " LIKE " +:+ table config) ;;
  written ← sf_write_pandas env df staging_table false;
  let success : bool := fst written in
  let nrows : Z := snd written in
  (if success then ret tt else raise staging_write_error) ;;
  sf_execute env (merge_stmt config df) ;;
  sf_commit env ;;
  tell (CallPrint (inserted_line config nrows)).

Definition load_dataframe_to_snowflake (env : Env) (self : SnowflakeConnector)
    (odf : option DataFrame) : M unit :=
  kwargs ← read_dict (connection_params self);
  sf_connect env kwargs ;;
  try_finally
    (with_cursor env (load_body env (config self) odf))
    (sf_close env).

Definition select_all (config : SnowflakeConfig) : string :=
  "SELECT * FROM " +:+ table config +:+ ";".

Definition extract_dataframe_from_snowflake (env : Env) (self : SnowflakeConnector)
  : M DataFrame :=
  dict_update (connection_params self)
    [("database", database (config self)); ("schema", schema (config self))] ;;
  kwargs ← read_dict (connection_params self);
  sf_connect env kwargs ;;
  try_finally
    (with_cursor env
       (sf_execute env (select_all (config self)) ;;
        sf_fetch_pandas_all env))
    (sf_close env).

#[global] Instance outcome_ret : MRet outcome := @Ok.
#[global] Instance outcome_bind : MBind outcome :=
  fun A B k r => match r with Ok a => k a | Raise e => Raise e end.
#[global] Instance outcome_fmap : FMap outcome :=
  fun A B f r => match r with Ok a => Ok (f a) | Raise e => Raise e end.

(** ** The calendar of [datetime]

    [datetime.now() - timedelta(days=365)] goes through the ordinal of the
    date; the functions below are [_is_leap], [_days_before_year],
    [_days_in_month], [_days_before_month], [_ymd2ord] and [_ord2ymd] of the
    standard library. *)

Definition is_leap (year : Z) : bool :=
  (year mod 4 =? 0) && (negb (year mod 100 =? 0) || (year mod 400 =? 0)).

Definition days_before_year (year : Z) : Z :=
  let y := year - 1 in
  y * 365 + y / 4 - y / 100 + y / 400.

Definition DAYS_IN_MONTH : list Z :=
  [-1; 31; 28; 31; 30; 31; 30; 31; 31; 30; 31; 30; 31].

Definition DAYS_BEFORE_MONTH : list Z :=
  [-1; 0; 31; 59; 90; 120; 151; 181; 212; 243; 273; 304; 334].

Definition days_in_month (year month : Z) : Z :=
  if (month =? 2) && is_leap year then 29
  else nth (Z.to_nat month) DAYS_IN_MONTH 0.

Definition days_before_month (year month : Z) : Z :=
  nth (Z.to_nat month) DAYS_BEFORE_MONTH 0
  + (if (2 <? month) && is_leap year then 1 else 0).

Definition ymd2ord (year month day : Z) : Z :=
  days_before_year year + days_before_month year month + day.

Definition DI400Y : Z := 146097.
Definition DI100Y : Z := 36524.
Definition DI4Y : Z := 1461.

Definition ord2ymd (ordinal : Z) : date :=
  let n := ordinal - 1 in
  let n400 := n / DI400Y in
  let n := n mod DI400Y in
  let year := n400 * 400 + 1 in
  let n100 := n / DI100Y in
  let n := n mod DI100Y in
  let n4 := n / DI4Y in
  let n := n mod DI4Y in
  let n1 := n / 365 in
  let n := n mod 365 in
  let year := year + n100 * 100 + n4 * 4 + n1 in
  if (n1 =? 4) || (n100 =? 4) then mkDate (year - 1) 12 31
  else
    let leapyear := (n1 =? 3) && (negb (n4 =? 24) || (n100 =? 3)) in
    let month := Z.shiftr (n + 50) 5 in
    let preceding :=
      nth (Z.to_nat month) DAYS_BEFORE_MONTH 0
      + (if (2 <? month) && leapyear then 1 else 0) in
    let month' := if n <? preceding then month - 1 else month in
    let preceding' :=
      if n <? preceding
      then preceding - (nth (Z.to_nat month') DAYS_IN_MONTH 0
                        + (if (month' =? 2) && leapyear then 1 else 0))
      else preceding in
    mkDate year month' (n - preceding' + 1).

Definition MAXORDINAL : Z := 3652059.

Definition toordinal (d : date) : Z := ymd2ord (d_year d) (d_month d) (d_day d).

(** [d - timedelta(days=k)] *)
Definition minus_days (d : date) (k : Z) : outcome date :=
  let n := toordinal d - k in
  if (0 <? n) && (n <=? MAXORDINAL) then Ok (ord2ymd n)
  else Raise (Exn "OverflowError" "date value out of range").

(** A date that [datetime] can hold. *)
Definition valid_date (d : date) : Prop :=
  1 <= d_year d <= 9999 /\ 1 <= d_month d <= 12
  /\ 1 <= d_day d <= days_in_month (d_year d) (d_month d).

(** ** utils/__init__.py: the command line *)

(** [range(lo, hi)] *)
Definition py_range (lo hi : Z) : list Z :=
  map (fun i => lo + Z.of_nat i) (seq 0 (Z.to_nat (hi - lo))).

Record Namespace := mkNamespace {
  ns_environment : string;
  ns_start_year : Z;
  ns_sf_prefix : string
}.

(** The command line, cut into the value given to each flag, if any. *)
Record argv := mkArgv {
  arg_environment : option string;
  arg_start_year : option string
}.

(** [parser.error]: the usage message, then [sys.exit(2)]. *)
Definition usage_exit : exn := Exn "SystemExit" "2".

Section ParseArgs.

(** [int(token)]: the integer a string spells, if it spells one. *)
Variable py_int : string -> option Z.

Definition start_year_choices (today : date) : list Z :=
  py_range 2019 (d_year today + 1).

Definition start_year_default (today : date) : outcome Z :=
  d ← minus_days today 365; Ok (d_year d).

Definition parse_environment (given : option string) : outcome string :=
  match given with
  | None => Ok "uat"
  | Some v => if existsb (String.eqb v) ["prod"; "uat"] then Ok v else Raise usage_exit
  end.

Definition parse_start_year (today : date) (default : Z) (given : option string) : outcome Z :=
  match given with
  | None => Ok default
  | Some token =>
      match py_int token with
      | None => Raise usage_exit
      | Some v =>
          if existsb (Z.eqb v) (start_year_choices today) then Ok v
          else Raise usage_exit
      end
  end.

Definition parse_args (today : date) (args : argv) : outcome Namespace :=
  default ← start_year_default today;
  environment ← parse_environment (arg_environment args);
  start_year ← parse_start_year today default (arg_start_year args);
  Ok (mkNamespace environment start_year
        (if String.eqb environment "prod" then EmptyString else "uat\")).

End ParseArgs.

(** A reading of decimal numerals, for the examples: an optional sign and
    digits. *)
Definition digit_of (a : ascii) : option Z :=
  let n := Z.of_nat (nat_of_ascii a) in
  if (48 <=? n) && (n <=? 57) then Some (n - 48) else None.

Fixpoint digits_value (acc : Z) (s : string) : option Z :=
  match s with
  | EmptyString => Some acc
  | String a rest =>
      match digit_of a with
      | Some d => digits_value (acc * 10 + d) rest
      | None => None
      end
  end.

Definition int_of_decimal (s : string) : option Z :=
  match s with
  | EmptyString => None
  | String "-" (String a rest) => Z.opp <$> digits_value 0 (String a rest)
  | String "+" (String a rest) => digits_value 0 (String a rest)
  | _ => digits_value 0 s
  end.

(** ** utils/base_classes.py: the run context *)

(** The secrets, as the strings they resolve to. *)
Record Config := mkConfig {
  ACCOUNT : string;
  USER : string;
  PASSWORD : string;
  WAREHOUSE : string;
  ROLE : string;
  DATABASE : string;
  SCHEMA : string;
  TABLE : string
}.

(** [BaseVariables]; [bv_conn] is a reference to the one dictionary that
    every connector built from the context shares. *)
Record BaseVariables := mkBaseVariables {
  bv_environment : string;
  bv_prefix : string;
  bv_year : Z;
  bv_conn : positive;
  bv_database : string;
  bv_schema : string;
  bv_table : string
}.

Definition conn_of_config (c : Config) : gmap string string :=
  <["role" := ROLE c]>
  (<["warehouse" := WAREHOUSE c]>
  (<["password" := PASSWORD c]>
  (<["user" := USER c]>
  (<["account" := ACCOUNT c]> ∅)))).

(** The class body of [BaseVariables], run once at import. *)
Definition make_BaseVariables (arguments : Namespace) (c : Config) : M BaseVariables :=
  conn ← alloc_dict (conn_of_config c);
  mret (mkBaseVariables (ns_environment arguments) (ns_sf_prefix arguments)
          (ns_start_year arguments) conn (DATABASE c) (SCHEMA c) (TABLE c)).

(** ** The pandas operations the pipeline uses *)

(** [repr(s)] for a [str]: single quotes, unless the text holds a single
    quote and no double quote; the backslash, the quote in use and the
    control characters are escaped. *)
Definition single_quote : ascii := "'"%char.
Definition double_quote : ascii := ascii_of_nat 34.
Definition backslash : ascii := "\"%char.

Fixpoint contains (a : ascii) (s : string) : bool :=
  match s with
  | EmptyString => false
  | String b rest => Ascii.eqb b a || contains a rest
  end.

Definition hex_digit (n : nat) : ascii :=
  nth n (list_ascii_of_string "0123456789abcdef") "0"%char.

Definition repr_char (quote a : ascii) : string :=
  let n := nat_of_ascii a in
  if Ascii.eqb a quote || Ascii.eqb a backslash then String backslash (String a EmptyString)
  else if (n =? 9)%nat then String backslash "t"
  else if (n =? 10)%nat then String backslash "n"
  else if (n =? 13)%nat then String backslash "r"
  else if (n <? 32)%nat || (n =? 127)%nat
       then String backslash
              (String "x" (String (hex_digit (n / 16)) (String (hex_digit (n mod 16)) EmptyString)))
  else String a EmptyString.

Definition py_repr (s : string) : string :=
  let quote :=
    if contains single_quote s && negb (contains double_quote s)
    then double_quote else single_quote in
  String quote
    (String.concat EmptyString (map (repr_char quote) (list_ascii_of_string s))
     +:+ String quote EmptyString).

(** [repr] of a list of strings *)
Definition list_repr (l : list string) : string :=
  "[" +:+ join ", " (map py_repr l) +:+ "]".

(** [KeyError(key)]; [str] of a [KeyError] with one argument is the [repr]
    of the argument. *)
Definition KeyError (key : string) : exn := Exn "KeyError" (py_repr key).

Definition has_label (key : string) (c : column) : bool := String.eqb (col_name c) key.

(** [df[key]], read as a Series: one column must carry the label. *)
Definition getitem (df : DataFrame) (key : string) : outcome column :=
  match List.filter (has_label key) df with
  | [] => Raise (KeyError key)
  | [c] => Ok c
  | _ :: _ :: _ => Raise (Exn "ValueError" "the label selects more than one column")
  end.

(** [df[key] = values], for a label that is present. *)
Definition setitem (df : DataFrame) (key : string) (dtype : string) (values : list cell)
  : DataFrame :=
  map (fun c => if has_label key c then mkColumn key dtype values else c) df.

(** The distinct strings of a list, each where it first appears. *)
Fixpoint distinct (l : list string) : list string :=
  match l with
  | [] => []
  | x :: rest => x :: List.filter (fun y => negb (String.eqb y x)) (distinct rest)
  end.

(** The [KeyError] of [_raise_if_missing], for the labels asked for and
    those of them that no column carries. *)
Definition not_in_index (labels missing : list string) : exn :=
  KeyError
    (if (length missing =? length labels)%nat
     then "None of [Index(" +:+ list_repr labels
          +:+ ", dtype='object')] are in the [columns]"
     else list_repr (distinct missing) +:+ " not in index").

(** [df.loc[:, labels]] *)
Definition loc_columns (df : DataFrame) (labels : list string) : outcome DataFrame :=
  match List.filter (fun l => negb (existsb (has_label l) df)) labels with
  | [] => Ok (flat_map (fun l => List.filter (has_label l) df) labels)
  | missing => Raise (not_in_index labels missing)
  end.

(** [df.rename(columns=mapping)]: labels outside the mapping stay. *)
Definition rename (mapping : gmap string string) (df : DataFrame) : DataFrame :=
  map (fun c => mkColumn (dict_get mapping (col_name c) (col_name c)) (col_dtype c) (col_cells c)) df.

(** [len(df)] *)
Definition nrows (df : DataFrame) : nat :=
  match df with
  | [] => 0%nat
  | c :: _ => length (col_cells c)
  end.

(** [df[key] = scalar]: fills the column, or adds it at the end. *)
Definition assign_scalar (df : DataFrame) (kv : string * string) : DataFrame :=
  let filled := mkColumn kv.1 "object" (repeat (CStr kv.2) (nrows df)) in
  if existsb (has_label kv.1) df
  then map (fun c => if has_label kv.1 c then filled else c) df
  else (df ++ [filled])%list.

(** [df.assign], with the keyword arguments in their order *)
Definition assign (df : DataFrame) (kwargs : list (string * string)) : DataFrame :=
  fold_left assign_scalar kwargs df.

(** [str.upper], for a text written in ASCII: the letters a to z change.
    The bytes outside ASCII, where [str.upper] follows Unicode, are left as
    they are; the theorems on labels ask for ASCII. *)
Definition upper_ascii (a : ascii) : ascii :=
  let n := nat_of_ascii a in
  if (97 <=? n)%nat && (n <=? 122)%nat then ascii_of_nat (n - 32) else a.

Fixpoint upper (s : string) : string :=
  match s with
  | EmptyString => EmptyString
  | String a rest => String (upper_ascii a) (upper rest)
  end.

(** [df.columns = df.columns.str.upper()] *)
Definition upper_columns (df : DataFrame) : DataFrame :=
  map (fun c => mkColumn (upper (col_name c)) (col_dtype c) (col_cells c)) df.

(** *** Dates in the format [%m/%d/%Y]

    The directives are those of [strptime]: [%m] is a month of one or two
    digits, [%d] a day of one or two digits (a blank may stand for the first
    one), [%Y] a year of four digits; the whole string must be used, and the
    three numbers must name a day of the calendar. *)

Fixpoint split_char (sep : ascii) (s : string) : list string :=
  match s with
  | EmptyString => [EmptyString]
  | String a rest =>
      if Ascii.eqb a sep then EmptyString :: split_char sep rest
      else match split_char sep rest with
           | l :: ls => String a l :: ls
           | [] => [String a EmptyString]
           end
  end.

Definition in_range (lo hi : Z) (v : Z) : bool := (lo <=? v) && (v <=? hi).

Definition month_directive (s : string) : option Z :=
  match s with
  | String a EmptyString =>
      d ← digit_of a; if in_range 1 9 d then Some d else None
  | String a (String b EmptyString) =>
      x ← digit_of a; y ← digit_of b;
      if (x =? 1) && in_range 0 2 y then Some (10 + y)
      else if (x =? 0) && in_range 1 9 y then Some y
      else None
  | _ => None
  end.

Definition day_directive (s : string) : option Z :=
  match s with
  | String a EmptyString =>
      d ← digit_of a; if in_range 1 9 d then Some d else None
  | String a (String b EmptyString) =>
      y ← digit_of b;
      if Ascii.eqb a " "%char then (if in_range 1 9 y then Some y else None)
      else
        x ← digit_of a;
        if (x =? 3) && in_range 0 1 y then Some (30 + y)
        else if in_range 1 2 x then Some (10 * x + y)
        else if (x =? 0) && in_range 1 9 y then Some y
        else None
  | _ => None
  end.

Definition year_directive (s : string) : option Z :=
  match s with
  | String a (String b (String c (String d EmptyString))) =>
      digits_value 0 s
  | _ => None
  end.

Definition strptime_mdY (s : string) : option date :=
  match split_char "/"%char s with
  | [m; d; y] =>
      month ← month_directive m;
      day ← day_directive d;
      year ← year_directive y;
      if (1 <=? year) && (day <=? days_in_month year month)
      then Some (mkDate year month day) else None
  | _ => None
  end.

(** The days that a nanosecond timestamp of pandas can hold at midnight:
    22 September 1677 to 11 April 2262. *)
Definition in_timestamp_bounds (d : date) : bool :=
  (toordinal (mkDate 1677 9 22) <=? toordinal d)
  && (toordinal d <=? toordinal (mkDate 2262 4 11)).

Definition out_of_bounds (text : string) : exn :=
  Exn "OutOfBoundsDatetime" ("Out of bounds nanosecond timestamp: " +:+ text).

Definition no_match (text : string) : exn :=
  Exn "ValueError" ("time data " +:+ text +:+ " doesn't match format %m/%d/%Y").

(** The strings that [pd.to_datetime] reads as a missing value, and those
    it reads off the clock, before it tries the format. *)
Definition nat_strings : list string := ["NaT"; "nat"; "NAT"; "nan"; "NaN"; "NAN"].
Definition clock_strings : list string := ["now"; "today"].

Definition is_empty (s : string) : bool :=
  match s with EmptyString => true | _ => false end.

(** One value of [pd.to_datetime(series, format="%m/%d/%Y").dt.date], on
    the day [today]: the empty string and the strings for a missing value
    give a null, [now] and [today] give the day of the clock, any other
    string is read with the format and must fit a timestamp; a date fits or
    not, a null stays a null, an integer is printed and does not match the
    format.  The classes of the errors are those of pandas; their texts are
    shortened. *)
Definition to_date (today : date) (c : cell) : outcome cell :=
  match c with
  | CStr s =>
      if is_empty s || existsb (String.eqb s) nat_strings then Ok CNull
      else if existsb (String.eqb s) clock_strings then
        if in_timestamp_bounds today then Ok (CDate today) else Raise (out_of_bounds s)
      else
        match strptime_mdY s with
        | Some d => if in_timestamp_bounds d then Ok (CDate d) else Raise (out_of_bounds s)
        | None => Raise (no_match s)
        end
  | CDate d =>
      if in_timestamp_bounds d then Ok (CDate d) else Raise (out_of_bounds (EmptyString))
  | CNull => Ok CNull
  | CInt n => Raise (no_match (str_of_int n))
  end.

Fixpoint to_dates (today : date) (cells : list cell) : outcome (list cell) :=
  match cells with
  | [] => Ok []
  | c :: rest => d ← to_date today c; ds ← to_dates today rest; Ok (d :: ds)
  end.

(** ** main.py: the TSA pipeline *)

Record TSAETL := mkTSAETL {
  metadata : list (string * string);
  url : string;
  df : option DataFrame
}.

Definition now_year (env : Env) : Z := d_year (env_today env).

Definition source_url : string := "https://www.tsa.gov/travel/passenger-volumes".

(** [TSAETL.__init__] *)
Definition TSAETL_init (env : Env) (base_variables : BaseVariables) (year : Z) : TSAETL :=
  let metadata :=
    [ ("country", "US");
      ("frequency", "daily");
      ("series_id", bv_prefix base_variables +:+ "TSA\passenger_volumes");
      ("source", source_url);
      ("unit", "number_of") ] in
  mkTSAETL metadata
    (if year =? now_year env then source_url
     else source_url +:+ "/" +:+ str_of_int year)
    None.

(** The error of [response.raise_for_status()], with the message of
    requests. *)
Definition http_error (r : http_response) : exn :=
  Exn "HTTPError"
    (str_of_int (status_code r)
     +:+ (if status_code r <? 500 then " Client Error: " else " Server Error: ")
     +:+ reason r +:+ " for url: " +:+ response_url r).

(** [response.raise_for_status()] *)
Definition raise_for_status (r : http_response) : M unit :=
  if in_range 400 599 (status_code r)
  then raise (http_error r)
  else mret tt.

(** [pd.read_html(...)[0]] *)
Definition first_table (r : http_response) : M DataFrame :=
  tables ← lift (read_html r);
  match tables with
  | [] => raise (Exn "IndexError" "list index out of range")
  | t :: _ => mret t
  end.

Definition tsa_extract (env : Env) (self : TSAETL) : M TSAETL :=
  tell (CallLog "TSAETL" "Initiating the Data Extraction Method.") ;;
  response ← ask (CallHttpGet (url self) 15)
                 (fun h => env_http_get env h (url self) 15) AnsResponse;
  raise_for_status response ;;
  t ← first_table response;
  mret (mkTSAETL (metadata self) (url self) (Some t)).

(** The statements of [transform], on the working table, on the day
    [today] of the clock. *)
Definition transform_frame (today : date) (metadata : list (string * string))
    (df : DataFrame) : outcome DataFrame :=
  let current_year := d_year today in
  dates ← getitem df "Date";
  parsed ← to_dates today (col_cells dates);
  let df := setitem df "Date" "object" parsed in
  df ← (if (2 <? length df)%nat then
          df ← loc_columns df ["Date"; str_of_int current_year];
          Ok (rename (<[str_of_int current_year := "value"]> (<["Date" := "travel_date"]> ∅)) df)
        else
          Ok (rename (<["Numbers" := "value"]> (<["Date" := "travel_date"]> ∅)) df));
  let df := assign df metadata in
  Ok (upper_columns df).

Definition none_not_subscriptable : exn :=
  Exn "TypeError" "'NoneType' object is not subscriptable".

Definition tsa_transform (env : Env) (self : TSAETL) : M TSAETL :=
  tell (CallLog "TSAETL" "Initiating the Data Transformation Method.") ;;
  t ← match df self with
      | Some t => lift (transform_frame (env_today env) (metadata self) t)
      | None => raise none_not_subscriptable
      end;
  mret (mkTSAETL (metadata self) (url self) (Some t)).

(** ** utils/base_classes.py: the contract of a pipeline *)

(** The three phases, as a class provides them. *)
Record Pipeline (S : Type) := mkPipeline {
  extract : S -> M S;
  transform : S -> M S;
  load : S -> M unit
}.
Arguments extract {S} _ _.
Arguments transform {S} _ _.
Arguments load {S} _ _.
Arguments mkPipeline {S} _ _ _.

(** [DataExtractor.load] *)
Definition DataExtractor_load (env : Env) (base_variables : BaseVariables)
    (working : option DataFrame) : M unit :=
  let conf :=
    mkSnowflakeConfig
      (bv_database base_variables +:+ "_" +:+ upper (bv_environment base_variables))
      (bv_schema base_variables)
      (bv_table base_variables)
      ["TRAVEL_DATE"] in
  let snow := mkConnector (bv_conn base_variables) conf in
  load_dataframe_to_snowflake env snow working.

(** The message and cause of the error that [etl] raises for a stage. *)
Definition stage_failure (stage : string) (err : exn) : exn :=
  ExnFrom "RuntimeError"
    ("Scraper failed at " +:+ stage +:+ ". Error was " +:+ exn_str err) err.

(** [DataExtractor.etl]; the phases change the instance, so each hands the
    instance on. *)
Definition etl {S} (cls : Pipeline S) (self : S) : M S :=
  self ← try_except (extract cls self)
           (fun err => raise (stage_failure "Extraction" err));
  self ← try_except (transform cls self)
           (fun err => raise (stage_failure "Transformation" err));
  try_except (load cls self)
    (fun err => raise (stage_failure "Upload" err)) ;;
  mret self.

(** The base class itself: the two abstract phases. *)
Definition DataExtractor (env : Env) (base_variables : BaseVariables)
  : Pipeline (option DataFrame) :=
  mkPipeline
    (fun _ => raise (Exn "NotImplementedError" "Extract Method Not Implemented."))
    (fun _ => raise (Exn "NotImplementedError" "Transform Method Not Implemented."))
    (DataExtractor_load env base_variables).

(** The class [TSAETL(DataExtractor)]. *)
Definition TSAETL_class (env : Env) (base_variables : BaseVariables) : Pipeline TSAETL :=
  mkPipeline
    (tsa_extract env)
    (tsa_transform env)
    (fun self => DataExtractor_load env base_variables (df self)).

(** [for x in xs: body(x)] *)
Fixpoint for_each {A} (xs : list A) (body : A -> M unit) : M unit :=
  match xs with
  | [] => mret tt
  | x :: rest => body x ;; for_each rest body
  end.

(** [main], over the [etl] method that the instances carry. *)
Definition main_with (env : Env) (base_variables : BaseVariables)
    (etl_method : TSAETL -> M unit) : M unit :=
  let current_year := now_year env in
  let start_year := bv_year base_variables in
  for_each (py_range start_year (current_year + 1))
    (fun year =>
       let tsa_etl := TSAETL_init env base_variables year in
       etl_method tsa_etl).

Definition main (env : Env) (base_variables : BaseVariables) : M unit :=
  main_with env base_variables
    (fun tsa_etl => etl (TSAETL_class env base_variables) tsa_etl ;; mret tt).

(** ** webapp.py *)

(** The read of [load_data], on the context's connection parameters. *)
Definition load_data_read (env : Env) (connection_params : positive)
    (conf : SnowflakeConfig) : M DataFrame :=
  extract_dataframe_from_snowflake env (mkConnector connection_params conf).

Definition date_eqb (a b : date) : bool :=
  (d_year a =? d_year b) && (d_month a =? d_month b) && (d_day a =? d_day b).

Definition cell_eqb (a b : cell) : bool :=
  match a, b with
  | CStr s, CStr t => String.eqb s t
  | CInt m, CInt n => m =? n
  | CDate d, CDate e => date_eqb d e
  | CNull, CNull => true
  | _, _ => false
  end.

Definition is_null (c : cell) : bool :=
  match c with CNull => true | _ => false end.

(** Digits of [n], at least [width] of them. *)
Definition zero_pad (width : nat) (n : Z) : string :=
  let s := str_of_int n in
  String.concat EmptyString (repeat "0" (width - String.length s)) +:+ s.

(** [str(x)] *)
Definition cell_str (c : cell) : string :=
  match c with
  | CStr s => s
  | CInt n => str_of_int n
  | CDate d => zero_pad 4 (d_year d) +:+ "-" +:+ zero_pad 2 (d_month d)
               +:+ "-" +:+ zero_pad 2 (d_day d)
  | CNull => "None"
  end.

(** [Series.unique()]: the distinct values, each where it first appears. *)
Definition unique (cells : list cell) : list cell :=
  fold_left (fun seen x => if existsb (cell_eqb x) seen then seen else (seen ++ [x])%list)
            cells [].

(** [Series.nunique()]: nulls are not counted. *)
Definition nunique (cells : list cell) : nat :=
  length (List.filter (fun c => negb (is_null c)) (unique cells)).

Definition is_int (c : cell) : bool :=
  match c with CInt _ => true | _ => false end.

(** The dtype of the column that [pd.DataFrame] builds from a list of
    values: [float64] for the empty list, [int64] for integers, [float64]
    for integers among nulls (the integers become floats of the same value
    and the nulls NaN), [object] otherwise. *)
Definition infer_dtype (cells : list cell) : string :=
  match cells with
  | [] => "float64"
  | _ =>
      if forallb is_int cells then "int64"
      else if forallb (fun c => is_int c || is_null c) cells && existsb is_int cells
           then "float64"
           else "object"
  end.

(** [d[key] = value] on a dictionary that keeps the order of insertion. *)
Fixpoint dict_set (d : list (string * cell)) (key : string) (value : cell)
  : list (string * cell) :=
  match d with
  | [] => [(key, value)]
  | (k, v) :: rest =>
      if String.eqb k key then (k, value) :: rest
      else (k, v) :: dict_set rest key value
  end.

(** The value of the comprehension for a Series. *)
Definition series_summary (cells : list cell) : cell :=
  if (nunique cells =? 1)%nat
  then nth 0 (unique cells) CNull
  else CStr (join ", " (map cell_str (unique cells))).

(** The value of the comprehension for one label; a label that selects
    several columns gives a table, whose [nunique() == 1] has no truth
    value. *)
Definition metadata_entry (df : DataFrame) (col : string) : outcome cell :=
  match List.filter (has_label col) df with
  | [] => Raise (KeyError col)
  | [c] => Ok (series_summary (col_cells c))
  | _ :: _ :: _ =>
      Raise (Exn "ValueError"
               ("The truth value of a Series is ambiguous. "
                +:+ "Use a.empty, a.bool(), a.item(), a.any() or a.all()."))
  end.

Fixpoint metadata_dict (df : DataFrame) (cols : list string) (acc : list (string * cell))
  : outcome (list (string * cell)) :=
  match cols with
  | [] => Ok acc
  | col :: rest =>
      v ← metadata_entry df col;
      metadata_dict df rest (dict_set acc col v)
  end.

Definition metadata_columns (df : DataFrame) : list string :=
  List.filter (fun col => negb (existsb (String.eqb col) ["TRAVEL_DATE"; "VALUE"]))
              (df_columns df).

Definition extract_metadata (df : DataFrame) : outcome DataFrame :=
  d ← metadata_dict df (metadata_columns df) [];
  Ok [ mkColumn "Fields" (infer_dtype (map (fun kv => CStr kv.1) d))
         (map (fun kv => CStr kv.1) d);
       mkColumn "Metadata" (infer_dtype (map snd d)) (map snd d) ].

(** * The statements of the specification

    What the theorems below compare the code with: the texts and tables of
    the specification, the predicates its sentences use, and the inputs of
    the examples. *)

(** The upsert as the specification writes it, line by line: the join on the
    key columns, and one branch, for the rows without a match. *)
Definition spec_key_equality (k : string) : string :=
  "target." +:+ dq +:+ k +:+ dq +:+ " = source." +:+ dq +:+ k +:+ dq.

Definition spec_merge_lines (tbl : string) (keys cols : list string) : list string :=
  [ EmptyString;
    "MERGE INTO " +:+ tbl +:+ " AS target";
    "USING " +:+ tbl +:+ "_staging AS source";
    "ON " +:+ join " AND " (map spec_key_equality keys);
    "WHEN NOT MATCHED THEN";
    "INSERT (" +:+ join ", " (map (fun c => dq +:+ c +:+ dq) cols) +:+ ")";
    "VALUES (" +:+ join ", " (map (fun c => "source." +:+ dq +:+ c +:+ dq) cols) +:+ ");";
    EmptyString ].


(** The type table of the specification, read row by row. *)
Definition spec_sql_type (dtype : string) : string :=
  if String.eqb dtype "object" then "TEXT"
  else if String.eqb dtype "int64" then "NUMBER"
  else if String.eqb dtype "float64" then "FLOAT"
  else if String.eqb dtype "bool" then "BOOLEAN"
  else if String.eqb dtype "datetime64[ns]" then "TIMESTAMP_NTZ"
  else "TEXT".

Definition spec_column_decl (c : column) : string :=
  dq +:+ col_name c +:+ dq +:+ " " +:+ spec_sql_type (col_dtype c).

Definition sample_df : DataFrame :=
  [ mkColumn "id" "int64" [CInt 1; CInt 2; CInt 3];
    mkColumn "name" "object" [CStr "John"; CStr "Jane"; CStr "Bob"] ].



(** *** Dates as the page writes them *)

Definition two_digits (n : Z) : string :=
  if n <? 10 then "0" +:+ str_of_int n else str_of_int n.

(** The spellings of a day in the format month/day/year: the month and the
    day with or without a leading zero, then the year. *)
Definition mdY_spellings (d : date) : list string :=
  flat_map
    (fun month =>
       map (fun day => month +:+ "/" +:+ day +:+ "/" +:+ str_of_int (d_year d))
           [str_of_int (d_day d); two_digits (d_day d)])
    [str_of_int (d_month d); two_digits (d_month d)].

(** [a] is not after [b]. *)
Definition date_leb (a b : date) : bool :=
  (d_year a <? d_year b)
  || ((d_year a =? d_year b)
      && ((d_month a <? d_month b)
          || ((d_month a =? d_month b) && (d_day a <=? d_day b)))).

(** The days whose midnight a nanosecond timestamp holds: 22 September
    1677 to 11 April 2262. *)
Definition timestamp_day (d : date) : bool :=
  date_leb (mkDate 1677 9 22) d && date_leb d (mkDate 2262 4 11).

(** A cell that spells the day [d]. *)
Definition spells (c : cell) (d : date) : Prop :=
  exists s, c = CStr s /\ In s (mdY_spellings d).

(** *** Labels *)

Definition is_lower_letter (a : ascii) : bool :=
  let n := nat_of_ascii a in (97 <=? n)%nat && (n <=? 122)%nat.

(** The label holds one of the letters a to z. *)
Definition has_lower_case (label : string) : bool :=
  existsb is_lower_letter (list_ascii_of_string label).

(** The label is written in ASCII. *)
Definition ascii_text (label : string) : bool :=
  forallb (fun a => (nat_of_ascii a <? 128)%nat) (list_ascii_of_string label).

(** The stages of a run, as the errors of [etl] name them. *)
Inductive stage := Extraction | Transformation | Upload.

Definition stage_name (s : stage) : string :=
  match s with
  | Extraction => "Extraction"
  | Transformation => "Transformation"
  | Upload => "Upload"
  end.

(** [fails_at cls self w s e w']: started in [w], the phases of [self] run in
    order, those before stage [s] return, and the phase of stage [s] raises
    [e] and leaves the world [w']. *)
Inductive fails_at {S} (cls : Pipeline S) (self : S) (w : world)
  : stage -> exn -> world -> Prop :=
| fails_extract e w1 :
    extract cls self w = (Raise e, w1) ->
    fails_at cls self w Extraction e w1
| fails_transform s1 w1 e w2 :
    extract cls self w = (Ok s1, w1) ->
    transform cls s1 w1 = (Raise e, w2) ->
    fails_at cls self w Transformation e w2
| fails_load s1 w1 s2 w2 e w3 :
    extract cls self w = (Ok s1, w1) ->
    transform cls s1 w1 = (Ok s2, w2) ->
    load cls s2 w2 = (Raise e, w3) ->
    fails_at cls self w Upload e w3.

(** [runs_in_order run todo w invoked r w']: from the world [w], [run] is
    called on the instances of [invoked], one after the other and each from
    the world the one before left; [invoked] is [todo] up to the first
    instance whose run raises, [r] is how the last call ended and [w'] the
    world it left. *)
Inductive runs_in_order (run : TSAETL -> M unit)
  : list TSAETL -> world -> list TSAETL -> outcome unit -> world -> Prop :=
| runs_none w :
    runs_in_order run [] w [] (Ok tt) w
| runs_next i rest w w1 invoked r w' :
    run i w = (Ok tt, w1) ->
    runs_in_order run rest w1 invoked r w' ->
    runs_in_order run (i :: rest) w (i :: invoked) r w'
| runs_stop i rest w e w1 :
    run i w = (Raise e, w1) ->
    runs_in_order run (i :: rest) w [i] (Raise e) w1.

(** *** Sessions in the log of calls *)

Definition is_connect (en : entry) : bool :=
  match e_call en with CallConnect _ => true | _ => false end.

Definition is_close (en : entry) : bool :=
  match e_call en with CallClose => true | _ => false end.

Definition raised (en : entry) : bool :=
  match e_answer en with AnsRaise _ => true | _ => false end.

(** The calls of one operation of the connector release the session they
    open: the first call is the one [connect]; when it raises, nothing
    follows, no session being open; when it returns, the last call is the
    one [close]. *)
Definition session_released (calls : list entry) : bool :=
  match calls with
  | [] => false
  | first :: rest =>
      is_connect first
      && forallb (fun en => negb (is_connect en)) rest
      && if raised first
         then match rest with [] => true | _ :: _ => false end
         else match rev rest with
              | [] => false
              | final :: before =>
                  is_close final && forallb (fun en => negb (is_close en)) before
              end
  end.

(** The bulk write came back with [success] false. *)
Definition write_reported_failure (calls : list entry) : bool :=
  existsb (fun en => match e_answer en with AnsWrite false _ => true | _ => false end) calls.

(** Leaving the cursor and closing the session went through. *)
Definition teardown_went_through (calls : list entry) : bool :=
  forallb (fun en =>
             match e_call en with
             | CallCursorExit | CallClose => negb (raised en)
             | _ => true
             end) calls.

Definition is_commit (en : entry) : bool :=
  match e_call en with CallCommit => true | _ => false end.

(** *** The summary of the dashboard, in the words of the specification *)

Definition is_key_label (label : string) : bool :=
  existsb (String.eqb label) ["TRAVEL_DATE"; "VALUE"].

(** The columns other than TRAVEL_DATE and VALUE. *)
Definition other_columns (df : DataFrame) : DataFrame :=
  List.filter (fun c => negb (is_key_label (col_name c))) df.

(** The distinct values of a column, each at its first appearance. *)
Fixpoint first_appearances (cells : list cell) : list cell :=
  match cells with
  | [] => []
  | x :: rest => x :: List.filter (fun y => negb (cell_eqb y x)) (first_appearances rest)
  end.

(** A column that holds [v] on every row, and has a row. *)
Definition constant_column (cells : list cell) (v : cell) : Prop :=
  cells <> [] /\ Forall (eq v) cells.

Fixpoint insert_sorted (s : string) (sorted : list string) : list string :=
  match sorted with
  | [] => [s]
  | t :: rest => if String.leb s t then s :: t :: rest else t :: insert_sorted s rest
  end.

Definition sorted_strings (l : list string) : list string :=
  fold_right insert_sorted [] l.

(** The summary of a column with several values as the testable property
    of the specification words it: the sorted distinct values, joined with
    commas. *)
Definition spec_sorted_summary (cells : list cell) : cell :=
  CStr (join ", " (sorted_strings (map cell_str (first_appearances cells)))).

(** The rows of the summary: the field and its metadata. *)
Definition summary_rows (summary : DataFrame) : list (cell * cell) :=
  match summary with
  | [fields; values] => combine (col_cells fields) (col_cells values)
  | _ => []
  end.

(** ** Inputs for the examples, and auxiliary definitions of the proofs *)

(** A response as a server sends it: the status line and the tables of
    the page; [pd.read_html] raises on a page without a table. *)
Definition no_tables_found : exn := Exn "ValueError" "No tables found".

Definition served (status : Z) (reason : string) (tables : list DataFrame)
  : http_response :=
  mkResponse status reason source_url
    (match tables with [] => Raise no_tables_found | _ => Ok tables end).

Definition travel_config : SnowflakeConfig :=
  mkSnowflakeConfig "TSA_UAT" "PUBLIC" "PASSENGERS" ["TRAVEL_DATE"].

Definition travel_frame : DataFrame :=
  [ mkColumn "TRAVEL_DATE" "object" [CDate (mkDate 2022 1 1)];
    mkColumn "VALUE" "int64" [CInt 100] ].

Definition day_of_year (d : date) : Z :=
  days_before_month (d_year d) (d_month d) + d_day d.

Definition a_november_day : date := mkDate 2026 11 4.

Definition empty_world : world := mkWorld ∅ [].

Definition quiet_env : Env :=
  mkEnv (mkDate 2026 11 4)
    (fun _ _ _ => Ok (served 200 "OK" []))
    (fun _ _ => Ok tt) (fun _ => Ok tt) (fun _ _ => Ok tt)
    (fun _ _ _ _ => Ok (true, 0))
    (fun _ => Ok tt) (fun _ => Ok []) (fun _ => Ok tt) (fun _ => Ok tt).

Definition uat_context : BaseVariables :=
  mkBaseVariables "uat" "uat\" 2024 1%positive "TSA" "PUBLIC" "PASSENGERS".

(** The run the test of [main] puts in place of [etl]: it notes the URL. *)
Definition noting_url (self : TSAETL) : M unit := tell (CallPrint (url self)).

Definition prd_config : Config :=
  mkConfig "acct" "etl_user" "secret" "COMPUTE_WH" "LOADER" "TSA" "PUBLIC" "PASSENGERS".

Definition dashboard_conf : SnowflakeConfig :=
  mkSnowflakeConfig "TSA_PROD" "PUBLIC" "PASSENGERS" ["TRAVEL_DATE"].

Definition uat_pipeline : TSAETL := TSAETL_init quiet_env uat_context 2022.

Definition unique_step (seen : list cell) (x : cell) : list cell :=
  if existsb (cell_eqb x) seen then seen else (seen ++ [x])%list.

Definition unique_from (seen cells : list cell) : list cell :=
  fold_left unique_step cells seen.

Definition warehouse_rows : DataFrame :=
  [ mkColumn "TRAVEL_DATE" "object" [CDate (mkDate 2022 1 1); CDate (mkDate 2022 1 2)];
    mkColumn "VALUE" "int64" [CInt 100; CInt 200];
    mkColumn "COUNTRY" "object" [CStr "US"; CStr "US"];
    mkColumn "SERIES_ID" "object"
      [CStr "uat\TSA\passenger_volumes"; CStr "TSA\passenger_volumes"] ].


(** The URLs of the HTTP requests in a log of calls, in order. *)
Definition http_urls (calls : list entry) : list string :=
  omap (fun en => match e_call en with CallHttpGet u _ => Some u | _ => None end) calls.

(** A warehouse whose bulk write reports failure. *)
Definition refusing_write_env : Env :=
  mkEnv (mkDate 2026 11 4)
    (fun _ _ _ => Ok (served 200 "OK" []))
    (fun _ _ => Ok tt) (fun _ => Ok tt) (fun _ _ => Ok tt)
    (fun _ _ _ _ => Ok (false, 0))
    (fun _ => Ok tt) (fun _ => Ok []) (fun _ => Ok tt) (fun _ => Ok tt).

Definition uat_connector : SnowflakeConnector := mkConnector 1%positive travel_config.

(** Checks on the texts of months, days and years, for the proofs about the
    format. *)
Definition no_slash (s : string) : bool := negb (contains "/"%char s).

Definition starts_with_digit (s : string) : bool :=
  match s with
  | String a _ => match digit_of a with Some _ => true | None => false end
  | EmptyString => false
  end.

Definition reads_as (directive : string -> option Z) (n : Z) (t : string) : bool :=
  match directive t with
  | Some v => (v =? n) && no_slash t && starts_with_digit t
  | None => false
  end.

Definition texts_read (directive : string -> option Z) (texts : Z -> list string)
    (lo hi : Z) : bool :=
  forallb (fun n => forallb (reads_as directive n) (texts n)) (py_range lo hi).

(** A day before the first one a timestamp holds, as the page would spell
    it. *)
Definition an_early_day : date := mkDate 1500 1 1.

(** ** Further predicates on tables and on logs of calls *)

(** Every column has [n] cells. *)
Definition rectangular (n : nat) (df : DataFrame) : Prop :=
  Forall (fun c => length (col_cells c) = n) df.

(** The table of the live page: the current year, the year before, and the
    dates between them. *)
Definition live_page : DataFrame :=
  [ mkColumn "2025" "int64" [CInt 90; CInt 95];
    mkColumn "Date" "object" [CStr "11/3/2026"; CStr "11/02/2026"];
    mkColumn "2026" "int64" [CInt 100; CInt 200] ].


(** An outside world whose server answers every request with [r] and whose
    warehouse accepts everything. *)
Definition serving (r : outcome http_response) : Env :=
  mkEnv (mkDate 2026 11 4)
    (fun _ _ _ => r)
    (fun _ _ => Ok tt) (fun _ => Ok tt) (fun _ _ => Ok tt)
    (fun _ _ _ _ => Ok (true, 0))
    (fun _ => Ok tt) (fun _ => Ok []) (fun _ => Ok tt) (fun _ => Ok tt).

(** What lxml raises on a body that holds no document. *)
Definition empty_document : exn := Exn "XMLSyntaxError" "Document is empty".

(** The two lines the phases of [TSAETL] log. *)
Definition extraction_logged : entry :=
  mkEntry (CallLog "TSAETL" "Initiating the Data Extraction Method.") AnsDone.

Definition transformation_logged : entry :=
  mkEntry (CallLog "TSAETL" "Initiating the Data Transformation Method.") AnsDone.

(** The configuration [DataExtractor.load] builds from the run context. *)
Definition load_config (base_variables : BaseVariables) : SnowflakeConfig :=
  mkSnowflakeConfig
    (bv_database base_variables +:+ "_" +:+ upper (bv_environment base_variables))
    (bv_schema base_variables)
    (bv_table base_variables)
    ["TRAVEL_DATE"].

(** A page whose table has no [Date] column. *)
Definition page_without_dates : DataFrame :=
  [ mkColumn "Day" "object" [CStr "11/3/2026"];
    mkColumn "Numbers" "int64" [CInt 100] ].

(** A page as the archive of a past year serves it. *)
Definition archive_page : DataFrame :=
  [ mkColumn "Date" "object" [CStr "1/2/2022"; CStr "1/1/2022"];
    mkColumn "Numbers" "int64" [CInt 200; CInt 100] ].

(** *** The calls of a load *)

(** The calls of a load that goes through: the table, the row count the
    bulk write reported, and the keyword arguments of the connection. *)
Definition load_calls (config : SnowflakeConfig) (kwargs : gmap string string)
    (df : DataFrame) (nrows : Z) : list entry :=
  [ mkEntry (CallConnect kwargs) AnsDone;
    mkEntry CallCursor AnsDone;
    mkEntry (CallExecute ("CREATE DATABASE IF NOT EXISTS " +:+ database config)) AnsDone;
    mkEntry (CallExecute ("USE DATABASE " +:+ database config)) AnsDone;
    mkEntry (CallExecute ("CREATE SCHEMA IF NOT EXISTS " +:+ schema config)) AnsDone;
    mkEntry (CallExecute ("USE SCHEMA " +:+ schema config)) AnsDone;
    mkEntry (CallExecute (snowflake_create_table (table config) df)) AnsDone;
    mkEntry (CallExecute ("CREATE OR REPLACE TEMPORARY TABLE "
                          +:+ (table config +:+ "_staging")
                          +:+ " LIKE " +:+ table config)) AnsDone;
    mkEntry (CallWritePandas df (table config +:+ "_staging") false) (AnsWrite true nrows);
    mkEntry (CallExecute (merge_stmt config df)) AnsDone;
    mkEntry CallCommit AnsDone;
    mkEntry (CallPrint (inserted_line config nrows)) AnsDone;
    mkEntry CallCursorExit AnsDone;
    mkEntry CallClose AnsDone ].

(** The outside raised [e] at one of the calls. *)
Definition raised_outside (e : exn) (calls : list entry) : Prop :=
  exists c, In (mkEntry c (AnsRaise e)) calls.

(** The calls a read may make. *)
Definition read_call (config : SnowflakeConfig) (en : entry) : bool :=
  match e_call en with
  | CallConnect _ | CallCursor | CallFetchPandasAll | CallCursorExit | CallClose => true
  | CallExecute sql => String.eqb sql (select_all config)
  | _ => false
  end.

Definition is_execute (en : entry) : bool :=
  match e_call en with CallExecute _ => true | _ => false end.

(** The connection parameters after a read through [self]. *)
Definition read_params (self : SnowflakeConnector) (w : world) : gmap string string :=
  <["schema" := schema (config self)]>
    (<["database" := database (config self)]> (deref (connection_params self) w)).

(** A connector on the parameters of [uat_connector], for another
    database. *)
Definition archive_connector : SnowflakeConnector :=
  mkConnector 1%positive (mkSnowflakeConfig "ARCHIVE" "HISTORY" "PASSENGERS" ["TRAVEL_DATE"]).

(** *** Columns with nulls *)



(** * Theorems *)

Lemma dict_get_dtype_mapping (d : string) :
  dict_get dtype_mapping d "TEXT" = spec_sql_type d.
Proof.
  unfold dict_get, dtype_mapping, spec_sql_type.
  repeat match goal with
  | |- context [String.eqb d ?k] =>
      destruct (String.eqb_spec d k) as [->|?]; [reflexivity|]
  end.
  by rewrite !lookup_insert_ne, lookup_empty by done.
Qed.

Example create_table_sample :
  snowflake_create_table "test_table" sample_df
  = "CREATE TABLE IF NOT EXISTS test_table (" +:+ dq +:+ "id" +:+ dq +:+ " NUMBER, "
    +:+ dq +:+ "name" +:+ dq +:+ " TEXT);".
Proof. vm_compute. reflexivity. Qed.

(** ** Lines and [dedent] *)

























(** ** The statements of the connector *)

(** C5. For every table name and every table, the creation statement is
    [CREATE TABLE IF NOT EXISTS <table> (...)], with one quoted column name
    and SQL type per column, in column order; the type is the one the
    specification's table gives for the dtype, [TEXT] for a dtype outside
    the table.  For the columns id (integer) and name (text) of the test
    table it is the statement of the specification, character for
    character. *)
Theorem create_table_statement :
  (forall (table_name : string) (df : DataFrame),
     snowflake_create_table table_name df
     = "CREATE TABLE IF NOT EXISTS " +:+ table_name +:+ " ("
       +:+ join ", " (map spec_column_decl df) +:+ ");")
  /\ (forall d,
        ~ In d ["object"; "int64"; "float64"; "bool"; "datetime64[ns]"] ->
        dict_get dtype_mapping d "TEXT" = "TEXT")
  /\ snowflake_create_table "test_table" sample_df
     = "CREATE TABLE IF NOT EXISTS test_table ("
       +:+ dq +:+ "id" +:+ dq +:+ " NUMBER, "
       +:+ dq +:+ "name" +:+ dq +:+ " TEXT);".
Proof.
  split; [|split].
  - intros table_name df. unfold snowflake_create_table, df_dtypes.
    rewrite map_map. do 5 f_equal. apply map_ext. intros c.
    unfold spec_column_decl. by rewrite dict_get_dtype_mapping.
  - intros d Hd. rewrite dict_get_dtype_mapping. unfold spec_sql_type.
    repeat match goal with
    | |- context [String.eqb d ?k] =>
        destruct (String.eqb_spec d k) as [->|?]; [exfalso; apply Hd; simpl; tauto|]
    end.
    reflexivity.
  - exact create_table_sample.
Qed.




(** The two other conditions of the amended statement are needed as well:
    a key or a table name with a line break and blanks is cut in the same
    way. *)
Example merge_stmt_key_with_line_break :
  let key := "K" +:+ nl +:+ "    L" in
  merge_stmt (mkSnowflakeConfig "TSA_UAT" "PUBLIC" "PASSENGERS" [key]) travel_frame
  <> join nl (spec_merge_lines "PASSENGERS" [key] (df_columns travel_frame)).
Proof.
  intros key H. apply (f_equal (fun text => String.length text)) in H.
  vm_compute in H. discriminate.
Qed.

Example merge_stmt_table_with_line_break :
  let name := "T" +:+ nl +:+ "    U" in
  merge_stmt (mkSnowflakeConfig "TSA_UAT" "PUBLIC" name ["TRAVEL_DATE"]) travel_frame
  <> join nl (spec_merge_lines name ["TRAVEL_DATE"] (df_columns travel_frame)).
Proof.
  intros name H. apply (f_equal (fun text => String.length text)) in H.
  vm_compute in H. discriminate.
Qed.

(** ** Ranges *)

Lemma in_py_range (lo hi v : Z) : In v (py_range lo hi) <-> lo <= v < hi.
Proof.
  unfold py_range. rewrite in_map_iff. split.
  - intros (i & <- & Hi). apply in_seq in Hi. lia.
  - intros Hv. exists (Z.to_nat (v - lo)). split; [lia|].
    apply in_seq. lia.
Qed.

Lemma py_range_length (lo hi : Z) : length (py_range lo hi) = Z.to_nat (hi - lo).
Proof. unfold py_range. by rewrite length_map, length_seq. Qed.

Lemma py_range_nth (lo hi : Z) (i : nat) :
  (i < Z.to_nat (hi - lo))%nat -> nth i (py_range lo hi) 0 = lo + Z.of_nat i.
Proof.
  intros Hi. unfold py_range.
  rewrite (nth_indep _ 0 ((fun i => lo + Z.of_nat i) 0%nat))
    by (rewrite length_map, length_seq; exact Hi).
  rewrite (map_nth (fun i => lo + Z.of_nat i)). by rewrite seq_nth.
Qed.

Lemma existsb_py_range (lo hi v : Z) :
  existsb (Z.eqb v) (py_range lo hi) = true <-> lo <= v < hi.
Proof.
  rewrite existsb_exists. rewrite <- in_py_range. split.
  - intros (x & Hx & Heq). apply Z.eqb_eq in Heq. by subst.
  - intros H. exists v. split; [exact H|apply Z.eqb_refl].
Qed.

(** ** The calendar *)

Lemma is_leap_true_iff (y : Z) :
  is_leap y = true <-> (y mod 4 = 0 /\ (y mod 100 <> 0 \/ y mod 400 = 0)).
Proof.
  unfold is_leap.
  rewrite andb_true_iff, orb_true_iff, negb_true_iff, !Z.eqb_eq, Z.eqb_neq. tauto.
Qed.

Lemma is_leap_cases (y : Z) :
  (is_leap y = true /\ (y mod 4 = 0 /\ (y mod 100 <> 0 \/ y mod 400 = 0)))
  \/ (is_leap y = false /\ ~ (y mod 4 = 0 /\ (y mod 100 <> 0 \/ y mod 400 = 0))).
Proof.
  destruct (is_leap y) eqn:E.
  - left. split; [reflexivity|]. by apply is_leap_true_iff.
  - right. split; [reflexivity|]. rewrite <- is_leap_true_iff. congruence.
Qed.

(** The ordinals of a year are read back as that year. *)
Lemma ord2ymd_year (y k : Z) :
  1 <= y ->
  1 <= k <= 365 + (if is_leap y then 1 else 0) ->
  d_year (ord2ymd (days_before_year y + k)) = y.
Proof.
  intros Hy Hk.
  pose proof (is_leap_cases y) as Hleap.
  unfold ord2ymd, days_before_year, DI400Y, DI100Y, DI4Y.
  set (n := (y - 1) * 365 + (y - 1) / 4 - (y - 1) / 100 + (y - 1) / 400 + k - 1).
  set (n400 := n / 146097). set (r1 := n mod 146097).
  set (n100 := r1 / 36524). set (r2 := r1 mod 36524).
  set (n4 := r2 / 1461). set (r3 := r2 mod 1461).
  set (n1 := r3 / 365). set (r4 := r3 mod 365).
  assert (Hcore :
    (if (n1 =? 4) || (n100 =? 4)
     then n400 * 400 + 1 + n100 * 100 + n4 * 4 + n1 - 1
     else n400 * 400 + 1 + n100 * 100 + n4 * 4 + n1) = y).
  { destruct ((n1 =? 4) || (n100 =? 4)) eqn:E.
    - apply orb_true_iff in E. rewrite !Z.eqb_eq in E.
      subst n n400 r1 n100 r2 n4 r3 n1 r4.
      destruct Hleap as [[Hl Hm]|[Hl Hm]]; rewrite Hl in Hk;
        Z.div_mod_to_equations; lia.
    - apply orb_false_iff in E. rewrite !Z.eqb_neq in E.
      subst n n400 r1 n100 r2 n4 r3 n1 r4.
      destruct Hleap as [[Hl Hm]|[Hl Hm]]; rewrite Hl in Hk;
        Z.div_mod_to_equations; lia. }
  destruct ((n1 =? 4) || (n100 =? 4)); simpl; exact Hcore.
Qed.

Lemma days_before_year_succ (y : Z) :
  days_before_year (y + 1) = days_before_year y + 365 + (if is_leap y then 1 else 0).
Proof.
  unfold days_before_year.
  destruct (is_leap_cases y) as [[Hl Hm]|[Hl Hm]]; rewrite Hl;
    Z.div_mod_to_equations; lia.
Qed.

Lemma days_before_year_mono (y z : Z) :
  y <= z -> days_before_year y <= days_before_year z.
Proof.
  intros H. unfold days_before_year. Z.div_mod_to_equations. lia.
Qed.

(** The day of the year of a date of the calendar, and the one date that is
    the 366th day. *)
Lemma day_of_year_bounds (d : date) :
  valid_date d ->
  1 <= day_of_year d <= 365 + (if is_leap (d_year d) then 1 else 0)
  /\ (day_of_year d = 366
      <-> is_leap (d_year d) && (d_month d =? 12) && (d_day d =? 31) = true).
Proof.
  destruct d as [y m dd]. unfold valid_date, day_of_year. simpl.
  intros (_ & Hm & Hd).
  assert (Hcases : m = 1 \/ m = 2 \/ m = 3 \/ m = 4 \/ m = 5 \/ m = 6 \/ m = 7
                   \/ m = 8 \/ m = 9 \/ m = 10 \/ m = 11 \/ m = 12) by lia.
  unfold days_in_month, days_before_month in *.
  rewrite !andb_true_iff, !Z.eqb_eq.
  destruct (is_leap y);
    repeat (destruct Hcases as [->|Hcases]); try subst m;
    simpl in *; (split; [lia|]); split; intros; try lia; intuition lia.
Qed.

Lemma toordinal_day_of_year (d : date) :
  toordinal d = days_before_year (d_year d) + day_of_year d.
Proof. unfold toordinal, ymd2ord, day_of_year. lia. Qed.

(** The year of the day that lies 365 days before a date. *)
Lemma minus_365_year (today : date) :
  valid_date today ->
  2 <= d_year today ->
  exists d,
    minus_days today 365 = Ok d
    /\ d_year d = if is_leap (d_year today) && (d_month today =? 12) && (d_day today =? 31)
                  then d_year today else d_year today - 1.
Proof.
  intros Hv Hy.
  destruct (day_of_year_bounds today Hv) as [Hb H366].
  pose proof Hv as (Hyear & _ & _).
  set (y := d_year today) in *.
  pose proof (days_before_year_succ (y - 1)) as Hsucc.
  replace (y - 1 + 1) with y in Hsucc by lia.
  pose proof (days_before_year_mono 1 (y - 1) ltac:(lia)) as Hlow.
  pose proof (days_before_year_mono (y + 1) 10000 ltac:(lia)) as Hhigh.
  pose proof (days_before_year_succ y) as Hnext.
  change (days_before_year 1) with 0 in Hlow.
  change (days_before_year 10000) with 3652059 in Hhigh.
  unfold minus_days. rewrite toordinal_day_of_year. fold y.
  destruct (is_leap y && (d_month today =? 12) && (d_day today =? 31)) eqn:E.
  - assert (Hd : day_of_year today = 366) by (by apply H366).
    assert (Hl : is_leap y = true).
    { apply andb_true_iff in E as [E _]. by apply andb_true_iff in E as [E _]. }
    rewrite Hl in *.
    replace ((0 <? days_before_year y + day_of_year today - 365)
             && (days_before_year y + day_of_year today - 365 <=? MAXORDINAL)) with true.
    2:{ symmetry. apply andb_true_iff. unfold MAXORDINAL.
        split; [apply Z.ltb_lt|apply Z.leb_le]; destruct (is_leap (y - 1)); lia. }
    eexists. split; [reflexivity|].
    replace (days_before_year y + day_of_year today - 365)
      with (days_before_year y + 1) by lia.
    apply ord2ymd_year; [lia|]. rewrite Hl. lia.
  - assert (Hd : day_of_year today <> 366).
    { intros Hd. apply H366 in Hd. congruence. }
    replace ((0 <? days_before_year y + day_of_year today - 365)
             && (days_before_year y + day_of_year today - 365 <=? MAXORDINAL)) with true.
    2:{ symmetry. apply andb_true_iff. unfold MAXORDINAL.
        split; [apply Z.ltb_lt|apply Z.leb_le]; destruct (is_leap y), (is_leap (y - 1)); lia. }
    eexists. split; [reflexivity|].
    replace (days_before_year y + day_of_year today - 365)
      with (days_before_year (y - 1)
            + (day_of_year today + (if is_leap (y - 1) then 1 else 0))) by lia.
    apply ord2ymd_year; [lia|].
    destruct (is_leap y), (is_leap (y - 1)); lia.
Qed.

(** ** The command line *)

(** C9, as amended. On every day of the calendar from year 2 on, the start
    year of a command line without [--start_year] is the year of the day
    365 days earlier: the year before the current one, except on 31 December
    of a leap year, when it is the current year itself.  A value given to
    [--start_year] is refused with the usage error when it lies outside
    2019..current year, and kept when it lies inside. *)
Theorem start_year_default_and_choices
    (py_int : string -> option Z) (today : date) (given_environment : option string) :
  valid_date today ->
  2 <= d_year today ->
  let year := d_year today in
  let default :=
    if is_leap year && (d_month today =? 12) && (d_day today =? 31)
    then year else year - 1 in
  start_year_default today = Ok default
  /\ (forall environment,
        parse_environment given_environment = Ok environment ->
        ns_start_year <$> parse_args py_int today (mkArgv given_environment None)
        = Ok default)
  /\ (forall token v,
        py_int token = Some v ->
        v < 2019 \/ year < v ->
        parse_args py_int today (mkArgv given_environment (Some token))
        = Raise usage_exit)
  /\ (forall token v environment,
        py_int token = Some v ->
        2019 <= v <= year ->
        parse_environment given_environment = Ok environment ->
        ns_start_year <$> parse_args py_int today (mkArgv given_environment (Some token))
        = Ok v).
Proof.
  intros Hv Hy year default.
  destruct (minus_365_year today Hv Hy) as (d & Hd & Hyear).
  assert (Hdef : start_year_default today = Ok default).
  { unfold start_year_default. rewrite Hd. simpl. by rewrite Hyear. }
  split; [exact Hdef|].
  split; [|split].
  - intros environment Henv. unfold parse_args. rewrite Hdef. simpl.
    rewrite Henv. reflexivity.
  - intros token v Htok Hout. unfold parse_args. rewrite Hdef. simpl.
    assert (Hno : existsb (Z.eqb v) (start_year_choices today) = false).
    { apply not_true_is_false. unfold start_year_choices.
      rewrite existsb_py_range. fold year. lia. }
    unfold parse_start_year. rewrite Htok, Hno.
    destruct (parse_environment given_environment) as [environment|e] eqn:Henv;
      simpl; [reflexivity|].
    unfold parse_environment in Henv.
    destruct given_environment as [g|]; [|discriminate].
    destruct (existsb (String.eqb g) _); [discriminate|]. by inversion Henv.
  - intros token v environment Htok Hin Henv. unfold parse_args.
    rewrite Hdef. simpl. rewrite Henv. simpl.
    assert (Hyes : existsb (Z.eqb v) (start_year_choices today) = true).
    { unfold start_year_choices. rewrite existsb_py_range. fold year. lia. }
    unfold parse_start_year. rewrite Htok, Hyes. reflexivity.
Qed.

Lemma start_year_default_and_choices_witness :
  start_year_default a_november_day = Ok 2025
  /\ parse_args int_of_decimal a_november_day (mkArgv None (Some "2018"))
     = Raise usage_exit
  /\ ns_start_year <$> parse_args int_of_decimal a_november_day (mkArgv None (Some "2019"))
     = Ok 2019.
Proof.
  assert (Hv : valid_date a_november_day) by (repeat split; by vm_compute).
  assert (Hy : 2 <= d_year a_november_day) by (by vm_compute).
  destruct (start_year_default_and_choices int_of_decimal a_november_day None Hv Hy)
    as (Hdef & _ & Hout & Hin).
  split; [exact Hdef|]. split.
  - apply (Hout "2018" 2018); [reflexivity|left; by vm_compute].
  - apply (Hin "2019" 2019 "uat"); [reflexivity|split; by vm_compute|reflexivity].
Defined.

(** C9, as stated, fails on 31 December of a leap year: 365 days before
    2024-12-31 is 2024-01-01, so the start year is 2024 and not 2023. *)
Lemma start_year_default_on_leap_year_end :
  let today := mkDate 2024 12 31 in
  valid_date today
  /\ parse_args int_of_decimal today (mkArgv None None)
     = Ok (mkNamespace "uat" 2024 "uat\")
  /\ ns_start_year <$> parse_args int_of_decimal today (mkArgv None None)
     <> Ok (d_year today - 1).
Proof.
  split; [repeat split; by vm_compute|].
  split; [reflexivity|].
  vm_compute. discriminate.
Qed.

(** ** The contract of a pipeline and the driver *)

Lemma bind_run {A B} (m : M A) (k : A -> M B) (w : world) :
  (m ≫= k) w
  = match m w with
    | (Ok a, w1) => k a w1
    | (Raise e, w1) => (Raise e, w1)
    end.
Proof. reflexivity. Qed.

Lemma try_except_raise {A} (body : M A) (handler : exn -> M A) (w w1 : world) (e : exn) :
  body w = (Raise e, w1) ->
  is_Exception e = true ->
  try_except body handler w = handler e w1.
Proof. intros Hb He. unfold try_except. by rewrite Hb, He. Qed.

Lemma try_except_ok {A} (body : M A) (handler : exn -> M A) (w w1 : world) (a : A) :
  body w = (Ok a, w1) ->
  try_except body handler w = (Ok a, w1).
Proof. intros Hb. unfold try_except. by rewrite Hb. Qed.

(** C4. Whatever the class of the pipeline, when one of its three phases
    raises an error (an instance of [Exception]), [etl] raises a
    [RuntimeError] that names the stage (Extraction for [extract],
    Transformation for [transform], Upload for [load]), prints the error in
    its message and carries it as cause; the world is left as the failing
    phase left it, so no later phase has run and the error is not
    swallowed. *)
Theorem etl_stage_attribution {S} (cls : Pipeline S) (self : S) (w w' : world)
    (s : stage) (e : exn) :
  is_Exception e = true ->
  fails_at cls self w s e w' ->
  etl cls self w
  = (Raise (ExnFrom "RuntimeError"
              ("Scraper failed at " +:+ stage_name s +:+ ". Error was " +:+ exn_str e)
              e),
     w').
Proof.
  intros He Hfail. unfold etl.
  destruct Hfail as [e w1 Hx | s1 w1 e w2 Hx Ht | s1 w1 s2 w2 e w3 Hx Ht Hl].
  - rewrite bind_run, (try_except_raise _ _ _ _ _ Hx He). reflexivity.
  - rewrite bind_run, (try_except_ok _ _ _ _ _ Hx).
    rewrite bind_run, (try_except_raise _ _ _ _ _ Ht He). reflexivity.
  - rewrite bind_run, (try_except_ok _ _ _ _ _ Hx).
    rewrite bind_run, (try_except_ok _ _ _ _ _ Ht).
    rewrite bind_run, (try_except_raise _ _ _ _ _ Hl He). reflexivity.
Qed.

(** What [except Exception] does not catch goes through [etl] as it is. *)
Lemma etl_lets_interrupt_through {S} (cls : Pipeline S) (self : S) (w w' : world) (e : exn) :
  is_Exception e = false ->
  extract cls self w = (Raise e, w') ->
  etl cls self w = (Raise e, w').
Proof.
  intros He Hx. unfold etl. rewrite bind_run. unfold try_except.
  by rewrite Hx, He.
Qed.

(** When the three phases return, so does [etl], in the world the load
    left. *)
Lemma etl_success {S} (cls : Pipeline S) (self s1 s2 : S) (w w1 w2 w3 : world) :
  extract cls self w = (Ok s1, w1) ->
  transform cls s1 w1 = (Ok s2, w2) ->
  load cls s2 w2 = (Ok tt, w3) ->
  etl cls self w = (Ok s2, w3).
Proof.
  intros Hx Ht Hl. unfold etl.
  rewrite bind_run, (try_except_ok _ _ _ _ _ Hx).
  rewrite bind_run, (try_except_ok _ _ _ _ _ Ht).
  rewrite bind_run, (try_except_ok _ _ _ _ _ Hl). reflexivity.
Qed.

Lemma etl_stage_attribution_witness :
  etl (DataExtractor quiet_env uat_context) None empty_world
  = (Raise (ExnFrom "RuntimeError"
              "Scraper failed at Extraction. Error was Extract Method Not Implemented."
              (Exn "NotImplementedError" "Extract Method Not Implemented.")),
     empty_world).
Proof.
  apply (etl_stage_attribution (DataExtractor quiet_env uat_context) None
           empty_world empty_world Extraction
           (Exn "NotImplementedError" "Extract Method Not Implemented.")).
  - reflexivity.
  - apply fails_extract. reflexivity.
Defined.

(** [for_each] calls the body on the elements in order and stops at the
    first call that raises. *)
Lemma for_each_runs_in_order (run : TSAETL -> M unit) (todo : list TSAETL) (w : world) :
  exists invoked,
    runs_in_order run todo w invoked (for_each todo run w).1 (for_each todo run w).2
    /\ invoked `prefix_of` todo
    /\ ((for_each todo run w).1 = Ok tt -> invoked = todo).
Proof.
  revert w. induction todo as [|i rest IH]; intros w.
  - exists []. simpl. split; [constructor|]. split; [done|done].
  - simpl. rewrite bind_run. destruct (run i w) as [[[]|e] w1] eqn:Hrun.
    + destruct (IH w1) as (invoked & Hruns & Hpre & Hall).
      exists (i :: invoked). split; [by econstructor|].
      split; [by apply prefix_cons|]. intros Hok. f_equal. by apply Hall.
    + exists [i]. split; [by apply runs_stop|].
      split; [apply prefix_cons, prefix_nil|]. simpl. discriminate.
Qed.

Lemma main_with_for_each (env : Env) (base_variables : BaseVariables)
    (run : TSAETL -> M unit) :
  main_with env base_variables run
  = for_each (map (TSAETL_init env base_variables)
                  (py_range (bv_year base_variables) (now_year env + 1))) run.
Proof.
  unfold main_with.
  generalize (py_range (bv_year base_variables) (now_year env + 1)).
  intros l. induction l as [|y l IH]; [reflexivity|]. simpl. by rewrite IH.
Qed.

(** The driver of the program is [main_with] at the [etl] of the class. *)
Corollary main_runs_etl_in_order (env : Env) (base_variables : BaseVariables) (w : world) :
  exists invoked,
    runs_in_order
      (fun tsa_etl => etl (TSAETL_class env base_variables) tsa_etl ;; mret tt)
      (map (TSAETL_init env base_variables)
           (py_range (bv_year base_variables) (now_year env + 1)))
      w invoked (main env base_variables w).1 (main env base_variables w).2.
Proof.
  unfold main. rewrite main_with_for_each.
  destruct (for_each_runs_in_order
              (fun tsa_etl => etl (TSAETL_class env base_variables) tsa_etl ;; mret tt)
              (map (TSAETL_init env base_variables)
                   (py_range (bv_year base_variables) (now_year env + 1))) w)
    as (invoked & Hruns & _).
  by exists invoked.
Qed.


(** ** The sessions of the connector *)

(** One step of a run: the next bind is opened, and the answer of the
    outside to the next call is taken case by case. *)
Ltac run_oracle :=
  match goal with
  | |- context [match ?o with Ok _ => _ | Raise _ => _ end] =>
      lazymatch o with
      | context [match _ with Ok _ => _ | Raise _ => _ end] => fail
      | _ => destruct o as [?|?]
      end
  end.

Ltac run_step :=
  first
    [ rewrite bind_run
    | progress
        (unfold load_dataframe_to_snowflake, extract_dataframe_from_snowflake,
           with_cursor, load_body, try_finally,
           sf_connect, sf_cursor, sf_cursor_exit, sf_execute, sf_write_pandas,
           sf_commit, sf_fetch_pandas_all, sf_close, ask, tell, read_dict,
           dict_update, raise)
    | run_oracle
    | match goal with
      | p : (bool * Z)%type |- _ => destruct p as [[] ?]
      | |- context [match ?x with Some _ => _ | None => _ end] => is_var x; destruct x
      end ];
  cbv beta iota zeta delta [fst snd history heap record mret M_ret ret].

Ltac show_calls :=
  eexists; split; [rewrite <- ?app_assoc; reflexivity|].

Lemma deref_updated (l : positive) (d : gmap string string)
    (h : gmap positive (gmap string string)) (hist : list entry) :
  deref l (mkWorld (<[l := d]> h) hist) = d.
Proof. unfold deref. simpl. by rewrite lookup_insert_eq. Qed.

(** C6. Whatever the warehouse answers, the calls of the load and of the
    read release the session they open: after a [connect] that returned,
    the last call is the one [close], on every path (the bulk write
    succeeding, reporting failure or raising, a statement raising, the
    SELECT succeeding or raising).  A bulk write reported unsuccessful is
    never followed by a commit and makes the load fail, with the error of
    the staging write when leaving the cursor and closing went through.
    When the read returns a table, its calls are connect, cursor, the
    [SELECT *] on the configured table, the fetch, cursor exit and close,
    and the table is the one the fetch produced. *)
Theorem sessions_released_on_every_path
    (env : Env) (self : SnowflakeConnector) (odf : option DataFrame) (w : world) :
  (exists calls,
     history (load_dataframe_to_snowflake env self odf w).2 = (history w ++ calls)%list
     /\ session_released calls = true
     /\ (write_reported_failure calls = true ->
         existsb is_commit calls = false
         /\ (load_dataframe_to_snowflake env self odf w).1 <> Ok tt
         /\ (teardown_went_through calls = true ->
             (load_dataframe_to_snowflake env self odf w).1 = Raise staging_write_error)))
  /\ (exists calls,
       history (extract_dataframe_from_snowflake env self w).2 = (history w ++ calls)%list
       /\ session_released calls = true
       /\ (forall out,
             (extract_dataframe_from_snowflake env self w).1 = Ok out ->
             calls
             = [ mkEntry (CallConnect
                            (<["schema" := schema (config self)]>
                               (<["database" := database (config self)]>
                                  (deref (connection_params self) w))))
                         AnsDone;
                 mkEntry CallCursor AnsDone;
                 mkEntry (CallExecute ("SELECT * FROM " +:+ table (config self) +:+ ";"))
                         AnsDone;
                 mkEntry CallFetchPandasAll (AnsFrame out);
                 mkEntry CallCursorExit AnsDone;
                 mkEntry CallClose AnsDone ])).
Proof.
  split.
  - repeat run_step; show_calls; (split; [reflexivity|]);
      cbn; first [discriminate
                 | intros _; repeat split; first [discriminate|reflexivity|idtac]].
  - repeat run_step; rewrite ?deref_updated; show_calls; (split; [reflexivity|]);
      intros out Hout; first [discriminate | by inversion Hout].
Qed.

(** A bulk write that reports failure: the load stops there, leaves the
    cursor, closes the session and raises the error of the staging write. *)
Example load_with_failed_write :
  (load_dataframe_to_snowflake refusing_write_env uat_connector
     (Some travel_frame) empty_world).1
  = Raise staging_write_error
  /\ map e_call
       (history (load_dataframe_to_snowflake refusing_write_env uat_connector
                   (Some travel_frame) empty_world).2)
     = [ CallConnect ∅;
         CallCursor;
         CallExecute "CREATE DATABASE IF NOT EXISTS TSA_UAT";
         CallExecute "USE DATABASE TSA_UAT";
         CallExecute "CREATE SCHEMA IF NOT EXISTS PUBLIC";
         CallExecute "USE SCHEMA PUBLIC";
         CallExecute (snowflake_create_table "PASSENGERS" travel_frame);
         CallExecute "CREATE OR REPLACE TEMPORARY TABLE PASSENGERS_staging LIKE PASSENGERS";
         CallWritePandas travel_frame "PASSENGERS_staging" false;
         CallCursorExit;
         CallClose ].
Proof. split; reflexivity. Qed.

(** ** The connection parameters *)

(** C7, as amended. The read sets the keys [database] and [schema] of the
    connection parameters it was built with, in place, to the configured
    values, and leaves every other key of that dictionary, and every other
    dictionary, as it was, whatever the warehouse answers; the load changes
    no dictionary. *)
Theorem read_updates_connection_params
    (env : Env) (self : SnowflakeConnector) (w : world) :
  let params := connection_params self in
  let w' := (extract_dataframe_from_snowflake env self w).2 in
  deref params w'
  = <["schema" := schema (config self)]>
      (<["database" := database (config self)]> (deref params w))
  /\ deref params w' !! "database" = Some (database (config self))
  /\ deref params w' !! "schema" = Some (schema (config self))
  /\ (forall k, k <> "database" -> k <> "schema" ->
        deref params w' !! k = deref params w !! k)
  /\ (forall other, other <> params -> heap w' !! other = heap w !! other)
  /\ (forall odf, heap (load_dataframe_to_snowflake env self odf w).2 = heap w).
Proof.
  intros params w'.
  assert (Hheap : heap w'
    = <[params := <["schema" := schema (config self)]>
                    (<["database" := database (config self)]> (deref params w))]>
        (heap w)).
  { unfold w', params. repeat run_step; reflexivity. }
  assert (Hd : deref params w'
    = <["schema" := schema (config self)]>
        (<["database" := database (config self)]> (deref params w))).
  { unfold deref at 1. by rewrite Hheap, lookup_insert_eq. }
  split; [exact Hd|]. rewrite Hd.
  split; [by rewrite lookup_insert_ne, lookup_insert_eq|].
  split; [by rewrite lookup_insert_eq|].
  split; [intros k H1 H2; by rewrite !lookup_insert_ne|].
  split; [intros other Hne; by rewrite Hheap, lookup_insert_ne|].
  intros odf. repeat run_step; reflexivity.
Qed.

(** C7, as stated, fails on the dashboard's read: the context is built once,
    its connection parameters hold neither [database] nor [schema], and
    after the read they hold both. *)
Lemma read_changes_run_context :
  let built := make_BaseVariables (mkNamespace "uat" 2025 "uat\") prd_config empty_world in
  exists base_variables w0,
    built = (Ok base_variables, w0)
    /\ let w1 := (load_data_read quiet_env (bv_conn base_variables) dashboard_conf w0).2 in
       deref (bv_conn base_variables) w0 !! "database" = None
       /\ deref (bv_conn base_variables) w1 !! "database" = Some "TSA_PROD"
       /\ deref (bv_conn base_variables) w1 <> deref (bv_conn base_variables) w0.
Proof.
  eexists _, _. split; [reflexivity|].
  split; [reflexivity|]. split; [reflexivity|].
  intros H. apply (f_equal (fun d => d !! "database")) in H.
  vm_compute in H. discriminate.
Qed.
(** ** The transformation *)

(** *** The format reads the spellings of a day *)

Lemma texts_read_spec (directive : string -> option Z) (texts : Z -> list string)
    (lo hi n : Z) (t : string) :
  texts_read directive texts lo hi = true ->
  lo <= n < hi ->
  In t (texts n) ->
  directive t = Some n /\ no_slash t = true /\ starts_with_digit t = true.
Proof.
  intros Hall Hn Ht. unfold texts_read in Hall.
  rewrite forallb_forall in Hall.
  specialize (Hall n (proj2 (in_py_range lo hi n) Hn)).
  rewrite forallb_forall in Hall. specialize (Hall t Ht).
  unfold reads_as in Hall. destruct (directive t) as [v|]; [|discriminate].
  apply andb_true_iff in Hall as [Hall Hdigit].
  apply andb_true_iff in Hall as [Hv Hslash].
  apply Z.eqb_eq in Hv. by subst.
Qed.

Lemma month_texts_read :
  texts_read month_directive (fun m => [str_of_int m; two_digits m]) 1 13 = true.
Proof. by vm_compute. Qed.

Lemma day_texts_read :
  texts_read day_directive (fun d => [str_of_int d; two_digits d]) 1 32 = true.
Proof. by vm_compute. Qed.

Lemma year_texts_read :
  texts_read year_directive (fun y => [str_of_int y]) 1000 10000 = true.
Proof. by vm_compute. Qed.

Lemma split_char_whole (t : string) :
  no_slash t = true -> split_char "/" t = [t].
Proof.
  unfold no_slash. induction t as [|a t IH]; simpl; [reflexivity|].
  destruct (Ascii.eqb a "/"); simpl; [discriminate|].
  intros H. by rewrite (IH H).
Qed.

Lemma split_char_app (t rest : string) :
  no_slash t = true ->
  split_char "/" (t +:+ "/" +:+ rest) = t :: split_char "/" rest.
Proof.
  change ("/" +:+ rest) with (String "/" rest).
  unfold no_slash. induction t as [|a t IH]; simpl; [reflexivity|].
  destruct (Ascii.eqb a "/"); simpl; [discriminate|].
  intros H. by rewrite (IH H).
Qed.

Lemma days_in_month_le_31 (year month : Z) :
  1 <= month <= 12 -> days_in_month year month <= 31.
Proof.
  intros Hm. unfold days_in_month.
  assert (Hcases : month = 1 \/ month = 2 \/ month = 3 \/ month = 4 \/ month = 5
                   \/ month = 6 \/ month = 7 \/ month = 8 \/ month = 9 \/ month = 10
                   \/ month = 11 \/ month = 12) by lia.
  destruct (is_leap year);
    repeat (destruct Hcases as [->|Hcases]); try subst month; simpl; lia.
Qed.

(** A spelling of a day of the calendar is read, by the format, as that
    day. *)
Lemma strptime_reads_spelling (d : date) (s : string) :
  valid_date d ->
  1000 <= d_year d ->
  In s (mdY_spellings d) ->
  strptime_mdY s = Some d /\ starts_with_digit s = true.
Proof.
  destruct d as [year month day]. intros Hvalid Hfour Hs.
  unfold valid_date in Hvalid. unfold mdY_spellings in Hs.
  cbn [d_year d_month d_day] in Hvalid, Hfour, Hs.
  destruct Hvalid as (Hyear & Hmonth & Hday).
  apply in_flat_map in Hs as (mt & Hmt & Hs).
  apply in_map_iff in Hs as (dt & <- & Hdt).
  destruct (texts_read_spec _ _ 1 13 month mt month_texts_read ltac:(lia) Hmt)
    as (Hm1 & Hm2 & Hm3).
  pose proof (days_in_month_le_31 year month Hmonth) as H31.
  destruct (texts_read_spec _ _ 1 32 day dt day_texts_read ltac:(lia) Hdt)
    as (Hd1 & Hd2 & _).
  destruct (texts_read_spec _ _ 1000 10000 year (str_of_int year) year_texts_read
              ltac:(lia) ltac:(by left)) as (Hy1 & Hy2 & _).
  split.
  - unfold strptime_mdY.
    rewrite (split_char_app mt _ Hm2), (split_char_app dt _ Hd2),
      (split_char_whole _ Hy2).
    rewrite Hm1, Hd1, Hy1. simpl.
    replace (1 <=? year) with true by lia.
    replace (day <=? days_in_month year month) with true by lia.
    reflexivity.
  - destruct mt as [|a mt]; [discriminate|]. exact Hm3.
Qed.

(** *** The days a timestamp holds *)

Lemma day_of_year_mono (year m1 d1 m2 d2 : Z) :
  valid_date (mkDate year m1 d1) ->
  valid_date (mkDate year m2 d2) ->
  m1 < m2 \/ (m1 = m2 /\ d1 <= d2) ->
  day_of_year (mkDate year m1 d1) <= day_of_year (mkDate year m2 d2).
Proof.
  unfold valid_date, day_of_year. simpl.
  intros (_ & Hm1 & Hd1) (_ & Hm2 & Hd2) Hle.
  assert (H1 : m1 = 1 \/ m1 = 2 \/ m1 = 3 \/ m1 = 4 \/ m1 = 5 \/ m1 = 6 \/ m1 = 7
               \/ m1 = 8 \/ m1 = 9 \/ m1 = 10 \/ m1 = 11 \/ m1 = 12) by lia.
  assert (H2 : m2 = 1 \/ m2 = 2 \/ m2 = 3 \/ m2 = 4 \/ m2 = 5 \/ m2 = 6 \/ m2 = 7
               \/ m2 = 8 \/ m2 = 9 \/ m2 = 10 \/ m2 = 11 \/ m2 = 12) by lia.
  unfold days_in_month, days_before_month in *.
  destruct (is_leap year);
    repeat (destruct H1 as [->|H1]); try subst m1;
    repeat (destruct H2 as [->|H2]); try subst m2;
    simpl in *; lia.
Qed.

Lemma toordinal_mono (a b : date) :
  valid_date a -> valid_date b -> date_leb a b = true -> toordinal a <= toordinal b.
Proof.
  intros Ha Hb Hle. rewrite !toordinal_day_of_year.
  destruct (day_of_year_bounds a Ha) as [Hdoya _].
  destruct (day_of_year_bounds b Hb) as [Hdoyb _].
  unfold date_leb in Hle.
  destruct (Z.ltb_spec (d_year a) (d_year b)) as [Hlt|Hge].
  - pose proof (days_before_year_succ (d_year a)) as Hsucc.
    pose proof (days_before_year_mono (d_year a + 1) (d_year b) ltac:(lia)). lia.
  - simpl in Hle. apply andb_true_iff in Hle as [Hy Hle].
    apply Z.eqb_eq in Hy.
    destruct a as [ya ma da], b as [yb mb db]. simpl in *. subst yb.
    pose proof (day_of_year_mono ya ma da mb db Ha Hb) as Hmono.
    assert (ma < mb \/ (ma = mb /\ da <= db)) as Hcmp.
    { apply orb_true_iff in Hle as [Hm|Hm]; [left; lia|].
      apply andb_true_iff in Hm as [Hm Hd]. right. lia. }
    specialize (Hmono Hcmp). lia.
Qed.

Lemma date_leb_year (a b : date) : date_leb a b = true -> d_year a <= d_year b.
Proof.
  unfold date_leb. destruct (Z.ltb_spec (d_year a) (d_year b)) as [Hlt|Hge]; [lia|].
  simpl. intros H. apply andb_true_iff in H as [H _]. apply Z.eqb_eq in H. lia.
Qed.

Lemma timestamp_day_in_bounds (d : date) :
  valid_date d -> timestamp_day d = true ->
  in_timestamp_bounds d = true /\ 1677 <= d_year d <= 2262.
Proof.
  intros Hd Hday. unfold timestamp_day in Hday.
  apply andb_true_iff in Hday as [Hlo Hhi].
  assert (valid_date (mkDate 1677 9 22)) as Hfirst by (repeat split; by vm_compute).
  assert (valid_date (mkDate 2262 4 11)) as Hlast by (repeat split; by vm_compute).
  split.
  - unfold in_timestamp_bounds. apply andb_true_iff.
    split; apply Z.leb_le; by apply toordinal_mono.
  - apply date_leb_year in Hlo, Hhi. simpl in Hlo, Hhi. lia.
Qed.

(** *** Reading the dates of the page *)

Lemma digit_not_special (s : string) :
  starts_with_digit s = true ->
  is_empty s || existsb (String.eqb s) nat_strings = false
  /\ existsb (String.eqb s) clock_strings = false.
Proof.
  destruct s as [|a rest]; [discriminate|]. simpl.
  destruct a as [[] [] [] [] [] [] [] []]; try discriminate; intros _; by split.
Qed.

Lemma to_date_spelling (today : date) (c : cell) (d : date) :
  spells c d -> valid_date d -> timestamp_day d = true ->
  to_date today c = Ok (CDate d).
Proof.
  intros (s & -> & Hs) Hd Hday.
  destruct (timestamp_day_in_bounds d Hd Hday) as [Hbounds Hyear].
  destruct (strptime_reads_spelling d s Hd ltac:(lia) Hs) as [Hread Hdigit].
  destruct (digit_not_special s Hdigit) as [Hnat Hclock].
  unfold to_date. by rewrite Hnat, Hclock, Hread, Hbounds.
Qed.

Lemma to_dates_spellings (today : date) (cells : list cell) (days : list date) :
  Forall2 spells cells days ->
  Forall (fun d => valid_date d /\ timestamp_day d = true) days ->
  to_dates today cells = Ok (map CDate days).
Proof.
  induction 1 as [|c d cells days Hc _ IH]; [reflexivity|].
  intros Hall. apply List.Forall_cons_iff in Hall as [[Hd Hday] Hall].
  cbn [to_dates]. rewrite (to_date_spelling today c d Hc Hd Hday).
  cbn [mbind outcome_bind]. rewrite (IH Hall). reflexivity.
Qed.

Lemma transform_frame_two_columns (today : date) (md : list (string * string))
    (dates_dtype numbers_dtype : string) (dates numbers parsed : list cell) :
  to_dates today dates = Ok parsed ->
  transform_frame today md
    [mkColumn "Date" dates_dtype dates; mkColumn "Numbers" numbers_dtype numbers]
  = Ok (upper_columns
          (assign [mkColumn "travel_date" "object" parsed;
                   mkColumn "value" numbers_dtype numbers] md)).
Proof.
  intros Hd. unfold transform_frame.
  change (getitem _ "Date") with (Ok (mkColumn "Date" dates_dtype dates)).
  cbn [mbind outcome_bind col_cells]. rewrite Hd.
  reflexivity.
Qed.

Lemma upper_columns_names (df : DataFrame) :
  df_columns (upper_columns df) = map upper (df_columns df).
Proof. unfold df_columns, upper_columns. rewrite !map_map. reflexivity. Qed.

(** C1, as amended. For a table of the two columns [Date] and [Numbers],
    in that order, whose dates spell, in the format month/day/year (month
    and day with or without a leading zero), days of the calendar from 22
    September 1677 to 11 April 2262, [transform] leaves the pipeline with a
    table of exactly the columns TRAVEL_DATE, VALUE, COUNTRY, FREQUENCY,
    SERIES_ID, SOURCE and UNIT, in that order: TRAVEL_DATE holds the days
    spelled, VALUE the cells of [Numbers], the other five the fields of the
    pipeline's metadata on every row; no label holds a lower-case
    letter. *)
Theorem transform_two_column_table
    (env : Env) (base_variables : BaseVariables) (year : Z) (w : world)
    (dates_dtype numbers_dtype : string) (dates numbers : list cell)
    (days : list date) :
  Forall2 spells dates days ->
  Forall (fun d => valid_date d /\ timestamp_day d = true) days ->
  let self := TSAETL_init env base_variables year in
  let source :=
    [ mkColumn "Date" dates_dtype dates; mkColumn "Numbers" numbers_dtype numbers ] in
  let all_rows (value : string) := repeat (CStr value) (length dates) in
  let result :=
    [ mkColumn "TRAVEL_DATE" "object" (map CDate days);
      mkColumn "VALUE" numbers_dtype numbers;
      mkColumn "COUNTRY" "object" (all_rows "US");
      mkColumn "FREQUENCY" "object" (all_rows "daily");
      mkColumn "SERIES_ID" "object"
        (all_rows (bv_prefix base_variables +:+ "TSA\passenger_volumes"));
      mkColumn "SOURCE" "object" (all_rows "https://www.tsa.gov/travel/passenger-volumes");
      mkColumn "UNIT" "object" (all_rows "number_of") ] in
  transform_frame (env_today env) (metadata self) source = Ok result
  /\ df <$> (tsa_transform env (mkTSAETL (metadata self) (url self) (Some source)) w).1
     = Ok (Some result)
  /\ df_columns result
     = ["TRAVEL_DATE"; "VALUE"; "COUNTRY"; "FREQUENCY"; "SERIES_ID"; "SOURCE"; "UNIT"]
  /\ Forall (fun label => has_lower_case label = false) (df_columns result).
Proof.
  intros Hdates Hdays self source all_rows result.
  assert (Hlen : length dates = length (map CDate days)).
  { rewrite length_map. by eapply Forall2_length. }
  assert (Hframe : transform_frame (env_today env) (metadata self) source = Ok result).
  { unfold source.
    erewrite transform_frame_two_columns by (by apply to_dates_spellings).
    unfold result, all_rows. rewrite Hlen. reflexivity. }
  split; [exact Hframe|]. split; [|split].
  - unfold tsa_transform. rewrite bind_run. unfold tell.
    cbn [df metadata url]. rewrite bind_run. unfold lift.
    fold self. cbn [metadata] in Hframe |- *. rewrite Hframe. reflexivity.
  - reflexivity.
  - repeat constructor.
Qed.

Lemma transform_two_column_table_witness :
  transform_frame (mkDate 2026 11 4) (metadata uat_pipeline)
    [ mkColumn "Date" "object" [CStr "11/3/2026"; CStr "01/02/2022"];
      mkColumn "Numbers" "int64" [CInt 100; CInt 200] ]
  = Ok [ mkColumn "TRAVEL_DATE" "object"
           [CDate (mkDate 2026 11 3); CDate (mkDate 2022 1 2)];
         mkColumn "VALUE" "int64" [CInt 100; CInt 200];
         mkColumn "COUNTRY" "object" [CStr "US"; CStr "US"];
         mkColumn "FREQUENCY" "object" [CStr "daily"; CStr "daily"];
         mkColumn "SERIES_ID" "object"
           [CStr "uat\TSA\passenger_volumes"; CStr "uat\TSA\passenger_volumes"];
         mkColumn "SOURCE" "object"
           [CStr "https://www.tsa.gov/travel/passenger-volumes";
            CStr "https://www.tsa.gov/travel/passenger-volumes"];
         mkColumn "UNIT" "object" [CStr "number_of"; CStr "number_of"] ].
Proof.
  refine (proj1 (transform_two_column_table quiet_env uat_context 2022 empty_world
                   "object" "int64"
                   [CStr "11/3/2026"; CStr "01/02/2022"] [CInt 100; CInt 200]
                   [mkDate 2026 11 3; mkDate 2022 1 2] _ _)).
  - repeat constructor; eexists; (split; [reflexivity|]); vm_compute; tauto.
  - repeat constructor; by vm_compute.
Defined.

(** C1, as stated, fails on a day that a nanosecond timestamp does not
    hold: 1 January 1500 is a day of the calendar, [01/01/1500] spells it in
    the format month/day/year, and [transform] raises on the table instead
    of producing one. *)
Lemma transform_two_column_table_early_day :
  valid_date an_early_day
  /\ spells (CStr "01/01/1500") an_early_day
  /\ forall env base_variables year,
       exists msg,
         transform_frame (env_today env)
           (metadata (TSAETL_init env base_variables year))
           [ mkColumn "Date" "object" [CStr "01/01/1500"];
             mkColumn "Numbers" "int64" [CInt 100] ]
         = Raise (Exn "OutOfBoundsDatetime" msg).
Proof.
  split; [repeat split; by vm_compute|]. split.
  - eexists. split; [reflexivity|]. vm_compute. tauto.
  - intros env base_variables year. eexists. reflexivity.
Qed.

(** ** The summary of the dashboard *)

Lemma date_eqb_eq (a b : date) : date_eqb a b = true <-> a = b.
Proof.
  destruct a as [y m d], b as [y' m' d']. unfold date_eqb. simpl.
  rewrite !andb_true_iff, !Z.eqb_eq. split.
  - intros [[-> ->] ->]. reflexivity.
  - intros H. inversion H. done.
Qed.

Lemma cell_eqb_eq (a b : cell) : cell_eqb a b = true <-> a = b.
Proof.
  destruct a, b; simpl; try (split; [discriminate|intros H; inversion H]);
    try (split; reflexivity).
  - rewrite String.eqb_eq. split; [by intros ->|by inversion 1].
  - rewrite Z.eqb_eq. split; [by intros ->|by inversion 1].
  - rewrite date_eqb_eq. split; [by intros ->|by inversion 1].
Qed.

Lemma cell_eqb_refl (a : cell) : cell_eqb a a = true.
Proof. by apply cell_eqb_eq. Qed.

Lemma cell_eqb_sym (a b : cell) : cell_eqb a b = cell_eqb b a.
Proof.
  destruct (cell_eqb a b) eqn:E.
  - apply cell_eqb_eq in E as ->. by rewrite cell_eqb_refl.
  - destruct (cell_eqb b a) eqn:E'; [|reflexivity].
    apply cell_eqb_eq in E' as ->. by rewrite cell_eqb_refl in E.
Qed.

Lemma existsb_cell_In (x : cell) (l : list cell) :
  existsb (cell_eqb x) l = true <-> In x l.
Proof.
  rewrite existsb_exists. split.
  - intros (y & Hy & Heq). apply cell_eqb_eq in Heq. by subst.
  - intros H. exists x. split; [exact H|apply cell_eqb_refl].
Qed.

Lemma unique_unfold (cells : list cell) : unique cells = unique_from [] cells.
Proof. reflexivity. Qed.

Lemma filter_ext_bool {A} (f g : A -> bool) (l : list A) :
  (forall x, f x = g x) -> List.filter f l = List.filter g l.
Proof. intros H. induction l as [|x l IH]; simpl; [done|]. by rewrite H, IH. Qed.

Lemma filter_filter_bool {A} (f g : A -> bool) (l : list A) :
  List.filter f (List.filter g l) = List.filter (fun x => g x && f x) l.
Proof.
  induction l as [|x l IH]; simpl; [done|].
  destruct (g x); simpl; [destruct (f x)|]; by rewrite IH.
Qed.

(** [unique] keeps the distinct values at their first appearance. *)
Lemma unique_from_first_appearances (seen cells : list cell) :
  unique_from seen cells
  = (seen ++ List.filter (fun y => negb (existsb (cell_eqb y) seen))
                         (first_appearances cells))%list.
Proof.
  revert seen. induction cells as [|x rest IH]; intros seen.
  - simpl. by rewrite app_nil_r.
  - unfold unique_from in *. simpl. unfold unique_step at 2.
    destruct (existsb (cell_eqb x) seen) eqn:Hx.
    + rewrite IH. simpl. rewrite ?Hx. simpl. f_equal.
      rewrite filter_filter_bool. apply filter_ext_bool. intros y.
      destruct (cell_eqb y x) eqn:Hyx; simpl; [|reflexivity].
      apply cell_eqb_eq in Hyx as ->. by rewrite Hx.
    + rewrite IH. simpl. rewrite ?Hx. simpl. rewrite <- app_assoc. simpl.
      do 2 f_equal. rewrite filter_filter_bool. apply filter_ext_bool. intros y.
      rewrite existsb_app. simpl. rewrite orb_false_r, negb_orb.
      by rewrite andb_comm.
Qed.

Lemma unique_first_appearances (cells : list cell) :
  unique cells = first_appearances cells.
Proof.
  rewrite unique_unfold, unique_from_first_appearances. simpl.
  induction (first_appearances cells) as [|y l IH]; simpl; [done|]. by rewrite IH.
Qed.

Lemma first_appearances_In (x : cell) (cells : list cell) :
  In x (first_appearances cells) <-> In x cells.
Proof.
  induction cells as [|y rest IH]; simpl; [done|].
  rewrite filter_In, IH. split.
  - intros [->|[H _]]; [by left|by right].
  - intros [->|H]; [by left|].
    destruct (cell_eqb x y) eqn:E.
    + apply cell_eqb_eq in E. left. by subst.
    + right. by split.
Qed.

Lemma first_appearances_constant (v : cell) (cells : list cell) :
  constant_column cells v -> first_appearances cells = [v].
Proof.
  intros [Hne Hall]. destruct cells as [|x rest]; [done|].
  apply Forall_cons in Hall as [<- Hrest]. clear Hne.
  simpl. f_equal.
  induction rest as [|y l IH]; simpl; [done|].
  apply Forall_cons in Hrest as [<- Hrest].
  rewrite cell_eqb_refl. simpl.
  rewrite filter_filter_bool.
  rewrite (filter_ext_bool _ (fun y => negb (cell_eqb y v))); [by apply IH|].
  intros y. by rewrite andb_diag.
Qed.

Lemma first_appearances_singleton (v : cell) (cells : list cell) :
  first_appearances cells = [v] -> constant_column cells v.
Proof.
  intros H. split.
  - intros ->. discriminate.
  - apply List.Forall_forall. intros x Hx.
    apply (proj2 (first_appearances_In _ _)) in Hx.
    rewrite H in Hx. simpl in Hx. by destruct Hx.
Qed.

(** Without nulls, [nunique() == 1] says that the column is constant. *)
Lemma series_summary_spec (cells : list cell) :
  Forall (fun c => is_null c = false) cells ->
  (forall v, constant_column cells v -> series_summary cells = v)
  /\ ((forall v, ~ constant_column cells v) ->
      series_summary cells = CStr (join ", " (map cell_str (first_appearances cells)))).
Proof.
  intros Hnn. unfold series_summary, nunique.
  rewrite unique_first_appearances.
  assert (Hkeep : List.filter (fun c => negb (is_null c)) (first_appearances cells)
                  = first_appearances cells).
  { assert (Hin : forall x, In x (first_appearances cells) -> is_null x = false).
    { intros x Hx. apply (proj1 (first_appearances_In _ _)) in Hx.
      rewrite List.Forall_forall in Hnn. by apply Hnn. }
    induction (first_appearances cells) as [|y l IH]; simpl; [done|].
    rewrite (Hin y) by (by left). simpl. f_equal. apply IH.
    intros x Hx. apply Hin. by right. }
  rewrite Hkeep. split.
  - intros v Hc. by rewrite (first_appearances_constant v cells Hc).
  - intros Hno.
    destruct (first_appearances cells) as [|a [|b l]] eqn:E; try reflexivity.
    exfalso. apply (Hno a). by apply first_appearances_singleton.
Qed.

Lemma dict_set_fresh (d : list (string * cell)) (key : string) (value : cell) :
  ~ In key (map fst d) -> dict_set d key value = (d ++ [(key, value)])%list.
Proof.
  induction d as [|[k v] d IH]; simpl; intros Hk; [done|].
  destruct (String.eqb_spec k key) as [->|Hne]; [tauto|].
  rewrite IH; [done|]. tauto.
Qed.

Lemma has_label_eq (c : column) (label : string) :
  has_label label c = true <-> col_name c = label.
Proof. unfold has_label. apply String.eqb_eq. Qed.

Lemma filter_label_other_columns (df : DataFrame) (label : string) :
  is_key_label label = false ->
  List.filter (has_label label) df = List.filter (has_label label) (other_columns df).
Proof.
  intros Hl. unfold other_columns. rewrite filter_filter_bool.
  apply filter_ext_bool. intros c.
  destruct (has_label label c) eqn:E; [|by rewrite andb_false_r].
  apply has_label_eq in E. rewrite E, Hl. reflexivity.
Qed.

Lemma filter_label_absent (cols : list column) (label : string) :
  ~ In label (map col_name cols) -> List.filter (has_label label) cols = [].
Proof.
  induction cols as [|y cols IH]; simpl; intros Hno; [done|].
  destruct (has_label label y) eqn:E.
  - apply has_label_eq in E. exfalso. apply Hno. by left.
  - apply IH. intros H. apply Hno. by right.
Qed.

Lemma filter_label_NoDup (cols : list column) (c : column) :
  NoDup (map col_name cols) -> In c cols ->
  List.filter (has_label (col_name c)) cols = [c].
Proof.
  induction cols as [|x cols IH]; simpl; intros Hnd Hin; [done|].
  apply NoDup_cons in Hnd as [Hx Hnd].
  rewrite list_elem_of_In in Hx.
  destruct Hin as [->|Hin].
  - unfold has_label at 1. rewrite String.eqb_refl. f_equal.
    by apply filter_label_absent.
  - destruct (has_label (col_name c) x) eqn:E.
    + apply has_label_eq in E. exfalso. apply Hx. rewrite E.
      by apply in_map.
    + by apply IH.
Qed.

Lemma filter_map_bool {A B} (f : B -> bool) (g : A -> B) (l : list A) :
  List.filter f (map g l) = map g (List.filter (fun x => f (g x)) l).
Proof.
  induction l as [|x l IH]; [done|]. cbn [map List.filter].
  destruct (f (g x)); cbn [map]; by rewrite IH.
Qed.

Lemma metadata_columns_other (df : DataFrame) :
  metadata_columns df = map col_name (other_columns df).
Proof.
  unfold metadata_columns, other_columns, df_columns, is_key_label.
  apply (filter_map_bool
           (fun col => negb (existsb (String.eqb col) ["TRAVEL_DATE"; "VALUE"])) col_name).
Qed.

Lemma other_columns_label (df : DataFrame) (c : column) :
  In c (other_columns df) -> is_key_label (col_name c) = false.
Proof.
  unfold other_columns. rewrite filter_In. intros [_ H].
  by apply negb_true_iff in H.
Qed.

Lemma metadata_dict_rows (df : DataFrame) (cols : list column) (acc : list (string * cell)) :
  NoDup (map col_name (other_columns df)) ->
  (forall c, In c cols -> In c (other_columns df)) ->
  NoDup (map fst acc ++ map col_name cols) ->
  metadata_dict df (map col_name cols) acc
  = Ok (acc ++ map (fun c => (col_name c, series_summary (col_cells c))) cols)%list.
Proof.
  intros Hnd. revert acc.
  induction cols as [|c cols IH]; intros acc Hsub Hfresh; simpl.
  - by rewrite app_nil_r.
  - unfold metadata_entry.
    rewrite (filter_label_other_columns df)
      by (apply (other_columns_label df), Hsub; by left).
    rewrite filter_label_NoDup by (first [exact Hnd | apply Hsub; by left]).
    cbn [mbind outcome_bind].
    apply NoDup_app in Hfresh as (Hacc & Hdisj & Hcols).
    rewrite dict_set_fresh.
    2:{ intros Hin. apply (Hdisj (col_name c)); [by apply list_elem_of_In|].
        apply list_elem_of_In. by left. }
    rewrite IH.
    + by rewrite <- app_assoc.
    + intros c' Hc'. apply Hsub. by right.
    + rewrite map_app. simpl. rewrite <- app_assoc. simpl.
      apply NoDup_app. split; [exact Hacc|]. split.
      * intros k Hk. apply Hdisj. exact Hk.
      * exact Hcols.
Qed.

(** The rows of the summary, for a table whose columns other than
    TRAVEL_DATE and VALUE carry distinct labels. *)
Lemma extract_metadata_rows (df : DataFrame) :
  NoDup (metadata_columns df) ->
  extract_metadata df
  = Ok [ mkColumn "Fields" (infer_dtype (map CStr (metadata_columns df)))
           (map CStr (metadata_columns df));
         mkColumn "Metadata"
           (infer_dtype (map (fun c => series_summary (col_cells c)) (other_columns df)))
           (map (fun c => series_summary (col_cells c)) (other_columns df)) ].
Proof.
  intros Hnd. unfold extract_metadata.
  rewrite metadata_columns_other in *.
  rewrite (metadata_dict_rows df (other_columns df) []); simpl.
  - rewrite !map_map. simpl. reflexivity.
  - exact Hnd.
  - done.
  - exact Hnd.
Qed.

Lemma combine_map_map {A B C} (f : A -> B) (g : A -> C) (l : list A) :
  combine (map f l) (map g l) = map (fun x => (f x, g x)) l.
Proof. induction l as [|x l IH]; simpl; [done|]. by rewrite IH. Qed.

(** The dtype of a column built from texts. *)
Lemma infer_dtype_strings {A} (f : A -> string) (l : list A) :
  l <> [] -> infer_dtype (map (fun x => CStr (f x)) l) = "object".
Proof. destruct l; [done|reflexivity]. Qed.

(** C10, as amended. For a table whose columns other than TRAVEL_DATE and
    VALUE carry distinct labels, [extract_metadata] returns a table of
    exactly the two columns Fields and Metadata, with one row for each of
    those columns, in the order of the input's columns; when there is no
    such column the result has no row, and the call still returns. *)
Theorem extract_metadata_shape (df : DataFrame) :
  NoDup (List.filter (fun label => negb (is_key_label label)) (df_columns df)) ->
  let labels := List.filter (fun label => negb (is_key_label label)) (df_columns df) in
  exists fields_dtype dtype values,
    extract_metadata df
    = Ok [ mkColumn "Fields" fields_dtype (map CStr labels);
           mkColumn "Metadata" dtype values ]
    /\ length values = length labels
    /\ (labels <> [] -> fields_dtype = "object")
    /\ (labels = [] -> extract_metadata df
                       = Ok [ mkColumn "Fields" "float64" [];
                              mkColumn "Metadata" "float64" [] ]).
Proof.
  intros Hnd labels.
  change labels with (metadata_columns df) in *.
  change (NoDup (metadata_columns df)) in Hnd.
  rewrite (extract_metadata_rows df Hnd).
  eexists _, _, _. split; [reflexivity|].
  rewrite metadata_columns_other, !length_map. split; [reflexivity|]. split.
  - intros Hsome. rewrite map_map. apply (infer_dtype_strings col_name).
    intros Hnil. apply Hsome. by rewrite Hnil.
  - intros Hnil. apply map_eq_nil in Hnil. by rewrite Hnil.
Qed.

Lemma extract_metadata_shape_witness :
  exists dtype values,
    extract_metadata warehouse_rows
    = Ok [ mkColumn "Fields" "object" [CStr "COUNTRY"; CStr "SERIES_ID"];
           mkColumn "Metadata" dtype values ]
    /\ length values = 2%nat.
Proof.
  destruct (extract_metadata_shape warehouse_rows)
    as (fields_dtype & dtype & values & Heq & Hlen & Hobject & _).
  - apply (bool_decide_unpack (NoDup _)). by vm_compute.
  - exists dtype, values. rewrite (Hobject ltac:(discriminate)) in Heq.
    split; [exact Heq|exact Hlen].
Defined.

(** C10, as stated, fails on a table in which two columns other than
    TRAVEL_DATE and VALUE carry the same label: the label selects a table,
    the comparison of its counts of distinct values has no truth value,
    and [extract_metadata] raises instead of returning the summary. *)
Lemma extract_metadata_repeated_label :
  exists msg,
    extract_metadata
      [ mkColumn "TRAVEL_DATE" "object" [CDate (mkDate 2022 1 1)];
        mkColumn "VALUE" "int64" [CInt 100];
        mkColumn "COUNTRY" "object" [CStr "US"];
        mkColumn "COUNTRY" "object" [CStr "US"] ]
    = Raise (Exn "ValueError" msg).
Proof. eexists. reflexivity. Qed.

(** C8, as amended. For a table whose columns other than TRAVEL_DATE and
    VALUE carry distinct labels, the summary has, for each such column
    without nulls, a row that maps its label to the single value of the
    column when the column is constant across all rows, and otherwise to
    its distinct values joined by a comma and a blank, each value standing
    where it first appears in the column. *)
Theorem metadata_summary_values (df : DataFrame) :
  NoDup (List.filter (fun label => negb (is_key_label label)) (df_columns df)) ->
  exists summary,
    extract_metadata df = Ok summary
    /\ forall c,
         In c df ->
         is_key_label (col_name c) = false ->
         Forall (fun x => is_null x = false) (col_cells c) ->
         exists v,
           In (CStr (col_name c), v) (summary_rows summary)
           /\ (forall x, constant_column (col_cells c) x -> v = x)
           /\ ((forall x, ~ constant_column (col_cells c) x) ->
               v = CStr (join ", " (map cell_str (first_appearances (col_cells c))))).
Proof.
  intros Hnd.
  change (NoDup (metadata_columns df)) in Hnd.
  rewrite (extract_metadata_rows df Hnd). eexists. split; [reflexivity|].
  intros c Hc Hlabel Hnn.
  exists (series_summary (col_cells c)).
  destruct (series_summary_spec (col_cells c) Hnn) as [Hconst Hmany].
  split; [|split; [exact Hconst|exact Hmany]].
  unfold summary_rows. cbn [col_cells].
  rewrite metadata_columns_other, map_map.
  rewrite (combine_map_map (fun c => CStr (col_name c))
             (fun c => series_summary (col_cells c))).
  apply in_map_iff. exists c. split; [reflexivity|].
  unfold other_columns. apply filter_In. split; [exact Hc|]. by rewrite Hlabel.
Qed.

Lemma metadata_summary_values_witness :
  exists summary,
    extract_metadata warehouse_rows = Ok summary
    /\ In (CStr "COUNTRY", CStr "US") (summary_rows summary)
    /\ In (CStr "SERIES_ID", CStr "uat\TSA\passenger_volumes, TSA\passenger_volumes")
          (summary_rows summary).
Proof.
  destruct (metadata_summary_values warehouse_rows) as (summary & Heq & Hrows).
  - apply (bool_decide_unpack (NoDup _)). by vm_compute.
  - exists summary. split; [exact Heq|].
    assert (Hsummary : summary
      = [ mkColumn "Fields" "object" [CStr "COUNTRY"; CStr "SERIES_ID"];
          mkColumn "Metadata" "object"
            [CStr "US"; CStr "uat\TSA\passenger_volumes, TSA\passenger_volumes"] ]).
    { assert (H : Ok summary
        = Ok [ mkColumn "Fields" "object" [CStr "COUNTRY"; CStr "SERIES_ID"];
               mkColumn "Metadata" "object"
                 [CStr "US"; CStr "uat\TSA\passenger_volumes, TSA\passenger_volumes"] ])
        by (rewrite <- Heq; reflexivity).
      by inversion H. }
    rewrite Hsummary. simpl. split; [by left|by right; left].
Defined.

(** C8, as stated, fails on a column with several values: the values are
    joined in the order of their first appearance, which need not be the
    sorted order. *)
Lemma metadata_summary_not_sorted :
  extract_metadata warehouse_rows
  = Ok [ mkColumn "Fields" "object" [CStr "COUNTRY"; CStr "SERIES_ID"];
         mkColumn "Metadata" "object"
           [CStr "US"; CStr "uat\TSA\passenger_volumes, TSA\passenger_volumes"] ]
  /\ spec_sorted_summary [CStr "uat\TSA\passenger_volumes"; CStr "TSA\passenger_volumes"]
     = CStr "TSA\passenger_volumes, uat\TSA\passenger_volumes"
  /\ series_summary [CStr "uat\TSA\passenger_volumes"; CStr "TSA\passenger_volumes"]
     <> spec_sorted_summary [CStr "uat\TSA\passenger_volumes"; CStr "TSA\passenger_volumes"].
Proof.
  split; [reflexivity|]. split; [reflexivity|]. vm_compute. discriminate.
Qed.

(** What the condition on nulls keeps out: [nunique] leaves nulls out and
    [unique] keeps them, so a column with one value and a null before it
    is summed up by the null. *)
Example series_summary_null_first :
  series_summary [CNull; CStr "US"; CStr "US"] = CNull.
Proof. reflexivity. Qed.

(** ** The requests of the driver *)

Ltac run_etl_step :=
  first
    [ rewrite bind_run
    | progress
        (unfold etl, try_except, TSAETL_class, tsa_extract, tsa_transform,
           raise_for_status, first_table, lift, DataExtractor_load)
    | run_step
    | match goal with
      | |- context [if is_Exception ?e then _ else _] => destruct (is_Exception e)
      | |- context [if in_range 400 599 ?s then _ else _] => destruct (in_range 400 599 s)
      | |- context [match ?tables with [] => _ | _ :: _ => _ end] =>
          is_var tables; destruct tables
      | |- context [match df ?s with _ => _ end] => destruct (df s)
      end ];
  cbv beta iota zeta delta
    [fst snd history heap record mret M_ret ret extract transform load].

(** One run of the pipeline sends one request, to the URL of the instance. *)
Lemma etl_requests (env : Env) (base_variables : BaseVariables) (self : TSAETL) (w : world) :
  exists calls,
    history (etl (TSAETL_class env base_variables) self w).2 = (history w ++ calls)%list
    /\ http_urls calls = [url self].
Proof.
  repeat run_etl_step; show_calls; reflexivity.
Qed.

(** The runs of a list of instances, with the requests they send. *)
Lemma for_each_requests (run : TSAETL -> M unit) (todo : list TSAETL) (w : world) :
  (forall t w0, exists calls,
      history (run t w0).2 = (history w0 ++ calls)%list /\ http_urls calls = [url t]) ->
  exists invoked calls,
    runs_in_order run todo w invoked (for_each todo run w).1 (for_each todo run w).2
    /\ invoked `prefix_of` todo
    /\ ((for_each todo run w).1 = Ok tt -> invoked = todo)
    /\ history (for_each todo run w).2 = (history w ++ calls)%list
    /\ http_urls calls = map url invoked.
Proof.
  intros Hrun. revert w. induction todo as [|i rest IH]; intros w.
  - exists [], []. simpl. split; [constructor|]. split; [done|]. split; [done|].
    split; [by rewrite app_nil_r|done].
  - simpl. rewrite bind_run.
    destruct (Hrun i w) as (calls & Hcalls & Hurls).
    destruct (run i w) as [[[]|e] w1] eqn:Hi; simpl in Hcalls.
    + destruct (IH w1) as (invoked & calls' & Hruns & Hpre & Hall & Hhist & Hurls').
      exists (i :: invoked), (calls ++ calls')%list.
      split; [by econstructor|]. split; [by apply prefix_cons|].
      split; [intros Hok; f_equal; by apply Hall|].
      split; [by rewrite Hhist, Hcalls, app_assoc|].
      unfold http_urls in *. rewrite omap_app, Hurls, Hurls'. reflexivity.
    + exists [i], calls. split; [by apply runs_stop|].
      split; [apply prefix_cons, prefix_nil|]. split; [simpl; discriminate|].
      split; [exact Hcalls|exact Hurls].
Qed.

(** C3. With a start year not after the current year, the driver builds
    one instance per year of start_year..current_year, in ascending order,
    and calls [etl] on them in that order, each once, stopping at the first
    call that raises; the URL of an instance is the bare publication URL for
    the current year and the URL followed by [/year] for another year.
    This holds for any [etl] method put on the class, and for the one of
    the program, whose HTTP requests are then exactly those of the
    instances invoked, one each, in order. *)
Theorem main_runs_each_year_in_order
    (env : Env) (base_variables : BaseVariables) (run : TSAETL -> M unit) (w : world) :
  bv_year base_variables <= now_year env ->
  let start_year := bv_year base_variables in
  let current_year := now_year env in
  let years := py_range start_year (current_year + 1) in
  let instances := map (TSAETL_init env base_variables) years in
  length years = Z.to_nat (current_year - start_year + 1)
  /\ (forall i, (i < length years)%nat -> nth i years 0 = start_year + Z.of_nat i)
  /\ (forall year,
        url (TSAETL_init env base_variables year)
        = if year =? current_year then source_url
          else source_url +:+ "/" +:+ str_of_int year)
  /\ (exists invoked,
        runs_in_order run instances w invoked
          (main_with env base_variables run w).1 (main_with env base_variables run w).2
        /\ invoked `prefix_of` instances
        /\ ((main_with env base_variables run w).1 = Ok tt -> invoked = instances))
  /\ (exists invoked calls,
        runs_in_order
          (fun tsa_etl => etl (TSAETL_class env base_variables) tsa_etl ;; mret tt)
          instances w invoked (main env base_variables w).1 (main env base_variables w).2
        /\ invoked `prefix_of` instances
        /\ ((main env base_variables w).1 = Ok tt -> invoked = instances)
        /\ history (main env base_variables w).2 = (history w ++ calls)%list
        /\ http_urls calls = map url invoked).
Proof.
  intros Hle start_year current_year years instances.
  split; [|split; [|split; [|split]]].
  - unfold years. rewrite py_range_length. f_equal. lia.
  - intros i Hi. unfold years in *. rewrite py_range_length in Hi.
    by apply py_range_nth.
  - intros year. reflexivity.
  - rewrite main_with_for_each. apply for_each_runs_in_order.
  - unfold main. rewrite main_with_for_each. apply for_each_requests.
    intros t w0. rewrite bind_run.
    destruct (etl_requests env base_variables t w0) as (calls & Hcalls & Hurls).
    exists calls. split; [|exact Hurls].
    destruct (etl (TSAETL_class env base_variables) t w0) as [[?|?] ?]; exact Hcalls.
Qed.

Lemma main_runs_each_year_in_order_witness :
  bv_year uat_context <= now_year quiet_env
  /\ map e_call (history (main_with quiet_env uat_context noting_url empty_world).2)
     = [ CallPrint "https://www.tsa.gov/travel/passenger-volumes/2024";
         CallPrint "https://www.tsa.gov/travel/passenger-volumes/2025";
         CallPrint "https://www.tsa.gov/travel/passenger-volumes" ]
  /\ length (py_range (bv_year uat_context) (now_year quiet_env + 1)) = 3%nat.
Proof.
  assert (H : bv_year uat_context <= now_year quiet_env) by (by vm_compute).
  split; [exact H|]. split; [reflexivity|].
  exact (proj1 (main_runs_each_year_in_order quiet_env uat_context noting_url empty_world H)).
Defined.

(** * Further properties of the code *)

(** ** [transform], beyond the two-column table *)

Lemma str_of_int_parses (n : Z) : NilZero.int_of_string (str_of_int n) <> None.
Proof.
  unfold str_of_int. destruct (Z.to_int n) as [u|u].
  - destruct u; try (rewrite NilZero.isi; discriminate).
    rewrite NilZero.isi_posnil. discriminate.
  - destruct u; try (rewrite NilZero.isi; discriminate).
    rewrite NilZero.isi_negnil. discriminate.
Qed.

Lemma str_of_int_not_Date (n : Z) : str_of_int n <> "Date".
Proof.
  intros H. apply (str_of_int_parses n). rewrite H. reflexivity.
Qed.

Lemma has_label_set (k key dtype : string) (values : list cell) (c : column) :
  has_label k (if has_label key c then mkColumn key dtype values else c) = has_label k c.
Proof.
  destruct (has_label key c) eqn:E; [|reflexivity].
  apply has_label_eq in E. unfold has_label. simpl. by rewrite E.
Qed.

Lemma filter_setitem (k key dtype : string) (values : list cell) (df : DataFrame) :
  List.filter (has_label k) (setitem df key dtype values)
  = map (fun c => if has_label key c then mkColumn key dtype values else c)
        (List.filter (has_label k) df).
Proof.
  unfold setitem. induction df as [|c df IH]; [reflexivity|].
  cbn [map List.filter]. rewrite has_label_set.
  destruct (has_label k c); cbn [map]; by rewrite IH.
Qed.

Lemma filter_singleton_label (k : string) (df : DataFrame) (c : column) :
  List.filter (has_label k) df = [c] -> col_name c = k /\ In c df.
Proof.
  intros H. assert (Hin : In c (List.filter (has_label k) df)) by (rewrite H; by left).
  apply filter_In in Hin as [Hin Hl]. split; [by apply has_label_eq|exact Hin].
Qed.

Lemma getitem_single (df : DataFrame) (k : string) (c : column) :
  List.filter (has_label k) df = [c] -> getitem df k = Ok c.
Proof. intros H. unfold getitem. by rewrite H. Qed.

Lemma existsb_filter_cons {A} (p : A -> bool) (l : list A) (x : A) (rest : list A) :
  List.filter p l = x :: rest -> existsb p l = true.
Proof.
  intros H. apply existsb_exists. exists x.
  apply (proj1 (filter_In p x l)). rewrite H. by left.
Qed.


(** X1. A table of more than two columns, one of them labelled [Date] and
    one labelled with the current year, wherever they stand: [transform]
    keeps these two, in this order, as TRAVEL_DATE and VALUE, drops the
    others and appends the metadata. *)
Theorem transform_many_columns
    (env : Env) (base_variables : BaseVariables) (year : Z)
    (source : DataFrame) (dates values : column) (parsed : list cell) :
  List.filter (has_label "Date") source = [dates] ->
  List.filter (has_label (str_of_int (now_year env))) source = [values] ->
  (2 < length source)%nat ->
  to_dates (env_today env) (col_cells dates) = Ok parsed ->
  let all_rows (value : string) := repeat (CStr value) (length parsed) in
  transform_frame (env_today env) (metadata (TSAETL_init env base_variables year)) source
  = Ok [ mkColumn "TRAVEL_DATE" "object" parsed;
         mkColumn "VALUE" (col_dtype values) (col_cells values);
         mkColumn "COUNTRY" "object" (all_rows "US");
         mkColumn "FREQUENCY" "object" (all_rows "daily");
         mkColumn "SERIES_ID" "object"
           (all_rows (bv_prefix base_variables +:+ "TSA\passenger_volumes"));
         mkColumn "SOURCE" "object" (all_rows "https://www.tsa.gov/travel/passenger-volumes");
         mkColumn "UNIT" "object" (all_rows "number_of") ].
Proof.
  intros Hd Hv Hlen Hparsed all_rows.
  destruct (filter_singleton_label _ _ _ Hv) as [Hname _].
  pose proof (str_of_int_not_Date (now_year env)) as Hne.
  unfold transform_frame. cbv zeta. fold (now_year env).
  set (yr := str_of_int (now_year env)) in *.
  rewrite (getitem_single _ _ _ Hd).
  cbn [mbind outcome_bind]. rewrite Hparsed. cbn [mbind outcome_bind].
  assert (Hlen' : (2 <? length (setitem source "Date" "object" parsed))%nat = true).
  { unfold setitem. rewrite length_map. by apply Nat.ltb_lt. }
  rewrite Hlen'. unfold loc_columns. cbn [List.filter flat_map].
  rewrite (existsb_filter_cons (has_label "Date") _ _ []
             ltac:(by rewrite filter_setitem, Hd)).
  rewrite (existsb_filter_cons (has_label yr) _ _ []
             ltac:(by rewrite filter_setitem, Hv)).
  cbn [negb]. rewrite !filter_setitem, Hd, Hv. cbn [map].
  assert (Hvd : has_label "Date" values = false).
  { apply not_true_is_false. rewrite has_label_eq. congruence. }
  assert (Hdd : has_label "Date" dates = true).
  { apply has_label_eq. by destruct (filter_singleton_label _ _ _ Hd). }
  rewrite Hvd, Hdd. cbn [mbind outcome_bind app].
  unfold rename. cbn [map col_name col_dtype col_cells].
  rewrite Hname.
  assert (H1 : dict_get (<[yr := "value"]> (<["Date" := "travel_date"]> (∅ : gmap string string)))
                 "Date" "Date" = "travel_date").
  { unfold dict_get. rewrite lookup_insert_ne by done. by rewrite lookup_insert_eq. }
  assert (H2 : dict_get (<[yr := "value"]> (<["Date" := "travel_date"]> (∅ : gmap string string)))
                 yr yr = "value").
  { unfold dict_get. by rewrite lookup_insert_eq. }
  rewrite H1, H2. reflexivity.
Qed.

Lemma transform_many_columns_witness :
  df_columns <$>
    transform_frame (env_today quiet_env) (metadata (TSAETL_init quiet_env uat_context 2026))
      live_page
  = Ok ["TRAVEL_DATE"; "VALUE"; "COUNTRY"; "FREQUENCY"; "SERIES_ID"; "SOURCE"; "UNIT"].
Proof.
  rewrite (transform_many_columns quiet_env uat_context 2026 live_page
             (mkColumn "Date" "object" [CStr "11/3/2026"; CStr "11/02/2026"])
             (mkColumn "2026" "int64" [CInt 100; CInt 200])
             [CDate (mkDate 2026 11 3); CDate (mkDate 2026 11 2)]);
    reflexivity || (by vm_compute).
Defined.

Lemma to_dates_length (today : date) (cells parsed : list cell) :
  to_dates today cells = Ok parsed -> length parsed = length cells.
Proof.
  revert parsed. induction cells as [|c cells IH]; intros parsed; cbn [to_dates].
  - intros H. by inversion H.
  - destruct (to_date today c); [|discriminate]. cbn [mbind outcome_bind].
    destruct (to_dates today cells) as [ds|]; [|discriminate]. cbn [mbind outcome_bind].
    intros H. inversion H. simpl. f_equal. by apply IH.
Qed.





(** ** What every result of [transform] has *)

Lemma getitem_In (df : DataFrame) (k : string) (c : column) :
  getitem df k = Ok c -> In c df.
Proof.
  unfold getitem. destruct (List.filter (has_label k) df) as [|x [|y l]] eqn:E;
    try discriminate.
  intros H. inversion H; subst. by destruct (filter_singleton_label _ _ _ E).
Qed.

Lemma loc_columns_In (df : DataFrame) (labels : list string) (out : DataFrame) :
  loc_columns df labels = Ok out ->
  (forall c, In c out -> In c df) /\ (labels <> [] -> out <> []).
Proof.
  unfold loc_columns.
  destruct (List.filter (fun l => negb (existsb (has_label l) df)) labels)
    as [|l missing] eqn:Hmissing; [|discriminate].
  intros H. injection H as <-. split.
  - intros c Hc. apply in_flat_map in Hc as (l & _ & Hc).
    by apply filter_In in Hc as [Hc _].
  - intros Hne. destruct labels as [|l rest]; [done|].
    assert (existsb (has_label l) df = true) as Hl.
    { destruct (existsb (has_label l) df) eqn:E; [reflexivity|].
      simpl in Hmissing. rewrite E in Hmissing. discriminate. }
    apply existsb_exists in Hl as (c & Hc & Hlabel).
    intros Hnil.
    assert (In c (flat_map (fun l => List.filter (has_label l) df) (l :: rest))) as Hin.
    { apply in_flat_map. exists l. split; [by left|by apply filter_In]. }
    rewrite Hnil in Hin. destruct Hin.
Qed.

(** *** The labels *)

Lemma upper_ascii_not_lower (a : ascii) : is_lower_letter (upper_ascii a) = false.
Proof. destruct a as [[] [] [] [] [] [] [] []]; reflexivity. Qed.

Lemma upper_ascii_keeps_ascii (a : ascii) :
  (nat_of_ascii (upper_ascii a) <? 128)%nat = (nat_of_ascii a <? 128)%nat.
Proof. destruct a as [[] [] [] [] [] [] [] []]; reflexivity. Qed.

Lemma upper_no_lower_case (s : string) : has_lower_case (upper s) = false.
Proof.
  unfold has_lower_case. induction s as [|a s IH]; [reflexivity|].
  simpl. by rewrite upper_ascii_not_lower, IH.
Qed.

Lemma upper_keeps_ascii (s : string) : ascii_text (upper s) = ascii_text s.
Proof.
  unfold ascii_text. induction s as [|a s IH]; [reflexivity|].
  simpl. by rewrite upper_ascii_keeps_ascii, IH.
Qed.

Lemma setitem_labels (df : DataFrame) (key dtype : string) (values : list cell) :
  df_columns (setitem df key dtype values) = df_columns df.
Proof.
  unfold df_columns, setitem. rewrite map_map. apply map_ext. intros c.
  destruct (has_label key c) eqn:E; [|reflexivity].
  apply has_label_eq in E. by rewrite E.
Qed.

Lemma rename_labels (a b x y : string) (df : DataFrame) (l : string) :
  In l (df_columns (rename (<[a := x]> (<[b := y]> ∅)) df)) ->
  In l (df_columns df) \/ l = x \/ l = y.
Proof.
  unfold df_columns, rename. rewrite map_map. intros H.
  apply in_map_iff in H as (c & <- & Hc). simpl. unfold dict_get.
  destruct (decide (a = col_name c)) as [->|Ha].
  - rewrite lookup_insert_eq. right. by left.
  - rewrite lookup_insert_ne by done.
    destruct (decide (b = col_name c)) as [->|Hb].
    + rewrite lookup_insert_eq. right. by right.
    + rewrite lookup_insert_ne by done. rewrite lookup_empty.
      left. by apply in_map.
Qed.

Lemma assign_scalar_labels (df : DataFrame) (kv : string * string) (l : string) :
  In l (df_columns (assign_scalar df kv)) -> In l (df_columns df) \/ l = kv.1.
Proof.
  unfold assign_scalar, df_columns.
  destruct (existsb (has_label kv.1) df).
  - rewrite map_map. intros H. apply in_map_iff in H as (c & <- & Hc).
    destruct (has_label kv.1 c); [by right|left; by apply in_map].
  - rewrite map_app. intros H. apply in_app_or in H as [H|H]; [by left|].
    right. simpl in H. by destruct H.
Qed.

Lemma assign_labels (kwargs : list (string * string)) (df : DataFrame) (l : string) :
  In l (df_columns (assign df kwargs)) ->
  In l (df_columns df) \/ In l (map fst kwargs).
Proof.
  unfold assign. revert df. induction kwargs as [|kv kwargs IH]; intros df; simpl.
  - by left.
  - intros H. destruct (IH _ H) as [H'|H']; [|right; by right].
    destruct (assign_scalar_labels df kv l H') as [H''| ->]; [by left|right; by left].
Qed.

(** The labels of the result of [transform]: the upper case of labels of
    the source, of the two names the pipeline gives, or of keys of the
    metadata. *)
Lemma transform_frame_labels (today : date) (md : list (string * string))
    (source out : DataFrame) :
  transform_frame today md source = Ok out ->
  forall label,
    In label (df_columns out) ->
    exists l, label = upper l
              /\ (In l (df_columns source) \/ In l ["value"; "travel_date"]
                  \/ In l (map fst md)).
Proof.
  unfold transform_frame. cbv zeta.
  destruct (getitem source "Date") as [dates|]; [|discriminate].
  cbn [mbind outcome_bind].
  destruct (to_dates today (col_cells dates)) as [parsed|]; [|discriminate].
  cbn [mbind outcome_bind].
  assert (Hfinish : forall kept a,
            (forall l, In l (df_columns kept) -> In l (df_columns source)) ->
            Ok (upper_columns
                  (assign (rename (<[a := "value"]> (<["Date" := "travel_date"]> ∅)) kept)
                          md)) = Ok out ->
            forall label,
              In label (df_columns out) ->
              exists l, label = upper l
                        /\ (In l (df_columns source) \/ In l ["value"; "travel_date"]
                            \/ In l (map fst md))).
  { intros kept a Hkept H label Hlabel. injection H as <-.
    rewrite upper_columns_names in Hlabel.
    apply in_map_iff in Hlabel as (l & <- & Hl). exists l. split; [reflexivity|].
    destruct (assign_labels _ _ _ Hl) as [Hl'|Hl']; [|by right; right].
    destruct (rename_labels _ _ _ _ _ _ Hl') as [Hl''|[->| ->]].
    - left. by apply Hkept.
    - right. left. by left.
    - right. left. right. by left. }
  destruct (2 <? length (setitem source "Date" "object" parsed))%nat.
  - destruct (loc_columns (setitem source "Date" "object" parsed)
                ["Date"; str_of_int (d_year today)]) as [kept|] eqn:Hloc;
      [|discriminate].
    cbn [mbind outcome_bind]. apply Hfinish.
    intros l Hl. rewrite <- (setitem_labels source "Date" "object" parsed).
    unfold df_columns in *. apply in_map_iff in Hl as (c & <- & Hc).
    apply in_map. by apply (proj1 (loc_columns_In _ _ _ Hloc)).
  - cbn [mbind outcome_bind]. apply Hfinish.
    intros l Hl. by rewrite setitem_labels in Hl.
Qed.

(** X3. When the labels of the source and the keys of the metadata are
    written in ASCII and [transform] returns, no label of its result holds
    a lower-case letter, and every label is still written in ASCII. *)
Theorem transform_labels_upper_case
    (today : date) (md : list (string * string)) (source out : DataFrame) :
  Forall (fun label => ascii_text label = true) (df_columns source) ->
  Forall (fun kv => ascii_text kv.1 = true) md ->
  transform_frame today md source = Ok out ->
  Forall (fun label => has_lower_case label = false /\ ascii_text label = true)
         (df_columns out).
Proof.
  intros Hsource Hmd H. apply List.Forall_forall. intros label Hlabel.
  destruct (transform_frame_labels _ _ _ _ H label Hlabel) as (l & -> & Hl).
  split; [apply upper_no_lower_case|]. rewrite upper_keeps_ascii.
  rewrite List.Forall_forall in Hsource, Hmd.
  destruct Hl as [Hl|[Hl|Hl]].
  - by apply Hsource.
  - simpl in Hl. destruct Hl as [<-|[<-|[]]]; reflexivity.
  - apply in_map_iff in Hl as (kv & <- & Hkv). by apply Hmd.
Qed.

Lemma transform_labels_upper_case_witness :
  Forall (fun label => has_lower_case label = false /\ ascii_text label = true)
    ["TRAVEL_DATE"; "VALUE"; "COUNTRY"; "FREQUENCY"; "SERIES_ID"; "SOURCE"; "UNIT"].
Proof.
  apply (transform_labels_upper_case (env_today quiet_env)
           (metadata (TSAETL_init quiet_env uat_context 2026)) live_page
           [ mkColumn "TRAVEL_DATE" "object" [CDate (mkDate 2026 11 3); CDate (mkDate 2026 11 2)];
             mkColumn "VALUE" "int64" [CInt 100; CInt 200];
             mkColumn "COUNTRY" "object" [CStr "US"; CStr "US"];
             mkColumn "FREQUENCY" "object" [CStr "daily"; CStr "daily"];
             mkColumn "SERIES_ID" "object"
               [CStr "uat\TSA\passenger_volumes"; CStr "uat\TSA\passenger_volumes"];
             mkColumn "SOURCE" "object"
               [CStr "https://www.tsa.gov/travel/passenger-volumes";
                CStr "https://www.tsa.gov/travel/passenger-volumes"];
             mkColumn "UNIT" "object" [CStr "number_of"; CStr "number_of"] ]).
  - repeat constructor.
  - repeat constructor.
  - by vm_compute.
Defined.

Lemma rectangular_nrows (n : nat) (df : DataFrame) :
  rectangular n df -> df <> [] -> nrows df = n.
Proof.
  intros H Hne. destruct df as [|c df]; [done|].
  apply Forall_cons in H as [H _]. exact H.
Qed.

Lemma rectangular_setitem (n : nat) (df : DataFrame) (key dtype : string) (values : list cell) :
  rectangular n df -> length values = n -> rectangular n (setitem df key dtype values).
Proof.
  intros H Hv. unfold rectangular, setitem. apply Forall_map.
  eapply Forall_impl; [exact H|]. intros c Hc. simpl.
  by destruct (has_label key c).
Qed.

Lemma rectangular_assign_scalar (n : nat) (df : DataFrame) (kv : string * string) :
  rectangular n df -> df <> [] ->
  rectangular n (assign_scalar df kv) /\ assign_scalar df kv <> [].
Proof.
  intros H Hne. unfold assign_scalar. rewrite (rectangular_nrows n df H Hne).
  destruct (existsb (has_label kv.1) df).
  - split.
    + unfold rectangular. apply Forall_map. eapply Forall_impl; [exact H|].
      intros c Hc. simpl. destruct (has_label kv.1 c); [simpl; apply repeat_length|exact Hc].
    + destruct df; [done|discriminate].
  - split.
    + apply Forall_app. split; [exact H|].
      apply Forall_cons. split; [simpl; apply repeat_length|apply Forall_nil; done].
    + destruct df; discriminate.
Qed.

Lemma rectangular_assign (n : nat) (kwargs : list (string * string)) (df : DataFrame) :
  rectangular n df -> df <> [] ->
  rectangular n (assign df kwargs) /\ assign df kwargs <> [].
Proof.
  unfold assign. revert df. induction kwargs as [|kv kwargs IH]; intros df H Hne; simpl.
  - by split.
  - destruct (rectangular_assign_scalar n df kv H Hne) as [H' Hne'].
    by apply IH.
Qed.

Lemma rectangular_relabel (n : nat) (f : string -> string) (df : DataFrame) :
  rectangular n df ->
  rectangular n (map (fun c => mkColumn (f (col_name c)) (col_dtype c) (col_cells c)) df).
Proof.
  intros H. unfold rectangular. apply Forall_map.
  eapply Forall_impl; [exact H|]. by intros c Hc.
Qed.

(** X4. [transform] keeps the rows: when every column of the source has
    [n] cells and [transform] returns, every column of the result has [n]
    cells, the metadata columns included, and the result has [n] rows. *)
Theorem transform_keeps_rows
    (today : date) (md : list (string * string)) (source out : DataFrame) (n : nat) :
  rectangular n source ->
  transform_frame today md source = Ok out ->
  rectangular n out /\ nrows out = n.
Proof.
  intros Hrect. unfold transform_frame. cbv zeta.
  destruct (getitem source "Date") as [dates|] eqn:Hget; [|discriminate].
  cbn [mbind outcome_bind].
  destruct (to_dates today (col_cells dates)) as [parsed|] eqn:Hparsed; [|discriminate].
  cbn [mbind outcome_bind].
  pose proof (getitem_In _ _ _ Hget) as Hin.
  assert (Hn : length parsed = n).
  { rewrite (to_dates_length _ _ _ Hparsed).
    unfold rectangular in Hrect. rewrite List.Forall_forall in Hrect. by apply Hrect. }
  pose proof (rectangular_setitem n source "Date" "object" parsed Hrect Hn) as Hset.
  assert (Hset_ne : setitem source "Date" "object" parsed <> []).
  { unfold setitem. destruct source; [destruct Hin|discriminate]. }
  assert (Hfinish : forall kept mapping,
            rectangular n kept -> kept <> [] ->
            Ok (upper_columns (assign (rename mapping kept) md)) = Ok out ->
            rectangular n out /\ nrows out = n).
  { intros kept mapping Hk Hkne H. injection H as <-.
    destruct (rectangular_assign n md (rename mapping kept)) as [Ha Hane].
    - by apply (rectangular_relabel n (fun label => dict_get mapping label label)).
    - unfold rename. destruct kept; [done|discriminate].
    - assert (Hup : rectangular n (upper_columns (assign (rename mapping kept) md))).
      { by apply (rectangular_relabel n upper). }
      split; [exact Hup|]. apply rectangular_nrows; [exact Hup|].
      unfold upper_columns. destruct (assign (rename mapping kept) md); [done|discriminate]. }
  destruct (2 <? length (setitem source "Date" "object" parsed))%nat.
  - destruct (loc_columns (setitem source "Date" "object" parsed)
                ["Date"; str_of_int (d_year today)]) as [kept|] eqn:Hloc;
      [|discriminate].
    cbn [mbind outcome_bind].
    destruct (loc_columns_In _ _ _ Hloc) as [Hsub Hkne].
    apply Hfinish; [|by apply Hkne].
    unfold rectangular in *. rewrite List.Forall_forall in *.
    intros c Hc. apply Hset. by apply Hsub.
  - cbn [mbind outcome_bind]. by apply Hfinish.
Qed.

Lemma transform_keeps_rows_witness :
  exists out,
    transform_frame (mkDate 2026 11 4) (metadata (TSAETL_init quiet_env uat_context 2026))
      live_page
    = Ok out
    /\ rectangular 2 out /\ nrows out = 2%nat.
Proof.
  eexists. split; [reflexivity|].
  eapply (transform_keeps_rows (mkDate 2026 11 4)
            (metadata (TSAETL_init quiet_env uat_context 2026))
            live_page _ 2).
  - repeat constructor.
  - reflexivity.
Defined.

(** X5. The table that [load] creates for the result of [transform] on a
    two-column source: TRAVEL_DATE is declared as TEXT (the column holds
    Python dates, whose dtype is [object]), VALUE has the SQL type of the
    dtype of [Numbers], and the five metadata columns are TEXT. *)
Theorem create_table_for_transformed
    (env : Env) (base_variables : BaseVariables) (year : Z) (table_name : string)
    (dates_dtype numbers_dtype : string) (dates numbers parsed : list cell) :
  to_dates (env_today env) dates = Ok parsed ->
  exists out,
    transform_frame (env_today env) (metadata (TSAETL_init env base_variables year))
      [ mkColumn "Date" dates_dtype dates; mkColumn "Numbers" numbers_dtype numbers ]
    = Ok out
    /\ snowflake_create_table table_name out
       = "CREATE TABLE IF NOT EXISTS " +:+ table_name +:+ " ("
         +:+ join ", "
               [ dq +:+ "TRAVEL_DATE" +:+ dq +:+ " TEXT";
                 dq +:+ "VALUE" +:+ dq +:+ " " +:+ spec_sql_type numbers_dtype;
                 dq +:+ "COUNTRY" +:+ dq +:+ " TEXT";
                 dq +:+ "FREQUENCY" +:+ dq +:+ " TEXT";
                 dq +:+ "SERIES_ID" +:+ dq +:+ " TEXT";
                 dq +:+ "SOURCE" +:+ dq +:+ " TEXT";
                 dq +:+ "UNIT" +:+ dq +:+ " TEXT" ]
         +:+ ");".
Proof.
  intros Hparsed. eexists. split.
  - by apply transform_frame_two_columns.
  - unfold snowflake_create_table, df_dtypes.
    rewrite <- (dict_get_dtype_mapping numbers_dtype). reflexivity.
Qed.

Lemma create_table_for_transformed_witness :
  exists out,
    transform_frame (mkDate 2026 11 4) (metadata uat_pipeline)
      [ mkColumn "Date" "object" [CStr "01/01/2022"];
        mkColumn "Numbers" "int64" [CInt 100] ]
    = Ok out
    /\ snowflake_create_table "PASSENGERS" out
       = "CREATE TABLE IF NOT EXISTS PASSENGERS ("
         +:+ dq +:+ "TRAVEL_DATE" +:+ dq +:+ " TEXT, "
         +:+ dq +:+ "VALUE" +:+ dq +:+ " NUMBER, "
         +:+ dq +:+ "COUNTRY" +:+ dq +:+ " TEXT, "
         +:+ dq +:+ "FREQUENCY" +:+ dq +:+ " TEXT, "
         +:+ dq +:+ "SERIES_ID" +:+ dq +:+ " TEXT, "
         +:+ dq +:+ "SOURCE" +:+ dq +:+ " TEXT, "
         +:+ dq +:+ "UNIT" +:+ dq +:+ " TEXT);".
Proof.
  exact (create_table_for_transformed quiet_env uat_context 2022 "PASSENGERS"
           "object" "int64" [CStr "01/01/2022"] [CInt 100] [CDate (mkDate 2022 1 1)]
           eq_refl).
Defined.

(** ** The phases of the TSA pipeline inside [etl] *)

Lemma tsa_extract_run (env : Env) (self : TSAETL) (w : world) :
  tsa_extract env self w
  = let asked := (history w ++ [extraction_logged])%list in
    let got := env_http_get env asked (url self) 15 in
    (match got with
     | Raise e => Raise e
     | Ok r =>
         if in_range 400 599 (status_code r)
         then Raise (http_error r)
         else match read_html r with
              | Raise e => Raise e
              | Ok [] => Raise (Exn "IndexError" "list index out of range")
              | Ok (t :: _) => Ok (mkTSAETL (metadata self) (url self) (Some t))
              end
     end,
     mkWorld (heap w)
       (asked ++ [mkEntry (CallHttpGet (url self) 15)
                    (match got with Ok r => AnsResponse r | Raise e => AnsRaise e end)])).
Proof.
  unfold tsa_extract, extraction_logged.
  rewrite bind_run. unfold tell at 1.
  rewrite bind_run. unfold ask at 1.
  cbv beta iota zeta delta [fst snd history heap record].
  destruct (env_http_get env _ (url self) 15) as [r|e]; [|reflexivity].
  rewrite bind_run. unfold raise_for_status.
  destruct (in_range 400 599 (status_code r)); [reflexivity|].
  cbv beta iota zeta delta [mret M_ret ret].
  rewrite bind_run. unfold first_table. rewrite bind_run. unfold lift.
  destruct (read_html r) as [[|t others]|e]; reflexivity.
Qed.

Lemma in_range_spec (lo hi n : Z) :
  in_range lo hi n = true <-> lo <= n <= hi.
Proof. unfold in_range. lia. Qed.

(** X6. [extract] logs one line and sends one GET request for the URL of
    the instance, with a timeout of 15 seconds, and nothing else.  An error
    of the request is raised as it is; a status from 400 to 599 raises the
    HTTPError of requests, a client error below 500 and a server error
    from 500 on; an error of [pd.read_html] on the body (no table on the
    page, an empty document) is raised as it is; otherwise the first table
    of the page becomes the working table, the later ones being dropped. *)
Theorem extract_outcomes (env : Env) (self : TSAETL) (w : world) :
  let asked := (history w ++ [extraction_logged])%list in
  let run := tsa_extract env self w in
  (exists reply,
     run.2 = mkWorld (heap w) (asked ++ [mkEntry (CallHttpGet (url self) 15) reply]))
  /\ (forall e, env_http_get env asked (url self) 15 = Raise e -> run.1 = Raise e)
  /\ (forall r,
        env_http_get env asked (url self) 15 = Ok r ->
        (400 <= status_code r <= 599 ->
         run.1
         = Raise (Exn "HTTPError"
                    (str_of_int (status_code r)
                     +:+ (if status_code r <? 500 then " Client Error: "
                          else " Server Error: ")
                     +:+ reason r +:+ " for url: " +:+ response_url r)))
        /\ (~ 400 <= status_code r <= 599 ->
            (forall e, read_html r = Raise e -> run.1 = Raise e)
            /\ (forall t others,
                  read_html r = Ok (t :: others) ->
                  run.1 = Ok (mkTSAETL (metadata self) (url self) (Some t))))).
Proof.
  intros asked run. subst run. rewrite tsa_extract_run. fold asked. simpl.
  split; [by eexists|]. split.
  - intros e ->. reflexivity.
  - intros r ->. split.
    + intros Hs. by rewrite (proj2 (in_range_spec 400 599 _) Hs).
    + intros Hs. destruct (in_range 400 599 (status_code r)) eqn:Hr.
      { by apply in_range_spec in Hr. }
      split; [by intros e ->|]. by intros t others ->.
Qed.

Lemma extract_outcomes_witness :
  (tsa_extract (serving (Ok (served 404 "Not Found" [archive_page]))) uat_pipeline
     empty_world).1
  = Raise (Exn "HTTPError"
             ("404 Client Error: Not Found for url: " +:+ source_url))
  /\ (tsa_extract (serving (Ok (served 200 "OK" [archive_page; live_page])))
        uat_pipeline empty_world).1
     = Ok (mkTSAETL (metadata uat_pipeline) (url uat_pipeline) (Some archive_page))
  /\ (tsa_extract (serving (Ok (mkResponse 200 "OK" source_url (Raise empty_document))))
        uat_pipeline empty_world).1
     = Raise empty_document.
Proof.
  split; [|split].
  - apply (proj1 (proj2 (proj2 (extract_outcomes
             (serving (Ok (served 404 "Not Found" [archive_page]))) uat_pipeline
             empty_world))
             (served 404 "Not Found" [archive_page]) eq_refl)).
    simpl. lia.
  - apply (proj2 (proj2 (proj2 (proj2 (extract_outcomes
             (serving (Ok (served 200 "OK" [archive_page; live_page])))
             uat_pipeline empty_world))
             (served 200 "OK" [archive_page; live_page]) eq_refl)
             ltac:(simpl; lia)) archive_page [live_page] eq_refl).
  - apply (proj1 (proj2 (proj2 (proj2 (extract_outcomes
             (serving (Ok (mkResponse 200 "OK" source_url (Raise empty_document))))
             uat_pipeline empty_world))
             (mkResponse 200 "OK" source_url (Raise empty_document)) eq_refl)
             ltac:(simpl; lia)) empty_document eq_refl).
Defined.

(** *** The errors of [transform] *)

Lemma getitem_raises (source : DataFrame) (key : string) (e : exn) :
  getitem source key = Raise e -> In (exn_cls e) ["KeyError"; "ValueError"].
Proof.
  unfold getitem. destruct (List.filter (has_label key) source) as [|c [|c' rest]];
    intros H; inversion H; subst; simpl; tauto.
Qed.

Lemma to_date_raises (today : date) (c : cell) (e : exn) :
  to_date today c = Raise e -> In (exn_cls e) ["ValueError"; "OutOfBoundsDatetime"].
Proof.
  destruct c as [s|n|d|]; unfold to_date.
  - destruct (is_empty s || existsb (String.eqb s) nat_strings); [discriminate|].
    destruct (existsb (String.eqb s) clock_strings).
    { destruct (in_timestamp_bounds today); intros H; inversion H; subst; simpl; tauto. }
    destruct (strptime_mdY s) as [d|]; [destruct (in_timestamp_bounds d)|];
      intros H; inversion H; subst; simpl; tauto.
  - intros H; inversion H; subst; simpl; tauto.
  - destruct (in_timestamp_bounds d); intros H; inversion H; subst; simpl; tauto.
  - discriminate.
Qed.

Lemma to_dates_raises (today : date) (cells : list cell) (e : exn) :
  to_dates today cells = Raise e -> In (exn_cls e) ["ValueError"; "OutOfBoundsDatetime"].
Proof.
  induction cells as [|c rest IH]; cbn [to_dates]; [discriminate|].
  destruct (to_date today c) as [d|e'] eqn:Hd; cbn [mbind outcome_bind].
  - destruct (to_dates today rest) as [ds|e'']; cbn [mbind outcome_bind]; [discriminate|].
    intros H. inversion H; subst. by apply IH.
  - intros H. inversion H; subst. by apply to_date_raises in Hd.
Qed.

Lemma loc_columns_raises (source : DataFrame) (labels : list string) (e : exn) :
  loc_columns source labels = Raise e -> exn_cls e = "KeyError".
Proof.
  unfold loc_columns.
  destruct (List.filter _ labels) as [|l missing]; [discriminate|].
  intros H. by inversion H.
Qed.

Lemma transform_frame_raises (today : date) (metadata : list (string * string))
    (source : DataFrame) (e : exn) :
  transform_frame today metadata source = Raise e ->
  In (exn_cls e) ["KeyError"; "ValueError"; "OutOfBoundsDatetime"].
Proof.
  unfold transform_frame, mbind, outcome_bind. cbv zeta.
  destruct (getitem source "Date") as [dates|e1] eqn:Hg.
  - destruct (to_dates today (col_cells dates)) as [parsed|e2] eqn:Hp.
    + destruct (2 <? length (setitem source "Date" "object" parsed))%nat;
        [|discriminate].
      destruct (loc_columns (setitem source "Date" "object" parsed)
                  ["Date"; str_of_int (d_year today)]) as [kept|e3] eqn:Hl;
        [discriminate|].
      intros H. inversion H; subst. apply loc_columns_raises in Hl. rewrite Hl.
      simpl; tauto.
    + intros H. inversion H; subst. apply to_dates_raises in Hp. simpl in *; tauto.
  - intros H. inversion H; subst. apply getitem_raises in Hg. simpl in *; tauto.
Qed.

Lemma transform_frame_raises_Exception (today : date)
    (metadata : list (string * string)) (source : DataFrame) (e : exn) :
  transform_frame today metadata source = Raise e -> is_Exception e = true.
Proof.
  intros H. apply transform_frame_raises in H. unfold is_Exception.
  simpl in H. destruct H as [<-|[<-|[<-|[]]]]; reflexivity.
Qed.

Lemma tsa_extract_table (env : Env) (self : TSAETL) (w : world)
    (r : http_response) (t : DataFrame) (others : list DataFrame) :
  env_http_get env (history w ++ [extraction_logged]) (url self) 15 = Ok r ->
  in_range 400 599 (status_code r) = false ->
  read_html r = Ok (t :: others) ->
  tsa_extract env self w
  = (Ok (mkTSAETL (metadata self) (url self) (Some t)),
     mkWorld (heap w)
       (history w ++ [extraction_logged; mkEntry (CallHttpGet (url self) 15) (AnsResponse r)])).
Proof.
  intros Hget Hstatus Htables. rewrite tsa_extract_run. simpl.
  rewrite Hget, Hstatus, Htables, <- app_assoc. reflexivity.
Qed.

Lemma tsa_transform_run (env : Env) (self : TSAETL) (t : DataFrame) (w : world) :
  df self = Some t ->
  tsa_transform env self w
  = (match transform_frame (env_today env) (metadata self) t with
     | Ok d => Ok (mkTSAETL (metadata self) (url self) (Some d))
     | Raise e => Raise e
     end,
     mkWorld (heap w) (history w ++ [transformation_logged])).
Proof.
  intros Hdf. unfold tsa_transform, transformation_logged.
  rewrite bind_run. unfold tell at 1.
  cbv beta iota zeta delta [fst snd history heap record].
  rewrite Hdf, bind_run. unfold lift.
  destruct (transform_frame _ _ t); reflexivity.
Qed.

(** X7. When the fetch fails (the request raises, the status is an error
    status, or the page has no table), [etl] of the TSA pipeline ends after
    the one log line and the one GET request: nothing is transformed and
    the warehouse is not contacted.  An [Exception] comes out as the
    RuntimeError of the Extraction stage, anything else as it is. *)
Theorem etl_stops_at_failed_fetch (env : Env) (base_variables : BaseVariables)
    (self : TSAETL) (w : world) (e : exn) :
  (tsa_extract env self w).1 = Raise e ->
  exists reply,
    etl (TSAETL_class env base_variables) self w
    = (Raise (if is_Exception e then stage_failure "Extraction" e else e),
       mkWorld (heap w)
         (history w ++ [extraction_logged; mkEntry (CallHttpGet (url self) 15) reply])).
Proof.
  intros Hfail. unfold etl. rewrite bind_run. unfold try_except.
  change (extract (TSAETL_class env base_variables) self w)
    with (tsa_extract env self w).
  rewrite tsa_extract_run in Hfail |- *. simpl in Hfail |- *.
  rewrite Hfail, <- app_assoc. eexists.
  destruct (is_Exception e); reflexivity.
Qed.

Lemma etl_stops_at_failed_fetch_witness :
  exists reply,
    etl (TSAETL_class (serving (Ok (served 200 "OK" []))) uat_context) uat_pipeline empty_world
    = (Raise (stage_failure "Extraction" (Exn "ValueError" "No tables found")),
       mkWorld ∅
         [extraction_logged; mkEntry (CallHttpGet (url uat_pipeline) 15) reply]).
Proof.
  exact (etl_stops_at_failed_fetch (serving (Ok (served 200 "OK" []))) uat_context
           uat_pipeline empty_world (Exn "ValueError" "No tables found") eq_refl).
Defined.

Lemma etl_after_fetch (env : Env) (base_variables : BaseVariables) (self : TSAETL)
    (w : world) (r : http_response) (t : DataFrame) (others : list DataFrame) :
  env_http_get env (history w ++ [extraction_logged]) (url self) 15 = Ok r ->
  in_range 400 599 (status_code r) = false ->
  read_html r = Ok (t :: others) ->
  etl (TSAETL_class env base_variables) self w
  = let w2 :=
      mkWorld (heap w)
        (history w ++ [extraction_logged;
                       mkEntry (CallHttpGet (url self) 15) (AnsResponse r);
                       transformation_logged]) in
    match transform_frame (env_today env) (metadata self) t with
    | Raise e => (Raise (stage_failure "Transformation" e), w2)
    | Ok d =>
        let loaded :=
          load_dataframe_to_snowflake env
            (mkConnector (bv_conn base_variables) (load_config base_variables))
            (Some d) w2 in
        (match loaded.1 with
         | Ok _ => Ok (mkTSAETL (metadata self) (url self) (Some d))
         | Raise e => Raise (if is_Exception e then stage_failure "Upload" e else e)
         end,
         loaded.2)
    end.
Proof.
  intros Hget Hstatus Htables. unfold etl.
  rewrite bind_run.
  rewrite (try_except_ok _ _ _ _ _ (tsa_extract_table env self w r t others
                                      Hget Hstatus Htables)).
  rewrite bind_run. unfold try_except at 1.
  change (transform (TSAETL_class env base_variables)) with (tsa_transform env).
  rewrite (tsa_transform_run env (mkTSAETL (metadata self) (url self) (Some t)) t _ eq_refl).
  cbn [metadata url df heap history].
  rewrite <- app_assoc. simpl app.
  destruct (transform_frame (env_today env) (metadata self) t) as [d|e] eqn:Ht.
  - cbv beta iota. rewrite bind_run. unfold try_except.
    change (load (TSAETL_class env base_variables)
              (mkTSAETL (metadata self) (url self) (Some d)))
      with (load_dataframe_to_snowflake env
              (mkConnector (bv_conn base_variables) (load_config base_variables))
              (Some d)).
    cbv zeta.
    destruct (load_dataframe_to_snowflake env _ (Some d) _) as [[[]|e] w3];
      [reflexivity|].
    simpl. destruct (is_Exception e); reflexivity.
  - cbv beta iota. by rewrite (transform_frame_raises_Exception _ _ _ _ Ht).
Qed.

(** X8. When the page is fetched but its first table cannot be transformed
    (no Date column, a date that does not read, the column of the current
    year missing), [etl] raises the RuntimeError of the Transformation
    stage with the error as cause, after the request and the two log
    lines: the warehouse is not contacted. *)
Theorem etl_stops_at_failed_transform (env : Env) (base_variables : BaseVariables)
    (self : TSAETL) (w : world) (r : http_response) (t : DataFrame)
    (others : list DataFrame) (e : exn) :
  env_http_get env (history w ++ [extraction_logged]) (url self) 15 = Ok r ->
  ~ 400 <= status_code r <= 599 ->
  read_html r = Ok (t :: others) ->
  transform_frame (env_today env) (metadata self) t = Raise e ->
  etl (TSAETL_class env base_variables) self w
  = (Raise (ExnFrom "RuntimeError"
              ("Scraper failed at Transformation. Error was " +:+ exn_str e) e),
     mkWorld (heap w)
       (history w ++ [extraction_logged;
                      mkEntry (CallHttpGet (url self) 15) (AnsResponse r);
                      transformation_logged])).
Proof.
  intros Hget Hstatus Htables Hfail.
  assert (in_range 400 599 (status_code r) = false) as Hr.
  { destruct (in_range 400 599 (status_code r)) eqn:Hr; [|done].
    by apply in_range_spec in Hr. }
  rewrite (etl_after_fetch env base_variables self w r t others Hget Hr Htables).
  cbv zeta. by rewrite Hfail.
Qed.

Lemma etl_stops_at_failed_transform_witness :
  etl (TSAETL_class (serving (Ok (served 200 "OK" [page_without_dates]))) uat_context)
    uat_pipeline empty_world
  = (Raise (ExnFrom "RuntimeError"
              "Scraper failed at Transformation. Error was 'Date'"
              (KeyError "Date")),
     mkWorld ∅
       [extraction_logged;
        mkEntry (CallHttpGet (url uat_pipeline) 15)
          (AnsResponse (served 200 "OK" [page_without_dates]));
        transformation_logged]).
Proof.
  apply (etl_stops_at_failed_transform
           (serving (Ok (served 200 "OK" [page_without_dates]))) uat_context
           uat_pipeline empty_world (served 200 "OK" [page_without_dates])
           page_without_dates [] (KeyError "Date")).
  - reflexivity.
  - simpl. lia.
  - reflexivity.
  - reflexivity.
Defined.

(** X9. When the page is fetched and its first table transforms, [etl]
    hands the transformed table, and no other, to the load of the
    warehouse: the connector shares the connection parameters of the run
    context, the database is the configured one with the environment in
    upper case after an underscore, and the merge key is TRAVEL_DATE.  [etl]
    returns the instance holding the transformed table when the load
    returns, and the Upload error (or the bare error, when it is not an
    [Exception]) when the load raises. *)
Theorem etl_loads_transformed_table (env : Env) (base_variables : BaseVariables)
    (self : TSAETL) (w : world) (r : http_response) (t out : DataFrame)
    (others : list DataFrame) :
  env_http_get env (history w ++ [extraction_logged]) (url self) 15 = Ok r ->
  ~ 400 <= status_code r <= 599 ->
  read_html r = Ok (t :: others) ->
  transform_frame (env_today env) (metadata self) t = Ok out ->
  let loaded :=
    load_dataframe_to_snowflake env
      (mkConnector (bv_conn base_variables)
         (mkSnowflakeConfig
            (bv_database base_variables +:+ "_" +:+ upper (bv_environment base_variables))
            (bv_schema base_variables) (bv_table base_variables) ["TRAVEL_DATE"]))
      (Some out)
      (mkWorld (heap w)
         (history w ++ [extraction_logged;
                        mkEntry (CallHttpGet (url self) 15) (AnsResponse r);
                        transformation_logged])) in
  etl (TSAETL_class env base_variables) self w
  = (match loaded.1 with
     | Ok _ => Ok (mkTSAETL (metadata self) (url self) (Some out))
     | Raise e => Raise (if is_Exception e then stage_failure "Upload" e else e)
     end,
     loaded.2).
Proof.
  intros Hget Hstatus Htables Hout.
  assert (in_range 400 599 (status_code r) = false) as Hr.
  { destruct (in_range 400 599 (status_code r)) eqn:Hr; [|done].
    by apply in_range_spec in Hr. }
  rewrite (etl_after_fetch env base_variables self w r t others Hget Hr Htables).
  cbv zeta. by rewrite Hout.
Qed.

Lemma etl_loads_transformed_table_witness :
  exists out,
    transform_frame (mkDate 2026 11 4) (metadata uat_pipeline) archive_page = Ok out
    /\ (etl (TSAETL_class (serving (Ok (served 200 "OK" [archive_page]))) uat_context)
          uat_pipeline empty_world).1
       = Ok (mkTSAETL (metadata uat_pipeline) (url uat_pipeline) (Some out)).
Proof.
  eexists. split; [reflexivity|].
  rewrite (etl_loads_transformed_table
             (serving (Ok (served 200 "OK" [archive_page]))) uat_context
             uat_pipeline empty_world (served 200 "OK" [archive_page])
             archive_page _ [] eq_refl ltac:(simpl; lia) eq_refl eq_refl).
  reflexivity.
Defined.

(** X10. What [except Exception] does not catch (KeyboardInterrupt,
    SystemExit, GeneratorExit and the other classes that derive from
    BaseException only) leaves [etl] as it was raised, whichever
    phase raised it and whatever the class of the pipeline: it is not
    wrapped in a RuntimeError, and the later phases do not run. *)
Theorem etl_passes_interrupts {S} (cls : Pipeline S) (self : S) (w w' : world)
    (s : stage) (e : exn) :
  is_Exception e = false ->
  fails_at cls self w s e w' ->
  etl cls self w = (Raise e, w').
Proof.
  intros He Hfail. unfold etl.
  destruct Hfail as [e w1 Hx | s1 w1 e w2 Hx Ht | s1 w1 s2 w2 e w3 Hx Ht Hl].
  - rewrite bind_run. unfold try_except. by rewrite Hx, He.
  - rewrite bind_run, (try_except_ok _ _ _ _ _ Hx).
    rewrite bind_run. unfold try_except. by rewrite Ht, He.
  - rewrite bind_run, (try_except_ok _ _ _ _ _ Hx).
    rewrite bind_run, (try_except_ok _ _ _ _ _ Ht).
    rewrite bind_run. unfold try_except. by rewrite Hl, He.
Qed.

Lemma etl_passes_interrupts_witness :
  etl (TSAETL_class (serving (Raise (Exn "KeyboardInterrupt" EmptyString))) uat_context)
    uat_pipeline empty_world
  = (Raise (Exn "KeyboardInterrupt" EmptyString),
     mkWorld ∅
       [extraction_logged;
        mkEntry (CallHttpGet (url uat_pipeline) 15)
          (AnsRaise (Exn "KeyboardInterrupt" EmptyString))]).
Proof.
  apply (etl_passes_interrupts
           (TSAETL_class (serving (Raise (Exn "KeyboardInterrupt" EmptyString))) uat_context)
           uat_pipeline empty_world _ Extraction (Exn "KeyboardInterrupt" EmptyString)).
  - reflexivity.
  - apply fails_extract. reflexivity.
Defined.

(** ** The load and the read of the connector, path by path *)

Ltac find_entry :=
  cbn [In app]; solve [repeat (first [left; reflexivity | right])].

Lemma load_run (env : Env) (self : SnowflakeConnector) (odf : option DataFrame)
    (w : world) :
  exists calls,
    history (load_dataframe_to_snowflake env self odf w).2 = (history w ++ calls)%list
    /\ heap (load_dataframe_to_snowflake env self odf w).2 = heap w
    /\ (exists reply rest,
          calls = mkEntry (CallConnect (deref (connection_params self) w)) reply :: rest)
    /\ ((load_dataframe_to_snowflake env self odf w).1 = Ok tt ->
        exists frame nrows,
          odf = Some frame
          /\ calls = load_calls (config self) (deref (connection_params self) w)
                       frame nrows)
    /\ (forall e,
          (load_dataframe_to_snowflake env self odf w).1 = Raise e ->
          (e = staging_write_error
           /\ exists frame nrows,
                In (mkEntry (CallWritePandas frame (table (config self) +:+ "_staging") false)
                      (AnsWrite false nrows)) calls)
          \/ (e = none_has_no_dtypes /\ odf = None)
          \/ raised_outside e calls)
    /\ (existsb is_commit calls = true ->
        exists frame nrows,
          odf = Some frame
          /\ In (mkEntry (CallWritePandas frame (table (config self) +:+ "_staging") false)
                   (AnsWrite true nrows)) calls
          /\ In (mkEntry (CallExecute (merge_stmt (config self) frame)) AnsDone) calls
          /\ length (List.filter is_commit calls) = 1%nat).
Proof.
  repeat run_step; show_calls;
    (split; [reflexivity|]);
    (split; [eexists _, _; reflexivity|]);
    cbn [fst snd].
  all: (split; [first [discriminate | intros _; eexists _, _; split; reflexivity]|]).
  all: (split;
     [intros err Herr;
      first [discriminate Herr
            | injection Herr as <-;
              first [ left; split; [reflexivity|]; eexists _, _; find_entry
                    | right; left; split; reflexivity
                    | right; right; eexists; find_entry ]]|]).
  all: cbn [existsb is_commit e_call orb app].
  all: try discriminate.
  all: intros _; eexists _, _; (split; [reflexivity|]).
  all: (split; [find_entry|]).
  all: (split; [find_entry|]).
  all: reflexivity.
Qed.

Lemma history_calls_unique (w w' : world) (calls calls' : list entry) :
  history w' = (history w ++ calls)%list ->
  history w' = (history w ++ calls')%list ->
  calls' = calls.
Proof. intros H H'. rewrite H in H'. by apply app_inv_head in H'. Qed.

(** X11. A load that returns was given a table and made exactly these
    calls, in this order, each of which returned: connect with the shared
    parameters, open a cursor, create and select the database and the
    schema, create the table from the dtypes of the table, create the
    temporary staging table like it, write the table to the staging table
    with identifiers not quoted (which reported success), run the MERGE,
    commit, print the row count the write reported, leave the cursor and
    close.  No dictionary is changed. *)
Theorem load_success_calls (env : Env) (self : SnowflakeConnector)
    (odf : option DataFrame) (w : world) :
  (load_dataframe_to_snowflake env self odf w).1 = Ok tt ->
  exists frame nrows,
    odf = Some frame
    /\ (load_dataframe_to_snowflake env self odf w).2
       = mkWorld (heap w)
           (history w ++ load_calls (config self) (deref (connection_params self) w)
                           frame nrows).
Proof.
  intros Hok.
  destruct (load_run env self odf w) as (calls & Hhist & Hheap & _ & Hdone & _).
  destruct (Hdone Hok) as (frame & nrows & -> & ->).
  exists frame, nrows. split; [reflexivity|].
  destruct (load_dataframe_to_snowflake env self (Some frame) w).2 as [h hist].
  simpl in Hhist, Hheap. by subst.
Qed.

Lemma load_success_calls_witness :
  exists frame nrows,
    Some travel_frame = Some frame
    /\ (load_dataframe_to_snowflake quiet_env uat_connector (Some travel_frame)
          empty_world).2
       = mkWorld ∅ ([] ++ load_calls travel_config (deref 1%positive empty_world)
                            frame nrows).
Proof.
  exact (load_success_calls quiet_env uat_connector (Some travel_frame) empty_world
           eq_refl).
Defined.

(** X12. The error of a load that raises is one of three: the RuntimeError
    of the staging write, and then the bulk write had reported failure; the
    AttributeError of a missing table, and then the load was given None; or
    an error that one of the outside calls raised, handed on unchanged. *)
Theorem load_error_origin (env : Env) (self : SnowflakeConnector)
    (odf : option DataFrame) (w : world) (calls : list entry) (e : exn) :
  history (load_dataframe_to_snowflake env self odf w).2 = (history w ++ calls)%list ->
  (load_dataframe_to_snowflake env self odf w).1 = Raise e ->
  (e = staging_write_error
   /\ exists frame nrows,
        In (mkEntry (CallWritePandas frame (table (config self) +:+ "_staging") false)
              (AnsWrite false nrows)) calls)
  \/ (e = none_has_no_dtypes /\ odf = None)
  \/ raised_outside e calls.
Proof.
  intros Hcalls Hraise.
  destruct (load_run env self odf w) as (calls' & Hhist & _ & _ & _ & Herr & _).
  rewrite (history_calls_unique _ _ _ _ Hhist Hcalls). by apply Herr.
Qed.

Lemma load_error_origin_witness :
  (staging_write_error = staging_write_error
   /\ exists frame nrows,
        In (mkEntry (CallWritePandas frame ("PASSENGERS" +:+ "_staging") false)
              (AnsWrite false nrows))
           (history (load_dataframe_to_snowflake refusing_write_env uat_connector
                       (Some travel_frame) empty_world).2))
  \/ (staging_write_error = none_has_no_dtypes /\ Some travel_frame = None)
  \/ raised_outside staging_write_error
       (history (load_dataframe_to_snowflake refusing_write_env uat_connector
                   (Some travel_frame) empty_world).2).
Proof.
  exact (load_error_origin refusing_write_env uat_connector (Some travel_frame)
           empty_world _ staging_write_error eq_refl eq_refl).
Defined.

(** X13. A load commits at most once, and only a transaction in which the
    bulk write into the staging table reported success and the MERGE
    returned; with no table to load there is no commit. *)
Theorem commit_only_after_merge (env : Env) (self : SnowflakeConnector)
    (odf : option DataFrame) (w : world) (calls : list entry) :
  history (load_dataframe_to_snowflake env self odf w).2 = (history w ++ calls)%list ->
  (length (List.filter is_commit calls) <= 1)%nat
  /\ (existsb is_commit calls = true ->
      exists frame nrows,
        odf = Some frame
        /\ In (mkEntry (CallWritePandas frame (table (config self) +:+ "_staging") false)
                 (AnsWrite true nrows)) calls
        /\ In (mkEntry (CallExecute (merge_stmt (config self) frame)) AnsDone) calls).
Proof.
  intros Hcalls.
  destruct (load_run env self odf w) as (calls' & Hhist & _ & _ & _ & _ & Hcommit).
  rewrite (history_calls_unique _ _ _ _ Hhist Hcalls).
  destruct (existsb is_commit calls') eqn:Hany.
  - destruct (Hcommit eq_refl) as (frame & nrows & -> & Hw & Hm & Hone).
    split; [lia|]. intros _. by exists frame, nrows.
  - split; [|discriminate].
    assert (List.filter is_commit calls' = []) as ->; [|simpl; lia].
    clear -Hany. induction calls' as [|c rest IH]; [reflexivity|].
    simpl in *. apply orb_false_iff in Hany as [-> Hrest]. by apply IH.
Qed.

Lemma commit_only_after_merge_witness :
  (length (List.filter is_commit (load_calls travel_config ∅ travel_frame 0)) <= 1)%nat
  /\ (existsb is_commit (load_calls travel_config ∅ travel_frame 0) = true ->
      exists frame nrows,
        Some travel_frame = Some frame
        /\ In (mkEntry (CallWritePandas frame ("PASSENGERS" +:+ "_staging") false)
                 (AnsWrite true nrows)) (load_calls travel_config ∅ travel_frame 0)
        /\ In (mkEntry (CallExecute (merge_stmt travel_config frame)) AnsDone)
              (load_calls travel_config ∅ travel_frame 0)).
Proof.
  exact (commit_only_after_merge quiet_env uat_connector (Some travel_frame)
           empty_world (load_calls travel_config ∅ travel_frame 0) eq_refl).
Defined.

(** *** The read *)

Lemma read_run (env : Env) (self : SnowflakeConnector) (w : world) :
  exists calls,
    history (extract_dataframe_from_snowflake env self w).2 = (history w ++ calls)%list
    /\ heap (extract_dataframe_from_snowflake env self w).2
       = <[connection_params self := read_params self w]> (heap w)
    /\ forallb (read_call (config self)) calls = true
    /\ (length (List.filter is_execute calls) <= 1)%nat.
Proof.
  unfold read_params.
  repeat run_step; rewrite ?deref_updated; show_calls;
    (split; [reflexivity|]);
    cbn [forallb read_call e_call andb app List.filter is_execute length];
    rewrite ?String.eqb_refl; (split; [reflexivity|lia]).
Qed.

Lemma read_params_lookup (self : SnowflakeConnector) (w : world) :
  read_params self w !! "database" = Some (database (config self))
  /\ read_params self w !! "schema" = Some (schema (config self)).
Proof.
  unfold read_params.
  split; [by rewrite lookup_insert_ne, lookup_insert_eq|by rewrite lookup_insert_eq].
Qed.

(** X14. The read only reads: whatever the warehouse answers, its calls are
    among connect, opening a cursor, the SELECT on the configured table,
    the fetch, leaving the cursor and close, with at most one statement
    executed; it never writes, merges, commits or creates anything. *)
Theorem read_only_reads (env : Env) (self : SnowflakeConnector) (w : world)
    (calls : list entry) :
  history (extract_dataframe_from_snowflake env self w).2 = (history w ++ calls)%list ->
  forallb (read_call (config self)) calls = true
  /\ (length (List.filter is_execute calls) <= 1)%nat.
Proof.
  intros Hcalls.
  destruct (read_run env self w) as (calls' & Hhist & _ & Hread & Hone).
  by rewrite (history_calls_unique _ _ _ _ Hhist Hcalls).
Qed.

Lemma read_only_reads_witness :
  let calls :=
    history (extract_dataframe_from_snowflake quiet_env uat_connector empty_world).2 in
  forallb (read_call travel_config) calls = true
  /\ (length (List.filter is_execute calls) <= 1)%nat.
Proof.
  exact (read_only_reads quiet_env uat_connector empty_world _ eq_refl).
Defined.

(** X15. The parameters a read leaves behind are those of every later
    session on the same dictionary: a second read through the same
    connector changes no dictionary, and a load through any connector that
    shares the dictionary opens its session with the database and the
    schema of the reader, whatever its own configuration names. *)
Theorem sessions_after_a_read (env env' : Env) (reader loader : SnowflakeConnector)
    (odf : option DataFrame) (w : world) :
  connection_params loader = connection_params reader ->
  let w1 := (extract_dataframe_from_snowflake env reader w).2 in
  heap (extract_dataframe_from_snowflake env' reader w1).2 = heap w1
  /\ exists kwargs reply rest,
       history (load_dataframe_to_snowflake env' loader odf w1).2
       = (history w1 ++ mkEntry (CallConnect kwargs) reply :: rest)%list
       /\ kwargs !! "database" = Some (database (config reader))
       /\ kwargs !! "schema" = Some (schema (config reader)).
Proof.
  intros Hshared w1.
  destruct (read_run env reader w) as (calls & _ & Hheap & _).
  fold w1 in Hheap.
  assert (deref (connection_params reader) w1 = read_params reader w) as Hparams.
  { unfold deref. by rewrite Hheap, lookup_insert_eq. }
  split.
  - destruct (read_run env' reader w1) as (calls' & _ & Hheap' & _).
    rewrite Hheap'. unfold read_params at 1. rewrite Hparams.
    destruct (read_params_lookup reader w) as [Hdb Hsc].
    rewrite (insert_id (read_params reader w) "database" _ Hdb).
    rewrite (insert_id (read_params reader w) "schema" _ Hsc).
    rewrite Hheap. apply insert_insert_eq.
  - destruct (load_run env' loader odf w1) as (calls' & Hhist & _ & Hfirst & _).
    destruct Hfirst as (reply & rest & ->).
    exists (deref (connection_params loader) w1), reply, rest.
    split; [exact Hhist|]. rewrite Hshared, Hparams. apply read_params_lookup.
Qed.

Lemma sessions_after_a_read_witness :
  let w1 := (extract_dataframe_from_snowflake quiet_env uat_connector empty_world).2 in
  heap (extract_dataframe_from_snowflake quiet_env uat_connector w1).2 = heap w1
  /\ exists kwargs reply rest,
       history (load_dataframe_to_snowflake quiet_env archive_connector
                  (Some travel_frame) w1).2
       = (history w1 ++ mkEntry (CallConnect kwargs) reply :: rest)%list
       /\ kwargs !! "database" = Some "TSA_UAT"
       /\ kwargs !! "schema" = Some "PUBLIC".
Proof.
  exact (sessions_after_a_read quiet_env quiet_env uat_connector archive_connector
           (Some travel_frame) empty_world eq_refl).
Defined.

(** ** The command line and the driver *)

Lemma parse_environment_cases (given : option string) (environment : string) :
  parse_environment given = Ok environment ->
  (environment = "prod" \/ environment = "uat")
  /\ environment = default "uat" given.
Proof.
  unfold parse_environment. destruct given as [v|].
  - destruct (existsb (String.eqb v) ["prod"; "uat"]) eqn:Hin; [|discriminate].
    intros H. inversion H; subst. split; [|reflexivity].
    simpl in Hin. apply orb_true_iff in Hin as [Hp|Hin].
    + left. by apply String.eqb_eq.
    + right. apply orb_true_iff in Hin as [Hu|Hf]; [|discriminate].
      by apply String.eqb_eq.
  - intros H. inversion H. split; [by right|reflexivity].
Qed.

Lemma parse_environment_refuses (v : string) :
  v <> "prod" -> v <> "uat" -> parse_environment (Some v) = Raise usage_exit.
Proof.
  intros Hp Hu. unfold parse_environment. simpl.
  apply String.eqb_neq in Hp, Hu. by rewrite Hp, Hu.
Qed.

(** X16. On a valid date, the parsed environment is [prod] or [uat], [uat]
    when the flag is absent, and the Snowflake prefix is empty for [prod]
    and [uat\] for [uat].  An environment outside the two choices is
    refused with the usage exit, and so is a start year that is not an
    integer, whatever the other flag holds. *)
Theorem parse_args_environment (py_int : string -> option Z) (today : date)
    (args : argv) :
  valid_date today ->
  2 <= d_year today ->
  (forall ns,
     parse_args py_int today args = Ok ns ->
     ns_environment ns = default "uat" (arg_environment args)
     /\ ((ns_environment ns = "prod" /\ ns_sf_prefix ns = EmptyString)
         \/ (ns_environment ns = "uat" /\ ns_sf_prefix ns = "uat\")))
  /\ (forall v,
        arg_environment args = Some v -> v <> "prod" -> v <> "uat" ->
        parse_args py_int today args = Raise usage_exit)
  /\ (forall token,
        arg_start_year args = Some token -> py_int token = None ->
        parse_args py_int today args = Raise usage_exit).
Proof.
  intros Hv Hy.
  destruct (minus_365_year today Hv Hy) as (d & Hd & _).
  unfold parse_args, start_year_default. rewrite Hd. simpl.
  split; [|split].
  - intros ns.
    destruct (parse_environment (arg_environment args)) as [environment|e] eqn:Henv;
      simpl; [|discriminate].
    destruct (parse_start_year py_int today (d_year d) (arg_start_year args));
      simpl; [|discriminate].
    intros H. inversion H; subst. simpl.
    destruct (parse_environment_cases _ _ Henv) as [[->| ->] Hdef];
      (split; [exact Hdef|]); [left|right]; by split.
  - intros v -> Hp Hu. by rewrite (parse_environment_refuses v Hp Hu).
  - intros token -> Hno. unfold parse_start_year. rewrite Hno.
    destruct (parse_environment (arg_environment args)) as [environment|e] eqn:Henv;
      simpl; [reflexivity|].
    unfold parse_environment in Henv.
    destruct (arg_environment args) as [g|]; [|discriminate].
    destruct (existsb (String.eqb g) _); [discriminate|]. by inversion Henv.
Qed.

Lemma parse_args_environment_witness :
  parse_args int_of_decimal a_november_day (mkArgv (Some "dev") (Some "2024"))
  = Raise usage_exit
  /\ parse_args int_of_decimal a_november_day (mkArgv (Some "prod") (Some "20x4"))
     = Raise usage_exit.
Proof.
  assert (Hv : valid_date a_november_day) by (repeat split; by vm_compute).
  assert (Hy : 2 <= d_year a_november_day) by (by vm_compute).
  split.
  - apply (proj1 (proj2 (parse_args_environment int_of_decimal a_november_day
                           (mkArgv (Some "dev") (Some "2024")) Hv Hy)) "dev");
      [reflexivity|discriminate|discriminate].
  - apply (proj2 (proj2 (parse_args_environment int_of_decimal a_november_day
                           (mkArgv (Some "prod") (Some "20x4")) Hv Hy)) "20x4");
      reflexivity.
Defined.

Lemma py_range_snoc (lo hi : Z) :
  lo <= hi -> py_range lo (hi + 1) = (py_range lo hi ++ [hi])%list.
Proof.
  intros Hle. unfold py_range.
  replace (Z.to_nat (hi + 1 - lo)) with (S (Z.to_nat (hi - lo))) by lia.
  rewrite seq_S, map_app. simpl. do 2 f_equal. lia.
Qed.

Lemma parse_args_start_year (py_int : string -> option Z) (today : date)
    (args : argv) (ns : Namespace) :
  valid_date today ->
  2 <= d_year today ->
  parse_args py_int today args = Ok ns ->
  ns_start_year ns <= d_year today
  /\ (arg_start_year args = None -> d_year today - 1 <= ns_start_year ns).
Proof.
  intros Hv Hy.
  destruct (minus_365_year today Hv Hy) as (d & Hd & Hyear).
  unfold parse_args, start_year_default. rewrite Hd. simpl.
  destruct (parse_environment (arg_environment args)) as [environment|e];
    simpl; [|discriminate].
  unfold parse_start_year.
  destruct (arg_start_year args) as [token|]; simpl.
  - destruct (py_int token) as [v|]; simpl; [|discriminate].
    destruct (existsb (Z.eqb v) (start_year_choices today)) eqn:Hin;
      simpl; [|discriminate].
    intros H. inversion H; subst. simpl.
    unfold start_year_choices in Hin. apply existsb_py_range in Hin.
    split; [lia|discriminate].
  - intros H. inversion H; subst. simpl. rewrite Hyear.
    destruct (is_leap (d_year today) && (d_month today =? 12) && (d_day today =? 31));
      split; intros; lia.
Qed.

(** X17. A run set up from the command line always has work: the start
    year that [parse_args] returns is not after the current year, so the
    years of [main] end with the current year, whose instance requests the
    bare publication page, after the instances of the earlier years, which
    request the page of their year.  When the start year is not given,
    there are at most two years. *)
Theorem main_after_parse_args (py_int : string -> option Z) (env : Env)
    (base_variables : BaseVariables) (args : argv) (ns : Namespace) :
  valid_date (env_today env) ->
  2 <= now_year env ->
  parse_args py_int (env_today env) args = Ok ns ->
  bv_year base_variables = ns_start_year ns ->
  let years := py_range (bv_year base_variables) (now_year env + 1) in
  (exists earlier,
     years = (earlier ++ [now_year env])%list
     /\ Forall (fun year =>
                  bv_year base_variables <= year < now_year env
                  /\ url (TSAETL_init env base_variables year)
                     = source_url +:+ "/" +:+ str_of_int year) earlier)
  /\ url (TSAETL_init env base_variables (now_year env)) = source_url
  /\ (arg_start_year args = None -> (length years <= 2)%nat).
Proof.
  intros Hv Hy Hparse Hstart years.
  destruct (parse_args_start_year py_int _ args ns Hv Hy Hparse) as [Hle Hdefault].
  fold (now_year env) in Hle, Hdefault. rewrite <- Hstart in Hle, Hdefault.
  split; [|split].
  - exists (py_range (bv_year base_variables) (now_year env)).
    split; [by apply py_range_snoc|].
    apply List.Forall_forall. intros year Hin. apply in_py_range in Hin.
    split; [exact Hin|]. unfold TSAETL_init. simpl.
    destruct (year =? now_year env) eqn:Heq; [lia|reflexivity].
  - unfold TSAETL_init. simpl. by rewrite Z.eqb_refl.
  - intros Hnone. specialize (Hdefault Hnone). unfold years.
    rewrite py_range_length. lia.
Qed.

Lemma main_after_parse_args_witness :
  let years := py_range (bv_year uat_context) (now_year quiet_env + 1) in
  (exists earlier,
     years = (earlier ++ [now_year quiet_env])%list
     /\ Forall (fun year =>
                  bv_year uat_context <= year < now_year quiet_env
                  /\ url (TSAETL_init quiet_env uat_context year)
                     = source_url +:+ "/" +:+ str_of_int year) earlier)
  /\ url (TSAETL_init quiet_env uat_context (now_year quiet_env)) = source_url
  /\ (arg_start_year (mkArgv None (Some "2024")) = None -> (length years <= 2)%nat).
Proof.
  assert (Hv : valid_date (env_today quiet_env)) by (repeat split; by vm_compute).
  assert (Hy : 2 <= now_year quiet_env) by (by vm_compute).
  exact (main_after_parse_args int_of_decimal quiet_env uat_context
           (mkArgv None (Some "2024")) (mkNamespace "uat" 2024 "uat\") Hv Hy
           eq_refl eq_refl).
Defined.

(** X18. With a start year after the current year the driver has nothing to
    do: it builds no instance, calls nothing and returns. *)
Theorem main_with_late_start (env : Env) (base_variables : BaseVariables)
    (run : TSAETL -> M unit) (w : world) :
  now_year env < bv_year base_variables ->
  main_with env base_variables run w = (Ok tt, w)
  /\ main env base_variables w = (Ok tt, w).
Proof.
  intros Hlate.
  assert (py_range (bv_year base_variables) (now_year env + 1) = []) as Hnone.
  { unfold py_range.
    replace (Z.to_nat (now_year env + 1 - bv_year base_variables)) with 0%nat by lia.
    reflexivity. }
  unfold main. rewrite !main_with_for_each, Hnone. by split.
Qed.

Lemma main_with_late_start_witness :
  main_with quiet_env
    (mkBaseVariables "uat" "uat\" 2030 1%positive "TSA" "PUBLIC" "PASSENGERS")
    noting_url empty_world
  = (Ok tt, empty_world)
  /\ main quiet_env
       (mkBaseVariables "uat" "uat\" 2030 1%positive "TSA" "PUBLIC" "PASSENGERS")
       empty_world
     = (Ok tt, empty_world).
Proof.
  apply (main_with_late_start quiet_env
           (mkBaseVariables "uat" "uat\" 2030 1%positive "TSA" "PUBLIC" "PASSENGERS")
           noting_url empty_world).
  by vm_compute.
Defined.

(** ** The summary of the dashboard on columns with nulls and on the output
    of the pipeline *)






Lemma series_summary_nil : series_summary [] = CStr EmptyString.
Proof. reflexivity. Qed.

(** X20. On a table without rows whose columns other than TRAVEL_DATE and
    VALUE carry distinct labels, the summary still has one row per such
    column, and every Metadata value is the empty text; its two columns
    hold texts (dtype [object]), or nothing at all (dtype [float64]) when
    the table has no such column. *)
Theorem extract_metadata_no_rows (source : DataFrame) :
  NoDup (metadata_columns source) ->
  rectangular 0 source ->
  let dtype :=
    match metadata_columns source with [] => "float64" | _ :: _ => "object" end in
  extract_metadata source
  = Ok [ mkColumn "Fields" dtype (map CStr (metadata_columns source));
         mkColumn "Metadata" dtype
           (map (fun _ => CStr EmptyString) (metadata_columns source)) ].
Proof.
  intros Hnd Hrect dtype. rewrite (extract_metadata_rows source Hnd).
  assert (map (fun c => series_summary (col_cells c)) (other_columns source)
          = map (fun c => CStr ((fun _ => EmptyString) c)) (other_columns source)) as ->.
  { apply map_ext_in. intros c Hc.
    unfold other_columns in Hc. apply filter_In in Hc as [Hc _].
    unfold rectangular in Hrect. rewrite List.Forall_forall in Hrect.
    specialize (Hrect c Hc). apply length_zero_iff_nil in Hrect.
    by rewrite Hrect. }
  unfold dtype. rewrite metadata_columns_other, !map_map.
  destruct (other_columns source) as [|c rest]; reflexivity.
Qed.

Lemma extract_metadata_no_rows_witness :
  extract_metadata
    [ mkColumn "TRAVEL_DATE" "object" [];
      mkColumn "VALUE" "int64" [];
      mkColumn "COUNTRY" "object" [] ]
  = Ok [ mkColumn "Fields" "object" [CStr "COUNTRY"];
         mkColumn "Metadata" "object" [CStr EmptyString] ].
Proof.
  apply (extract_metadata_no_rows
           [ mkColumn "TRAVEL_DATE" "object" [];
             mkColumn "VALUE" "int64" [];
             mkColumn "COUNTRY" "object" [] ]).
  - apply (bool_decide_unpack (NoDup _)). by vm_compute.
  - repeat constructor.
Defined.

Lemma series_summary_repeat (s : string) (n : nat) :
  n <> 0%nat -> series_summary (repeat (CStr s) n) = CStr s.
Proof.
  intros Hn. apply series_summary_spec.
  - apply List.Forall_forall. intros c Hc. apply repeat_spec in Hc. by subst.
  - split.
    + destruct n; [done|discriminate].
    + apply List.Forall_forall. intros c Hc. apply repeat_spec in Hc. by subst.
Qed.

(** X21. What the pipeline writes is what the dashboard shows: on the table
    that [transform] makes of a two-column page with at least one row, the
    summary has the five rows COUNTRY, FREQUENCY, SERIES_ID, SOURCE and
    UNIT, in this order, each with the one value the pipeline put in every
    row of the column. *)
Theorem metadata_of_transformed (env : Env) (base_variables : BaseVariables) (year : Z)
    (dates_dtype numbers_dtype : string) (dates numbers parsed : list cell) :
  to_dates (env_today env) dates = Ok parsed ->
  dates <> [] ->
  exists out,
    transform_frame (env_today env) (metadata (TSAETL_init env base_variables year))
      [ mkColumn "Date" dates_dtype dates; mkColumn "Numbers" numbers_dtype numbers ]
    = Ok out
    /\ extract_metadata out
       = Ok [ mkColumn "Fields" "object"
                [ CStr "COUNTRY"; CStr "FREQUENCY"; CStr "SERIES_ID"; CStr "SOURCE";
                  CStr "UNIT" ];
              mkColumn "Metadata" "object"
                [ CStr "US"; CStr "daily";
                  CStr (bv_prefix base_variables +:+ "TSA\passenger_volumes");
                  CStr "https://www.tsa.gov/travel/passenger-volumes";
                  CStr "number_of" ] ].
Proof.
  intros Hparsed Hrows.
  assert (length parsed <> 0%nat) as Hn.
  { rewrite (to_dates_length _ _ _ Hparsed). by destruct dates. }
  set (filled := fun value => repeat (CStr value) (length parsed)).
  exists [ mkColumn "TRAVEL_DATE" "object" parsed;
           mkColumn "VALUE" numbers_dtype numbers;
           mkColumn "COUNTRY" "object" (filled "US");
           mkColumn "FREQUENCY" "object" (filled "daily");
           mkColumn "SERIES_ID" "object"
             (filled (bv_prefix base_variables +:+ "TSA\passenger_volumes"));
           mkColumn "SOURCE" "object" (filled source_url);
           mkColumn "UNIT" "object" (filled "number_of") ].
  split.
  - by rewrite (transform_frame_two_columns _ _ _ _ _ _ _ Hparsed).
  - rewrite extract_metadata_rows.
    + unfold filled. cbn -[series_summary].
      rewrite !(series_summary_repeat _ _ Hn). reflexivity.
    + apply (bool_decide_unpack (NoDup _)). by vm_compute.
Qed.

Lemma metadata_of_transformed_witness :
  exists out,
    transform_frame (mkDate 2026 11 4) (metadata uat_pipeline) archive_page = Ok out
    /\ extract_metadata out
       = Ok [ mkColumn "Fields" "object"
                [ CStr "COUNTRY"; CStr "FREQUENCY"; CStr "SERIES_ID"; CStr "SOURCE";
                  CStr "UNIT" ];
              mkColumn "Metadata" "object"
                [ CStr "US"; CStr "daily";
                  CStr ("uat\" +:+ "TSA\passenger_volumes");
                  CStr "https://www.tsa.gov/travel/passenger-volumes";
                  CStr "number_of" ] ].
Proof.
  apply (metadata_of_transformed quiet_env uat_context 2022 "object" "int64"
           [CStr "1/2/2022"; CStr "1/1/2022"] [CInt 200; CInt 100]
           [CDate (mkDate 2022 1 2); CDate (mkDate 2022 1 1)]).
  - reflexivity.
  - discriminate.
Defined.
